(** * data-cdc-gov-metadata.py: a shallow embedding and its properties

    The script joins three sources keyed by a socrata id: the list of
    dataset homepages scraped from the sitemaps, the list of downloaded
    file names, and the metadata returned by the socrata catalog and the
    Internet Archive.  This development embeds the script function by
    function and proves the properties its specification states.

    Conventions of the embedding.
    - A Python [str] is a [string]: a sequence of characters with code
      points below 256.  On that range [\d] is [0-9] and
      [str.isspace] holds of the eleven characters listed in [isspace].
    - A Python [dict] is an association list in insertion order with
      pairwise distinct keys ([Dict]); the records the script builds
      ([values], [ret], the inner download dictionaries) are such
      dictionaries from [str] to [str], and reading a missing key raises
      [KeyError] as in Python.
    - A text file is the list of strings its [readline] calls return, in
      order; at the end of the list [readline] returns the empty string.
    - The two remote services and the two standard-library URL helpers
      are parameters of the section [Script]. *)

From Stdlib Require Import String Ascii List ZArith Lia Bool Arith.
From Stdlib Require Import Sorting.Sorted Sorting.Permutation.
Import ListNotations.
Local Open Scope string_scope.
Local Open Scope list_scope.
Local Open Scope nat_scope.

Set Implicit Arguments.

(* ------------------------------------------------------------------ *)
(** ** Python strings *)

Module Py.

Definition code (c : ascii) : nat := nat_of_ascii c.

Definition between (lo hi : nat) (c : ascii) : bool :=
  (lo <=? code c) && (code c <=? hi).

(** [[0-9]], which is also [\d] on code points below 256. *)
Definition isdigit (c : ascii) : bool := between 48 57 c.

(** The character class [[a-zA-Z0-9]]. *)
Definition isalnum (c : ascii) : bool :=
  between 97 122 c || between 65 90 c || between 48 57 c.

(** [str.isspace] on code points below 256: TAB, LF, VT, FF, CR, the four
    separators 0x1c-0x1f, SPACE, NEL (0x85) and NBSP (0xa0). *)
Definition isspace (c : ascii) : bool :=
  between 9 13 c || between 28 32 c || (code c =? 133) || (code c =? 160).

Definition newline : ascii := ascii_of_nat 10.
Definition nl : string := String newline EmptyString.

Fixpoint all_chars (p : ascii -> bool) (s : string) : bool :=
  match s with
  | EmptyString => true
  | String c s' => p c && all_chars p s'
  end.

(** [s.rstrip()]: drop the trailing whitespace. *)
Fixpoint rstrip (s : string) : string :=
  match s with
  | EmptyString => EmptyString
  | String c s' =>
      match rstrip s' with
      | EmptyString => if isspace c then EmptyString else String c EmptyString
      | t => String c t
      end
  end.

(** [s.split(',')]: the pieces between the commas, always at least one. *)
Fixpoint split_on (sep : ascii) (s : string) : list string :=
  match s with
  | EmptyString => [EmptyString]
  | String c s' =>
      if Ascii.eqb c sep then EmptyString :: split_on sep s'
      else match split_on sep s' with
           | [] => [String c EmptyString]
           | p :: ps => String c p :: ps
           end
  end.

(** Comparison of [str] values: lexicographic on code points, a proper
    prefix first. *)
Fixpoint str_leb (a b : string) : bool :=
  match a, b with
  | EmptyString, _ => true
  | String _ _, EmptyString => false
  | String x a', String y b' =>
      if code x <? code y then true
      else if code y <? code x then false
      else str_leb a' b'
  end.

Definition str_ltb (a b : string) : bool := negb (str_leb b a).

(** The lines [readline] returns for a text: each ends with its newline,
    except possibly the last. *)
Fixpoint lines_of_text (s : string) : list string :=
  match s with
  | EmptyString => []
  | String c s' =>
      if Ascii.eqb c newline then nl :: lines_of_text s'
      else match lines_of_text s' with
           | [] => [String c EmptyString]
           | l :: ls => String c l :: ls
           end
  end.

End Py.

(* ------------------------------------------------------------------ *)
(** ** Python dictionaries *)

Module Dict.

Definition t (V : Type) : Type := list (string * V).

Definition empty {V} : t V := [].

Fixpoint get {V} (k : string) (d : t V) : option V :=
  match d with
  | [] => None
  | (k', v) :: d' => if String.eqb k k' then Some v else get k d'
  end.

Definition mem {V} (k : string) (d : t V) : bool :=
  match get k d with Some _ => true | None => false end.

(** [d[k] = v]: an existing key keeps its place, a new one goes last. *)
Fixpoint set {V} (k : string) (v : V) (d : t V) : t V :=
  match d with
  | [] => [(k, v)]
  | (k', v') :: d' =>
      if String.eqb k k' then (k, v) :: d' else (k', v') :: set k v d'
  end.

(** [d.update(e)] *)
Fixpoint update {V} (d e : t V) : t V :=
  match e with
  | [] => d
  | (k, v) :: e' => update (set k v d) e'
  end.

Definition keys {V} (d : t V) : list string := map fst d.

End Dict.

(* ------------------------------------------------------------------ *)
(** ** The regular expressions of the script

    The fragment of [re] the two patterns are written in, with a
    backtracking matcher.  [pos] counts the characters consumed since the
    start of the subject, [s] is what is left of it. *)

Module Re.

Inductive regex : Type :=
| Bol                                  (* ^ *)
| Eol                                  (* $ *)
| Chr (c : ascii)                      (* a literal character *)
| Class (p : ascii -> bool)            (* [...] or \d *)
| Plus (p : ascii -> bool)             (* [...]+ or \d+, greedy *)
| Cat (r1 r2 : regex)
| Named (name : string) (r : regex).   (* (?P<name>r) *)

Definition groups : Type := Dict.t string.

Definition cont : Type := nat -> string -> groups -> option groups.

(** [$] without MULTILINE: at the end of the subject, or just before a
    newline that ends it. *)
Definition at_end (s : string) : bool :=
  match s with
  | EmptyString => true
  | String c EmptyString => Ascii.eqb c Py.newline
  | _ => false
  end.

Fixpoint take (n : nat) (s : string) : string :=
  match n, s with
  | S n', String c s' => String c (take n' s')
  | _, _ => EmptyString
  end.

(** One or more characters of the class, the longest run first. *)
Fixpoint plus (p : ascii -> bool) (pos : nat) (s : string) (g : groups)
    (k : cont) : option groups :=
  match s with
  | EmptyString => None
  | String c s' =>
      if p c then
        match plus p (S pos) s' g k with
        | Some r => Some r
        | None => k (S pos) s' g
        end
      else None
  end.

Fixpoint run (r : regex) (pos : nat) (s : string) (g : groups) (k : cont)
    : option groups :=
  match r with
  | Bol => if pos =? 0 then k pos s g else None
  | Eol => if at_end s then k pos s g else None
  | Chr c =>
      match s with
      | String c' s' => if Ascii.eqb c' c then k (S pos) s' g else None
      | EmptyString => None
      end
  | Class p =>
      match s with
      | String c' s' => if p c' then k (S pos) s' g else None
      | EmptyString => None
      end
  | Plus p => plus p pos s g k
  | Cat r1 r2 => run r1 pos s g (fun pos' s' g' => run r2 pos' s' g' k)
  | Named name r =>
      run r pos s g
        (fun pos' s' g' => k pos' s' (Dict.set name (take (pos' - pos) s) g'))
  end.

Definition accept : cont := fun _ _ g => Some g.

(** [re.match(r, s)]: a match that starts at position 0. *)
Definition re_match (r : regex) (s : string) : option groups :=
  run r 0 s Dict.empty accept.

(** [re.search(r, s)]: the first position a match starts at. *)
Fixpoint search_from (r : regex) (pos : nat) (s : string) : option groups :=
  match run r pos s Dict.empty accept with
  | Some g => Some g
  | None =>
      match s with
      | EmptyString => None
      | String _ s' => search_from r (S pos) s'
      end
  end.

Definition re_search (r : regex) (s : string) : option groups :=
  search_from r 0 s.

(** [r{4}] *)
Definition four (r : regex) : regex := Cat r (Cat r (Cat r r)).

End Re.

(* ------------------------------------------------------------------ *)
(** ** Exceptions and results *)

Inductive exn : Type :=
| ValueError
| OverflowError
| OSError
| IndexError
| KeyError (key : string).

Inductive result (A : Type) : Type :=
| Ok (a : A)
| Raise (e : exn).
Arguments Ok {A} a.
Arguments Raise {A} e.

Definition rbind {A B} (r : result A) (f : A -> result B) : result B :=
  match r with
  | Ok a => f a
  | Raise e => Raise e
  end.

(** [d[k]] *)
Definition item {V} (k : string) (d : Dict.t V) : result V :=
  match Dict.get k d with
  | Some v => Ok v
  | None => Raise (KeyError k)
  end.

(** [match.group(name)] *)
Definition group (name : string) (m : Re.groups) : result string :=
  match Dict.get name m with
  | Some v => Ok v
  | None => Raise IndexError
  end.

(* ------------------------------------------------------------------ *)
(** ** Timestamps: [float], [datetime.utcfromtimestamp], [strftime]

    A finite binary64 number is [m * 2^e] with integers [m] and [e];
    conversion from a decimal and the product by [1e6] round to the
    nearest such number, ties to even, as IEEE 754 and CPython do.  All
    arithmetic is exact arithmetic on [Z]. *)

Module Time.
Local Open Scope Z_scope.

Inductive pyfloat : Type :=
| Finite (m e : Z)
| Inf.

(** [n / d] rounded to the nearest integer, ties to even. *)
Definition round_half_even (n d : Z) : Z :=
  let q := n / d in
  let r := n mod d in
  if 2 * r <? d then q
  else if d <? 2 * r then q + 1
  else if Z.even q then q else q + 1.

(** The fraction [(n / d) / 2^e]. *)
Definition scale (n d e : Z) : Z * Z :=
  if 0 <=? e then (n, d * 2 ^ e) else (n * 2 ^ (- e), d).

(** The binary64 number nearest to [n / d], for [n >= 0] and [d > 0]:
    53 significant bits, exponent not below -1074, infinite from
    [2^1024] on. *)
Definition to_double (n d : Z) : pyfloat :=
  if n <=? 0 then Finite 0 0
  else
    let l0 := Z.log2 n - Z.log2 d in
    let l := let '(a, b) := scale n d l0 in if b <=? a then l0 else l0 - 1 in
    let e := Z.max (l - 52) (-1074) in
    let '(a, b) := scale n d e in
    let m := round_half_even a b in
    if (0 <=? e) && (2 ^ 1024 <=? m * 2 ^ e) then Inf else Finite m e.

Fixpoint digits (acc : Z) (s : string) : Z :=
  match s with
  | EmptyString => acc
  | String c s' => digits (10 * acc + (Z.of_nat (Py.code c) - 48)) s'
  end.

Definition nonempty (s : string) : bool :=
  match s with EmptyString => false | _ => true end.

(** [float(ts)] for a text of the shape [\d+\.\d+], the only shape the
    script passes; any other text is answered with [ValueError] here. *)
Definition float (ts : string) : result pyfloat :=
  match Py.split_on "." ts with
  | [i; f] =>
      if nonempty i && nonempty f && Py.all_chars Py.isdigit i
         && Py.all_chars Py.isdigit f
      then Ok (to_double (digits 0 (i ++ f)) (10 ^ Z.of_nat (String.length f)))
      else Raise ValueError
  | _ => Raise ValueError
  end.

Record datetime : Type := {
  year : Z; month : Z; day : Z;
  hour : Z; minute : Z; second : Z; microsecond : Z
}.

(** The proleptic Gregorian date of a day number counted from 1970-01-01. *)
Definition civil_from_days (days : Z) : Z * Z * Z :=
  let z := days + 719468 in
  let era := z / 146097 in
  let doe := z mod 146097 in
  let yoe := (doe - doe / 1460 + doe / 36524 - doe / 146096) / 365 in
  let doy := doe - (365 * yoe + yoe / 4 - yoe / 100) in
  let mp := (5 * doy + 2) / 153 in
  let d := doy - (153 * mp + 2) / 5 + 1 in
  let m := if mp <? 10 then mp + 3 else mp - 9 in
  let y := yoe + era * 400 + (if m <=? 2 then 1 else 0) in
  (y, m, d).

(** 9999-12-31 23:59:59, the last second a [datetime] holds. *)
Definition max_seconds : Z := 253402300799.

(** The last second whose year fits the [int] of a C [struct tm]
    (2147485547-12-31 23:59:59): [gmtime] fails past it. *)
Definition gmtime_max_seconds : Z := 67768036191676799.

(** [datetime.utcfromtimestamp(x)] for [x >= 0] (CPython 3.6 to 3.11 on
    a platform with a 64-bit [time_t] and the C library's [gmtime]): the
    fraction is scaled to microseconds in binary64 and rounded half to
    even, a full million carries into the seconds.  A timestamp past the
    year 9999 raises: [OverflowError] when the seconds are more than
    [2^63] and do not pass the range check of the conversion to
    [time_t], [OSError] when [gmtime] fails on them (errno 75), and
    [ValueError] when [gmtime] succeeds and the year is refused. *)
Definition utcfromtimestamp (x : pyfloat) : result datetime :=
  match x with
  | Inf => Raise OverflowError
  | Finite m e =>
      let intpart := if 0 <=? e then m * 2 ^ e else m / 2 ^ (- e) in
      let fnum := if 0 <=? e then 0 else m mod 2 ^ (- e) in
      let fden := if 0 <=? e then 1 else 2 ^ (- e) in
      match to_double (fnum * 1000000) fden with
      | Inf => Raise OverflowError
      | Finite m' e' =>
          let '(a, b) := scale m' 1 (- e') in
          let us := round_half_even a b in
          let secs := if 1000000 <=? us then intpart + 1 else intpart in
          let us' := if 1000000 <=? us then us - 1000000 else us in
          if 2 ^ 63 <? secs then Raise OverflowError
          else if gmtime_max_seconds <? secs then Raise OSError
          else if max_seconds <? secs then Raise ValueError
          else
            let '(y, mo, d) := civil_from_days (secs / 86400) in
            let r := secs mod 86400 in
            Ok {| year := y; month := mo; day := d;
                  hour := r / 3600; minute := (r mod 3600) / 60;
                  second := r mod 60; microsecond := us' |}
      end
  end.

Definition digit (n : Z) : ascii := ascii_of_nat (48 + Z.to_nat (n mod 10)).

(** [%m], [%d], [%H], [%M], [%S]: two digits. *)
Definition d2 (n : Z) : string :=
  String (digit (n / 10)) (String (digit n) EmptyString).

(** [%Y] for the years 1000 to 9999: four digits. *)
Definition d4 (n : Z) : string :=
  String (digit (n / 1000)) (String (digit (n / 100)) (d2 n)).

(** [t.strftime("%Y-%m-%d %H:%M:%S UTC")] *)
Definition strftime (t : datetime) : string :=
  d4 (year t) ++ "-" ++ d2 (month t) ++ "-" ++ d2 (day t) ++ " "
  ++ d2 (hour t) ++ ":" ++ d2 (minute t) ++ ":" ++ d2 (second t) ++ " UTC".

End Time.

(* ------------------------------------------------------------------ *)
(** ** The identifier validator and the two patterns *)

(** [^[a-zA-Z0-9]{4}-[a-zA-Z0-9]{4}$] *)
Definition socrata_id_pattern : Re.regex :=
  Re.Cat Re.Bol
    (Re.Cat (Re.four (Re.Class Py.isalnum))
       (Re.Cat (Re.Chr "-")
          (Re.Cat (Re.four (Re.Class Py.isalnum)) Re.Eol))).

Definition is_socrata_id (input_string : string) : bool :=
  match Re.re_match socrata_id_pattern input_string with
  | Some _ => true
  | None => false
  end.

(** [^(?P<socrata_id>[a-zA-Z0-9]+-[a-zA-Z0-9]+)_(?P<timestamp>\d+\.\d+)_] *)
Definition download_pattern : Re.regex :=
  Re.Cat Re.Bol
    (Re.Cat
       (Re.Named "socrata_id"
          (Re.Cat (Re.Plus Py.isalnum)
             (Re.Cat (Re.Chr "-") (Re.Plus Py.isalnum))))
       (Re.Cat (Re.Chr "_")
          (Re.Cat
             (Re.Named "timestamp"
                (Re.Cat (Re.Plus Py.isdigit)
                   (Re.Cat (Re.Chr ".") (Re.Plus Py.isdigit))))
             (Re.Chr "_")))).

(* ------------------------------------------------------------------ *)
(** ** Constants of the script *)

Definition sitemap_data_fname : string := "cdc_data_sitemap_data.csv".
Definition downloads_fname : string := "cdc_data_downloads.csv".

Definition dq : string := String (ascii_of_nat 34) EmptyString.

(** [header_text.splitlines()] *)
Definition header_lines : list string :=
  [ "This is supplementary information for a series of data.cdc.gov dataset snapshots taken in January 2025.";
    "Methodology notes:        ";
    "In January 2025, the sitemaps.xml files for data.cdc.gov were used to come up with a list of dataset homepages served by that host.";
    "From there, the datasets themselves were downloaded (download_filename, downloaded_ts). The socrata id was inferred from the dataset homepage's URL, and the downloaded filename became: socrata-id_download-timestamp-as-unix-epoch_name-downloaded-file-name.";
    "To construct the rest of this documentation, socrata metadata was queried for the id. If found, the socrata name metadata became the dataset_name column, and the socrata_description became the description column.";
    ("All the socrata metadata is a single string in the additional metadata column. The socrata metadata was queried on Feb. 13. 2025. If the socrata metadata query was unsuccessful, the "
      ++ dq ++ "UNKN_SOC_NAME" ++ dq ++ " name was used.")%string;
    "The dataset homepages include metadata about the datasets themselves and change over time. The Internet Archive has snapshots of these homepages, and links to the snpshots are in the Internet Archive snapshots column.";
    "The data are ordered by dataset name and may contain more than one dataset endpoint, identified by socrata id.";
    "";
    "The dataset snapshots are available at: https://cdcdotgovarchive.org/CDC_datasets/.";
    "The script that built this is here: https://github.com/YakShavingAsAService/data.cdc.gov-metadata " ].

Definition header_row : list string :=
  [ "dataset name"; "socrata id"; "download filename"; "downloaded ts";
    "dataset homepage"; "description"; "Internet Archive snapshots";
    "addtl socrata metadata" ].

(* ------------------------------------------------------------------ *)
(** ** Effects: the log, the console, the two services, the pause

    A log or console line is kept as its format and the strings
    substituted into it (for an argument that is a dictionary or a list,
    the strings it holds). *)

Inductive level : Type := DEBUG | INFO | ERROR.

Inductive event : Type :=
| Log (lv : level) (format : string) (args : list string)
| Print (format : string) (args : list string)
| CatalogCall (socrata_id : string)
| ArchiveCall (memento_url : string)
| Sleep (seconds : nat).

(** What [requests.get] does: a response, or an exception. *)
Inductive http : Type :=
| Response (status_code : nat) (text : string)
| RequestFailed.

(** [{ 'socrata_id': ..., 'homepage_url': ... }] *)
Record homepage_line : Type := {
  socrata_id_of : option string;
  homepage_url_of : string
}.

(** A dataset record ([values]) and a download record. *)
Definition record : Type := Dict.t string.

(** The state of the reconciliation loop. *)
Record engine : Type := {
  results_dict : Dict.t (list record);
  download_files_processed : Dict.t bool
}.

Definition is_empty (s : string) : bool :=
  match s with EmptyString => true | _ => false end.

(** The loops at lines 203-205 and 271-273: every download record
    overwrites the two snapshot fields. *)
Fixpoint snapshot_loop (download_file_dict_list : list record)
    (values : record) : result record :=
  match download_file_dict_list with
  | [] => Ok values
  | download_file_dict :: rest =>
      rbind (item "download_filename" download_file_dict) (fun fn =>
      rbind (item "download_ts" download_file_dict) (fun ts =>
      snapshot_loop rest
        (Dict.set "dataset_snapshot_dl_ts" ts
           (Dict.set "dataset_snapshot_filename" fn values))))
  end.

(** [results_dict[name].append(values)], or a new one-element list. *)
Definition add_result (name : string) (values : record)
    (results : Dict.t (list record)) : Dict.t (list record) :=
  match Dict.get name results with
  | Some l => Dict.set name (l ++ [values]) results
  | None => Dict.set name [values] results
  end.

(** Lines 286-290. *)
Fixpoint add_leftovers (leftover_downloads_list : list record)
    (results : Dict.t (list record)) : result (Dict.t (list record)) :=
  match leftover_downloads_list with
  | [] => Ok results
  | leftover_downloads :: rest =>
      rbind (item "soc_name" leftover_downloads) (fun name =>
      add_leftovers rest (add_result name leftover_downloads results))
  end.

(* ------------------------------------------------------------------ *)
(** ** The report rows *)

(** [sorted(l)] and [sorted(l, key=...)] are stable; on a total preorder
    every stable sort returns the same list, here by insertion. *)
Fixpoint insert_sorted {A} (leb : A -> A -> bool) (x : A) (l : list A)
    : list A :=
  match l with
  | [] => [x]
  | y :: l' => if leb x y then x :: y :: l' else y :: insert_sorted leb x l'
  end.

Fixpoint sorted {A} (leb : A -> A -> bool) (l : list A) : list A :=
  match l with
  | [] => []
  | x :: l' => insert_sorted leb x (sorted leb l')
  end.

(** The keys [lambda x: x['socrata_id']] of a list, computed first. *)
Fixpoint with_keys (l : list record) : result (list (string * record)) :=
  match l with
  | [] => Ok []
  | x :: l' =>
      rbind (item "socrata_id" x) (fun k =>
      rbind (with_keys l') (fun kl => Ok ((k, x) :: kl)))
  end.

Definition key_leb (a b : string * record) : bool :=
  Py.str_leb (fst a) (fst b).

Definition sorted_by_socrata_id (l : list record) : result (list record) :=
  rbind (with_keys l) (fun kl => Ok (map snd (sorted key_leb kl))).

(** The row written for [ds] under [name]. *)
Definition data_row (name : string) (ds : record) : result (list string) :=
  rbind (item "socrata_id" ds) (fun c1 =>
  rbind (item "dataset_snapshot_filename" ds) (fun c2 =>
  rbind (item "dataset_snapshot_dl_ts" ds) (fun c3 =>
  rbind (item "homepage" ds) (fun c4 =>
  rbind (item "soc_description" ds) (fun c5 =>
  rbind (item "internet_archive_snapshots" ds) (fun c6 =>
  rbind (item "socrata_meta" ds) (fun c7 =>
  Ok [name; c1; c2; c3; c4; c5; c6; c7]))))))).

Fixpoint data_rows (name : string) (l : list record)
    : result (list (list string)) :=
  match l with
  | [] => Ok []
  | ds :: l' =>
      rbind (data_row name ds) (fun r =>
      rbind (data_rows name l') (fun rs => Ok (r :: rs)))
  end.

Fixpoint group_rows (results : Dict.t (list record)) (names : list string)
    : result (list (list string)) :=
  match names with
  | [] => Ok []
  | name :: names' =>
      rbind (item name results) (fun l =>
      rbind (sorted_by_socrata_id l) (fun sorted_datasets =>
      rbind (data_rows name sorted_datasets) (fun rs =>
      rbind (group_rows results names') (fun rest => Ok (rs ++ rest)))))
  end.

(** Lines 294-310: the rows written to dataset_documentation.csv. *)
Definition report (results : Dict.t (list record))
    : result (list (list string)) :=
  rbind (group_rows results (sorted Py.str_leb (Dict.keys results)))
    (fun rows => Ok (map (fun hl => [hl]) header_lines ++ header_row :: rows)).

(* ------------------------------------------------------------------ *)
(** ** The script *)

Section Script.

(** The outside world: whatever the two services answer from. *)
Variable World : Type.

(** [rt.find_socrata_dataset_by_id]: the mapping it returns ([None] for
    Python's [None]; an empty mapping is falsy as well) and the text it
    wrote to standard output meanwhile.  The values of the mapping are
    taken as strings: the script reads three of them and hands the
    mapping as a whole to [str]. *)
Variable find_socrata_dataset_by_id :
  string -> World -> (option (Dict.t string) * string) * World.

(** [str(socrata_meta)] *)
Variable str_of_meta : Dict.t string -> string.

(** [requests.get] *)
Variable requests_get : string -> World -> http * World.

(** [urlparse(url).path]; [None] when [urlparse] raises [ValueError]. *)
Variable urlparse_path : string -> option string.

(** [Path(path).name] *)
Variable path_name : string -> string.

Record state : Type := { world : World; trace : list event }.

Definition M (A : Type) : Type := state -> result A * state.

Definition ret {A} (a : A) : M A := fun st => (Ok a, st).

Definition bind {A B} (m : M A) (f : A -> M B) : M B :=
  fun st =>
    match m st with
    | (Ok a, st') => f a st'
    | (Raise e, st') => (Raise e, st')
    end.

Definition lift {A} (r : result A) : M A := fun st => (r, st).

Definition emit (e : event) : M unit :=
  fun st => (Ok tt, {| world := world st; trace := trace st ++ [e] |}).

Definition log (lv : level) (format : string) (args : list string) : M unit :=
  emit (Log lv format args).

Notation "x <- m ;; k" := (bind m (fun x => k))
  (at level 61, m at next level, right associativity).
Notation "' p <- m ;; k" := (bind m (fun x => let 'p := x in k))
  (at level 61, p pattern, m at next level, right associativity).
Notation "m ;;; k" := (bind m (fun _ => k))
  (at level 61, right associativity).

(** Lines 72-93, one turn of the loop on a stripped, non-empty line. *)
Definition download_entry (line : string)
    (results : Dict.t (list record)) : M (Dict.t (list record)) :=
  match Re.re_search download_pattern line with
  | None =>
      log ERROR
        "this downloaded file name %s cannot be mapped to a socrata_id?!? skipping it"
        [line] ;;;
      ret results
  | Some m =>
      socrata_id <- lift (group "socrata_id" m) ;;
      ts <- lift (group "timestamp" m) ;;
      ts_float <- lift (Time.float ts) ;;
      utc_time <- lift (Time.utcfromtimestamp ts_float) ;;
      let download_ts := Time.strftime utc_time in
      let entry : record :=
        [("download_filename", line); ("download_ts", download_ts)] in
      match Dict.get socrata_id results with
      | Some l =>
          log INFO "this socrata id %s appears more than once in %s?!?"
            [socrata_id; downloads_fname] ;;;
          ret (Dict.set socrata_id (l ++ [entry]) results)
      | None => ret (Dict.set socrata_id [entry] results)
      end
  end.

Fixpoint build_loop (downloadsf : list string)
    (results : Dict.t (list record)) : M (Dict.t (list record)) :=
  match downloadsf with
  | [] => ret results
  | raw :: rest =>
      let line := Py.rstrip raw in
      if is_empty line then ret results
      else
        results' <- download_entry line results ;;
        build_loop rest results'
  end.

Definition build_download_file_dict (downloadsf : list string)
    : M (Dict.t (list record)) :=
  build_loop downloadsf Dict.empty.

(** [raw] is what [inputf.readline()] returned. *)
Definition get_next_homepage_url_line (raw : string)
    : M (option homepage_line) :=
  let line := Py.rstrip raw in
  if is_empty line then ret None
  else
    match Py.split_on "," line with
    | [sitemap_url; homepage_url] =>
        match urlparse_path homepage_url with
        | None => lift (Raise ValueError)
        | Some path =>
            let socrata_id := path_name path in
            if negb (is_socrata_id socrata_id) then
              log ERROR "could not find a socrata id in %s ???"
                [homepage_url] ;;;
              ret (Some {| socrata_id_of := None;
                           homepage_url_of := homepage_url |})
            else
              ret (Some {| socrata_id_of := Some socrata_id;
                           homepage_url_of := homepage_url |})
        end
    | _ => lift (Raise ValueError)
    end.

Definition call_archive (memento_url : string) : M http :=
  fun st =>
    let '(r, w) := requests_get memento_url (world st) in
    (Ok r, {| world := w; trace := trace st ++ [ArchiveCall memento_url] |}).

Definition get_internet_archive_snapshots (homepage_url : string)
    : M string :=
  let memento_url :=
    ("http://web.archive.org/web/timemap/link/" ++ homepage_url)%string in
  r <- call_archive memento_url ;;
  match r with
  | Response status_code text =>
      if status_code =? 200 then ret text
      else
        log ERROR "could not lookup IA snapshots using this url %s: %s"
          [memento_url] ;;;
        ret ""
  | RequestFailed =>
      emit (Print "error %s occurred using this url: %s " [memento_url]) ;;;
      ret ""
  end.

Definition call_catalog (socrata_id : string)
    : M (option (Dict.t string) * string) :=
  fun st =>
    let '(r, w) := find_socrata_dataset_by_id socrata_id (world st) in
    (Ok r, {| world := w; trace := trace st ++ [CatalogCall socrata_id] |}).

(** [if k in meta.keys(): ret[field] = meta[k]] *)
Definition copy_if_present (k field : string) (meta ret_ : record)
    : result record :=
  if Dict.mem k meta then
    rbind (item k meta) (fun v => Ok (Dict.set field v ret_))
  else Ok ret_.

Definition get_socrata_data (socrata_id : string) : M record :=
  let ret0 : record :=
    Dict.set "soc_description" ""
      (Dict.set "soc_homepage" ""
         (Dict.set "soc_name" "UNKN_SOC_NAME" Dict.empty)) in
  '(socrata_meta, socrata_stdout) <- call_catalog socrata_id ;;
  (if negb (is_empty socrata_stdout) then
     log INFO "socrata call to %s returned this string to stdout: %s "
       [socrata_id; socrata_stdout]
   else ret tt) ;;;
  ret1 <-
    match socrata_meta with
    | None | Some [] =>
        log ERROR
          "could not find matching socrata metadata for socrata id %s, but got this: %s??"
          [socrata_id; socrata_stdout] ;;;
        ret (Dict.set "socrata_meta" socrata_stdout ret0)
    | Some meta =>
        if Dict.mem "error" meta then
          log ERROR "socrata API call with id %s gave me an error: %s??"
            [socrata_id; str_of_meta meta] ;;;
          r <- lift (copy_if_present "name" "soc_name" meta ret0) ;;
          ret (Dict.set "socrata_meta" (str_of_meta meta) r)
        else
          r <- lift (copy_if_present "name" "soc_name" meta ret0) ;;
          r <- lift (copy_if_present "homepage" "soc_homepage" meta r) ;;
          r <- lift (copy_if_present "description" "soc_description" meta r) ;;
          ret (Dict.set "socrata_meta" (str_of_meta meta) r)
    end ;;
  meta_text <- lift (item "socrata_meta" ret1) ;;
  log DEBUG "matched socrata id %s to socrata meta data: %s "
    [socrata_id; meta_text] ;;;
  ret ret1.

(** Lines 189-208, one key of the download dictionary. *)
Definition leftover_entry (parsed_download_file_dict : Dict.t (list record))
    (processed : Dict.t bool) (socrata_id : string) (ret_ : list record)
    : M (list record) :=
  if negb (Dict.mem socrata_id processed) then
    log ERROR
      "download file %s not in dataset home page file. going to process what we can still get now."
      [socrata_id] ;;;
    let values : record :=
      Dict.set "homepage" "" (Dict.set "socrata_id" socrata_id Dict.empty) in
    meta <- get_socrata_data socrata_id ;;
    let values := Dict.update values meta in
    let values := Dict.set "internet_archive_snapshots" "" values in
    values <-
      (if Dict.mem "soc_homepage" values then
         soc_homepage <- lift (item "soc_homepage" values) ;;
         snapshots <- get_internet_archive_snapshots soc_homepage ;;
         let values := Dict.set "internet_archive_snapshots" snapshots values in
         soc_homepage <- lift (item "soc_homepage" values) ;;
         ret (Dict.set "homepage" soc_homepage values)
       else ret values) ;;
    download_file_dict_list <- lift (item socrata_id parsed_download_file_dict) ;;
    values <- lift (snapshot_loop download_file_dict_list values) ;;
    ret (ret_ ++ [values])
  else ret ret_.

Fixpoint leftover_loop (parsed_download_file_dict : Dict.t (list record))
    (processed : Dict.t bool) (keys : list string) (ret_ : list record)
    : M (list record) :=
  match keys with
  | [] => ret ret_
  | socrata_id :: keys' =>
      ret' <- leftover_entry parsed_download_file_dict processed socrata_id ret_ ;;
      leftover_loop parsed_download_file_dict processed keys' ret'
  end.

Definition process_leftover_download_files
    (parsed_download_file_dict : Dict.t (list record))
    (processed : Dict.t bool) : M (list record) :=
  leftover_loop parsed_download_file_dict processed
    (Dict.keys parsed_download_file_dict) [].

(** Lines 235-281, one turn of the main loop; [again] is the next turn. *)
Definition iteration (parsed_download_file_dict : Dict.t (list record))
    (raw : string) (again : engine -> M engine) (e : engine) : M engine :=
  parsed_homepage_url <- get_next_homepage_url_line raw ;;
  let shown :=
    match parsed_homepage_url with
    | None => []
    | Some p =>
        homepage_url_of p ::
        match socrata_id_of p with Some i => [i] | None => [] end
    end in
  emit (Print "looking at homepage %s from the sitemaps file" shown) ;;;
  log DEBUG "looking at homepage %s from the sitemaps file" shown ;;;
  match parsed_homepage_url with
  | None =>
      log INFO "finished looking at dataset homepages from the sitemaps file %s"
        [sitemap_data_fname] ;;;
      ret e
  | Some p =>
      let homepage_url := homepage_url_of p in
      match socrata_id_of p with
      | None | Some EmptyString =>
          log INFO
            "could not find a socrata id in %s; assuming this is not a dataset homepage and skipping to the next entry"
            shown ;;;
          again e
      | Some socrata_id =>
          let values : record :=
            Dict.set "homepage" homepage_url
              (Dict.set "socrata_id" socrata_id Dict.empty) in
          snapshots <- get_internet_archive_snapshots homepage_url ;;
          let values := Dict.set "internet_archive_snapshots" snapshots values in
          meta <- get_socrata_data socrata_id ;;
          let values := Dict.update values meta in
          '(values, processed) <-
            (if negb (Dict.mem socrata_id parsed_download_file_dict) then
               log INFO
                 "could not find a download file with a matching socrata id %s in %s???"
                 [socrata_id; downloads_fname] ;;;
               ret (Dict.set "dataset_snapshot_dl_ts" ""
                      (Dict.set "dataset_snapshot_filename" "" values),
                    download_files_processed e)
             else
               download_file_dict_list <-
                 lift (item socrata_id parsed_download_file_dict) ;;
               log DEBUG "matched homepage %s to download file(s) %s "
                 [homepage_url] ;;;
               let processed :=
                 Dict.set socrata_id true (download_files_processed e) in
               values <- lift (snapshot_loop download_file_dict_list values) ;;
               ret (values, processed)) ;;
          name <- lift (item "soc_name" values) ;;
          let results := add_result name values (results_dict e) in
          emit (Sleep 10) ;;;
          again {| results_dict := results;
                   download_files_processed := processed |}
      end
  end.

(** The [while True] loop over the sitemaps file; past its last line
    [readline] returns the empty string. *)
Fixpoint main_pass (parsed_download_file_dict : Dict.t (list record))
    (inputf : list string) (e : engine) : M engine :=
  match inputf with
  | [] => iteration parsed_download_file_dict "" ret e
  | raw :: rest =>
      iteration parsed_download_file_dict raw
        (main_pass parsed_download_file_dict rest) e
  end.

(** Everything the script computes before it writes the report. *)
Record outcome : Type := {
  index : Dict.t (list record);
  after_main : engine;
  leftovers : list record;
  final_results : Dict.t (list record)
}.

Definition reconcile (downloadsf inputf : list string) : M outcome :=
  log INFO "documenting datasets downloaded in %s" [downloads_fname] ;;;
  log INFO "dataset homepages are in %s" [sitemap_data_fname] ;;;
  idx <- build_download_file_dict downloadsf ;;
  log INFO "getting dataset homepages out of the sitemaps file: %s"
    [sitemap_data_fname] ;;;
  e <- main_pass idx inputf
         {| results_dict := Dict.empty;
            download_files_processed := Dict.empty |} ;;
  leftover_downloads_list <-
    process_leftover_download_files idx (download_files_processed e) ;;
  results <- lift (add_leftovers leftover_downloads_list (results_dict e)) ;;
  ret {| index := idx; after_main := e;
         leftovers := leftover_downloads_list; final_results := results |}.

Definition script (downloadsf inputf : list string)
    : M (list (list string)) :=
  o <- reconcile downloadsf inputf ;;
  lift (report (final_results o)).

End Script.

(* ------------------------------------------------------------------ *)
(** ** A small instance to run the script on

    One world with no state, a catalog that knows a single dataset, an
    archive that answers every request, and URL helpers that agree with
    [urlparse] and [pathlib] on plain [scheme://host/path] addresses. *)

Module Demo.

Definition catalog (socrata_id : string) (w : unit)
    : (option (Dict.t string) * string) * unit :=
  if String.eqb socrata_id "abcd-1234" then
    (Some [("name", "births");
           ("homepage", "https://data.cdc.gov/d/abcd-1234")], "", w)
  else (None, "", w).

Definition str_of_meta (m : Dict.t string) : string :=
  String.concat "," (map (fun kv => (fst kv ++ "=" ++ snd kv)%string) m).

Definition archive (memento_url : string) (w : unit) : http * unit :=
  (Response 200 ("snapshots of " ++ memento_url), w).

(** The text after the last slash. *)
Fixpoint path_name (path : string) : string :=
  match path with
  | EmptyString => EmptyString
  | String c s =>
      if Py.all_chars (fun x => negb (Ascii.eqb x "/")) s then
        if Ascii.eqb c "/" then s else String c s
      else path_name s
  end.

Fixpoint drop_host (slashes : nat) (s : string) : string :=
  match s with
  | EmptyString => EmptyString
  | String c s' =>
      if Ascii.eqb c "/" then
        match slashes with
        | 0 => s
        | S n => drop_host n s'
        end
      else drop_host slashes s'
  end.

(** The path of [scheme://host/path]: what follows the host. *)
Definition urlparse_path (url : string) : option string :=
  Some (drop_host 2 url).

Definition st0 : state unit := {| world := tt; trace := [] |}.

Definition run_reconcile (downloadsf inputf : list string)
    : result (outcome) * state unit :=
  reconcile catalog str_of_meta archive urlparse_path path_name
    downloadsf inputf st0.

Definition run_script (downloadsf inputf : list string)
    : result (list (list string)) * state unit :=
  script catalog str_of_meta archive urlparse_path path_name
    downloadsf inputf st0.

End Demo.

(* ------------------------------------------------------------------ *)
(** ** Vocabulary of the specification *)

(** A non-empty run of characters of a class. *)
Definition run_of (p : ascii -> bool) (a : string) : Prop :=
  a <> EmptyString /\ Py.all_chars p a = true.

(** Four alphanumerics, a hyphen, four alphanumerics, and nothing else. *)
Definition valid_identifier (s : string) : Prop :=
  exists a b,
    s = (a ++ "-" ++ b)%string
    /\ String.length a = 4 /\ String.length b = 4
    /\ Py.all_chars Py.isalnum a = true /\ Py.all_chars Py.isalnum b = true.

(** One or more alphanumerics, a hyphen, one or more alphanumerics. *)
Definition loose_identifier (s : string) : Prop :=
  exists a b,
    s = (a ++ "-" ++ b)%string /\ run_of Py.isalnum a /\ run_of Py.isalnum b.

(** The eight fields of a dataset record. *)
Definition record_fields : list string :=
  [ "socrata_id"; "homepage"; "internet_archive_snapshots"; "soc_name";
    "soc_description"; "socrata_meta"; "dataset_snapshot_filename";
    "dataset_snapshot_dl_ts" ].

Definition complete (ds : record) : Prop :=
  forall k, In k record_fields -> Dict.mem k ds = true.

Definition field (k : string) (ds : record) : string :=
  match Dict.get k ds with Some v => v | None => EmptyString end.

(** The catalog metadata the specification describes, as a [ret]
    dictionary. *)
Definition catalog_record (name homepage description raw : string) : record :=
  [ ("soc_name", name); ("soc_homepage", homepage);
    ("soc_description", description); ("socrata_meta", raw) ].

Definition or_default (d : string) (o : option string) : string :=
  match o with Some v => v | None => d end.

Definition catalog_metadata (str_of_meta : Dict.t string -> string)
    (reply : option (Dict.t string)) (diagnostic : string) : record :=
  match reply with
  | None | Some [] => catalog_record "UNKN_SOC_NAME" "" "" diagnostic
  | Some meta =>
      if Dict.mem "error" meta then
        catalog_record (or_default "UNKN_SOC_NAME" (Dict.get "name" meta))
          "" "" (str_of_meta meta)
      else
        catalog_record (or_default "UNKN_SOC_NAME" (Dict.get "name" meta))
          (or_default "" (Dict.get "homepage" meta))
          (or_default "" (Dict.get "description" meta))
          (str_of_meta meta)
  end.

(** All the records of a results dictionary, and those of one id. *)
Definition all_records (results : Dict.t (list record)) : list record :=
  concat (map snd results).

Definition has_id (i : string) (ds : record) : bool :=
  match Dict.get "socrata_id" ds with
  | Some j => String.eqb i j
  | None => false
  end.

Definition count_id (i : string) (l : list record) : nat :=
  length (filter (has_id i) l).

(** The records of a results dictionary, each with the key it is under. *)
Definition entries (results : Dict.t (list record))
    : list (string * record) :=
  flat_map (fun kv => map (pair (fst kv)) (snd kv)) results.

(** The order of the report: by name, then by socrata id. *)
Definition row_le (a b : string * record) : Prop :=
  Py.str_ltb (fst a) (fst b) = true
  \/ (fst a = fst b
      /\ Py.str_leb (field "socrata_id" (snd a))
                    (field "socrata_id" (snd b)) = true).

(** The row of a record under a name, every field read with [field]. *)
Definition row_of (e : string * record) : list string :=
  fst e ::
  map (fun k => field k (snd e))
    [ "socrata_id"; "dataset_snapshot_filename"; "dataset_snapshot_dl_ts";
      "homepage"; "soc_description"; "internet_archive_snapshots";
      "socrata_meta" ].

(** The download lines the builder accepts, with the key of each, up to
    the first blank line. *)
Fixpoint accepted (downloadsf : list string) : list (string * string) :=
  match downloadsf with
  | [] => []
  | raw :: rest =>
      let line := Py.rstrip raw in
      if is_empty line then []
      else
        match Re.re_search download_pattern line with
        | None => accepted rest
        | Some m =>
            match Dict.get "socrata_id" m with
            | Some i => (i, line) :: accepted rest
            | None => accepted rest
            end
        end
  end.

(** Every line of the list that the pattern accepts, with its key,
    whether the builder reads that far or not. *)
Fixpoint listed (downloadsf : list string) : list (string * string) :=
  match downloadsf with
  | [] => []
  | raw :: rest =>
      let line := Py.rstrip raw in
      match Re.re_search download_pattern line with
      | None => listed rest
      | Some m =>
          match Dict.get "socrata_id" m with
          | Some i => (i, line) :: listed rest
          | None => listed rest
          end
      end
  end.

(** The download record of an accepted line. *)
Definition download_record (line : string) : result record :=
  match Re.re_search download_pattern line with
  | None => Raise ValueError
  | Some m =>
      rbind (group "timestamp" m) (fun ts =>
      rbind (Time.float ts) (fun x =>
      rbind (Time.utcfromtimestamp x) (fun t =>
      Ok [("download_filename", line); ("download_ts", Time.strftime t)])))
  end.

Definition entries_of (i : string) (l : list (string * string))
    : list (string * string) :=
  filter (fun e => String.eqb i (fst e)) l.

(** What the homepage reader makes of a line, without its log. *)
Definition homepage_entry (urlparse_path : string -> option string)
    (path_name : string -> string) (raw : string)
    : result (option homepage_line) :=
  let line := Py.rstrip raw in
  if is_empty line then Ok None
  else
    match Py.split_on "," line with
    | [_; homepage_url] =>
        match urlparse_path homepage_url with
        | None => Raise ValueError
        | Some path =>
            if is_socrata_id (path_name path) then
              Ok (Some {| socrata_id_of := Some (path_name path);
                          homepage_url_of := homepage_url |})
            else
              Ok (Some {| socrata_id_of := None;
                          homepage_url_of := homepage_url |})
        end
    | _ => Raise ValueError
    end.

(** The identifiers of the homepage entries the main pass works on: those
    read before the stream ends, and that carry an identifier. *)
Fixpoint stream_ids (urlparse_path : string -> option string)
    (path_name : string -> string) (inputf : list string) : list string :=
  match inputf with
  | [] => []
  | raw :: rest =>
      match homepage_entry urlparse_path path_name raw with
      | Ok (Some p) =>
          match socrata_id_of p with
          | Some (String c s) =>
              String c s :: stream_ids urlparse_path path_name rest
          | _ => stream_ids urlparse_path path_name rest
          end
      | _ => []
      end
  end.

Fixpoint occurrences (i : string) (l : list string) : nat :=
  match l with
  | [] => 0
  | j :: l' => (if String.eqb i j then 1 else 0) + occurrences i l'
  end.

(** The shape of a download record, and of the download dictionary. *)
Definition download_shape (r : record) : Prop :=
  exists fn ts, r = [("download_filename", fn); ("download_ts", ts)].

Definition records_of (i : string) (idx : Dict.t (list record)) : list record :=
  match Dict.get i idx with Some l => l | None => [] end.

Definition index_ok (idx : Dict.t (list record)) : Prop :=
  NoDup (Dict.keys idx)
  /\ forall i l, Dict.get i idx = Some l ->
       l <> [] /\ loose_identifier i /\ Forall download_shape l.

(** The two snapshot fields of a record agree with the download
    dictionary: the last download of its id, or two empty strings. *)
Definition snapshot_of (idx : Dict.t (list record)) (ds : record) : Prop :=
  forall i, Dict.get "socrata_id" ds = Some i ->
    match Dict.get i idx with
    | Some l =>
        Dict.get "dataset_snapshot_filename" ds
        = Dict.get "download_filename" (last l [])
        /\ Dict.get "dataset_snapshot_dl_ts" ds
           = Dict.get "download_ts" (last l [])
    | None =>
        Dict.get "dataset_snapshot_filename" ds = Some EmptyString
        /\ Dict.get "dataset_snapshot_dl_ts" ds = Some EmptyString
    end.

Definition record_ok (idx : Dict.t (list record)) (ds : record) : Prop :=
  complete ds /\ snapshot_of idx ds.

Definition results_ok (idx : Dict.t (list record))
    (results : Dict.t (list record)) : Prop :=
  NoDup (Dict.keys results)
  /\ forall name l, Dict.get name results = Some l ->
       forall ds, In ds l ->
         record_ok idx ds /\ Dict.get "soc_name" ds = Some name.

(** The two layouts of a dataset record: as the main pass fills it and
    as the leftover pass does. *)
Definition main_record (i url snapshots name soc_homepage description raw
    fn ts : string) : record :=
  [ ("socrata_id", i); ("homepage", url);
    ("internet_archive_snapshots", snapshots);
    ("soc_name", name); ("soc_homepage", soc_homepage);
    ("soc_description", description); ("socrata_meta", raw);
    ("dataset_snapshot_filename", fn); ("dataset_snapshot_dl_ts", ts) ].

Definition leftover_record (i url name soc_homepage description raw
    snapshots fn ts : string) : record :=
  [ ("socrata_id", i); ("homepage", url);
    ("soc_name", name); ("soc_homepage", soc_homepage);
    ("soc_description", description); ("socrata_meta", raw);
    ("internet_archive_snapshots", snapshots);
    ("dataset_snapshot_filename", fn); ("dataset_snapshot_dl_ts", ts) ].

(** What the leftover pass appends. *)
Definition leftover_ok (idx : Dict.t (list record)) (v : record) : Prop :=
  record_ok idx v /\ exists name, Dict.get "soc_name" v = Some name.

(** The records of a list in the order of their socrata id, and the
    records of a results dictionary in the order of the report. *)
Definition with_id (ds : record) : string * record :=
  (field "socrata_id" ds, ds).

Definition by_id (l : list record) : list record :=
  map snd (sorted key_leb (map with_id l)).

Definition group_of (results : Dict.t (list record)) (name : string)
    : list (string * record) :=
  map (pair name) (by_id (records_of name results)).

Definition ordered (results : Dict.t (list record)) : list (string * record) :=
  flat_map (group_of results) (sorted Py.str_leb (Dict.keys results)).

Definition all_complete (results : Dict.t (list record)) : Prop :=
  forall name l, Dict.get name results = Some l -> Forall complete l.

(* ------------------------------------------------------------------ *)
(** ** Sample inputs *)

Module Sample.

Definition births_line : string :=
  "yt7u-eiyg_1736710755.963349_NCHS_Births.csv.gz".

(** A download list: one dataset downloaded once, one downloaded twice,
    a line that is no download name. *)
Definition downloads : list string :=
  Py.lines_of_text
    (births_line ++ Py.nl
     ++ "abcd-1234_1736710000.25_first.csv" ++ Py.nl
     ++ "notes.txt" ++ Py.nl
     ++ "abcd-1234_1736713600.75_second.csv" ++ Py.nl).

(** A homepage list with one dataset homepage and one other page. *)
Definition sitemap : list string :=
  Py.lines_of_text
    ("https://data.cdc.gov/sitemap.xml,https://data.cdc.gov/d/abcd-1234"
     ++ Py.nl
     ++ "https://data.cdc.gov/sitemap.xml,https://data.cdc.gov/browse"
     ++ Py.nl).

(** The same dataset homepage listed twice. *)
Definition sitemap_twice : list string :=
  Py.lines_of_text
    ("https://data.cdc.gov/sitemap-0.xml,https://data.cdc.gov/d/abcd-1234"
     ++ Py.nl
     ++ "https://data.cdc.gov/sitemap-1.xml,https://data.cdc.gov/d/abcd-1234"
     ++ Py.nl).

(** A homepage address with a comma in it. *)
Definition sitemap_comma : list string :=
  Py.lines_of_text
    ("https://data.cdc.gov/sitemap.xml,https://data.cdc.gov/d/a,b/abcd-1234"
     ++ Py.nl).

(** A download name whose key is not of the four-four shape. *)
Definition downloads_loose : list string :=
  Py.lines_of_text ("abcde-f_1736710000.25_x.csv" ++ Py.nl).

Definition a_record (name i : string) : record :=
  main_record i "https://data.cdc.gov/d/x" "" name "" "" "" "f" "t".

(** Results assembled out of order. *)
Definition unordered : Dict.t (list record) :=
  [ ("zeta", [a_record "zeta" "9999-zzzz"; a_record "zeta" "1111-aaaa"]);
    ("alpha", [a_record "alpha" "5555-mmmm"]) ].

End Sample.

(** The runs of the script on the sample inputs. *)
Module SampleRun.

Definition no_outcome : outcome :=
  {| index := []; after_main := {| results_dict := [];
                                   download_files_processed := [] |};
     leftovers := []; final_results := [] |}.

Definition outcome_of (r : result outcome * state unit) : outcome :=
  match fst r with
  | Ok o => o
  | Raise _ => no_outcome
  end.

Definition the_outcome : outcome :=
  Eval vm_compute in
    outcome_of (Demo.run_reconcile Sample.downloads Sample.sitemap).

Definition the_state : state unit :=
  Eval vm_compute in
    snd (Demo.run_reconcile Sample.downloads Sample.sitemap).

Definition twice_outcome : outcome :=
  Eval vm_compute in
    outcome_of (Demo.run_reconcile Sample.downloads Sample.sitemap_twice).

Definition twice_state : state unit :=
  Eval vm_compute in
    snd (Demo.run_reconcile Sample.downloads Sample.sitemap_twice).

Definition the_index : Dict.t (list record) :=
  Eval vm_compute in index the_outcome.

Definition index_state : state unit :=
  Eval vm_compute in
    snd (build_download_file_dict Sample.downloads Demo.st0).

Definition loose_index : Dict.t (list record) :=
  Eval vm_compute in
    match fst (build_download_file_dict Sample.downloads_loose Demo.st0) with
    | Ok idx => idx
    | Raise _ => []
    end.

Definition loose_state : state unit :=
  Eval vm_compute in
    snd (build_download_file_dict Sample.downloads_loose Demo.st0).

End SampleRun.


(* ------------------------------------------------------------------ *)
(** ** Further vocabulary *)

(** How often a character occurs in a string. *)
Fixpoint count_char (c : ascii) (s : string) : nat :=
  match s with
  | EmptyString => 0
  | String x s' => (if Ascii.eqb x c then 1 else 0) + count_char c s'
  end.

(** The keys of a dictionary after each of [l] is inserted in turn: a key
    keeps the place of its first insertion. *)
Fixpoint add_keys (ks : list string) (l : list string) : list string :=
  match l with
  | [] => ks
  | i :: l' =>
      add_keys (if existsb (String.eqb i) ks then ks else ks ++ [i]) l'
  end.

Definition first_seen (l : list string) : list string := add_keys [] l.

(** The calls and pauses in a trace. *)
Definition is_catalog_call (e : event) : bool :=
  match e with CatalogCall _ => true | _ => false end.

Definition is_archive_call (e : event) : bool :=
  match e with ArchiveCall _ => true | _ => false end.

Definition is_sleep (e : event) : bool :=
  match e with Sleep _ => true | _ => false end.

(** A pause of [n] seconds. *)
Definition is_pause (n : nat) (e : event) : bool :=
  match e with Sleep k => Nat.eqb k n | _ => false end.

Definition count_events (p : event -> bool) (tr : list event) : nat :=
  length (filter p tr).

(** A stretch of trace with log and console lines only. *)
Definition quiet (tr : list event) : Prop :=
  Forall (fun e => match e with
                   | Log _ _ _ | Print _ _ => True
                   | _ => False
                   end) tr.

Definition memento_url (homepage_url : string) : string :=
  "http://web.archive.org/web/timemap/link/" ++ homepage_url.

Definition id_is (k : string) (ds : record) : bool :=
  String.eqb (field "socrata_id" ds) k.

(** A stretch of trace with [c] catalog calls, [a] archive calls and [s]
    pauses, each of ten seconds. *)
Definition calls_are (c a s : nat) (tr : list event) : Prop :=
  count_events is_catalog_call tr = c
  /\ count_events is_archive_call tr = a
  /\ count_events is_sleep tr = s
  /\ count_events (is_pause 10) tr = s.

(** A calendar time of the years 1970 to 9999. *)
Definition calendar_time (t : Time.datetime) : Prop :=
  (1970 <= Time.year t <= 9999 /\ 1 <= Time.month t <= 12
   /\ 1 <= Time.day t <= 31 /\ 0 <= Time.hour t <= 23
   /\ 0 <= Time.minute t <= 59 /\ 0 <= Time.second t <= 59)%Z.

(** Further sample inputs, and what the script makes of them. *)
Module Edge.

(** A homepage line with two commas. *)
Definition comma_line : string :=
  "https://data.cdc.gov/sitemap.xml,https://data.cdc.gov/d/a,b/abcd-1234".

(** A download name with a timestamp past the year 9999. *)
Definition far_downloads : list string :=
  Py.lines_of_text ("abcd-1234_999999999999.5_x.csv" ++ Py.nl).

Definition far_state : state unit :=
  Eval vm_compute in snd (Demo.run_script far_downloads Sample.sitemap).

(** Records of which two have the same socrata id. *)
Definition tied : list record :=
  [ Sample.a_record "zeta" "9999-zzzz"; Sample.a_record "alpha" "1111-aaaa";
    Sample.a_record "beta" "9999-zzzz" ].

Definition tied_sorted : list record :=
  [ Sample.a_record "alpha" "1111-aaaa"; Sample.a_record "zeta" "9999-zzzz";
    Sample.a_record "beta" "9999-zzzz" ].

Definition abcd_downloads : list record :=
  Eval vm_compute in records_of "abcd-1234" SampleRun.the_index.

Definition abcd_last : record :=
  Eval vm_compute in last abcd_downloads [].

Definition main_record_of_run : record :=
  Eval vm_compute in
    hd [] (all_records (results_dict (after_main SampleRun.the_outcome))).

Definition start : engine :=
  {| results_dict := Dict.empty; download_files_processed := Dict.empty |}.

(** Two downloads of one dataset with a blank line between them. *)
Definition parted_downloads : list string :=
  Py.lines_of_text
    ("abcd-1234_1736710000.25_first.csv" ++ Py.nl
     ++ Py.nl
     ++ "abcd-1234_1736713600.75_second.csv" ++ Py.nl).

Definition parted_outcome : outcome :=
  Eval vm_compute in
    SampleRun.outcome_of (Demo.run_reconcile parted_downloads Sample.sitemap).

Definition parted_state : state unit :=
  Eval vm_compute in
    snd (Demo.run_reconcile parted_downloads Sample.sitemap).

End Edge.

(* ------------------------------------------------------------------ *)
(** * Properties *)

(** ** Strings *)

Lemma append_assoc (a b c : string) : ((a ++ b) ++ c = a ++ (b ++ c))%string.
Proof. induction a; cbn; [reflexivity | now rewrite IHa]. Qed.

Lemma length_append (a b : string) :
  String.length (a ++ b) = String.length a + String.length b.
Proof. induction a; cbn; [reflexivity | now rewrite IHa]. Qed.

Lemma take_append (a b : string) : Re.take (String.length a) (a ++ b) = a.
Proof. induction a; cbn; [now destruct b | now rewrite IHa]. Qed.

Lemma take_prefix n (a b : string) :
  n = String.length a -> Re.take n (a ++ b) = a.
Proof. intros ->. apply take_append. Qed.

Lemma code_inj x y : Py.code x = Py.code y -> x = y.
Proof.
  unfold Py.code. intros H.
  rewrite <- (ascii_nat_embedding x), <- (ascii_nat_embedding y). now rewrite H.
Qed.

Lemma str_leb_refl a : Py.str_leb a a = true.
Proof.
  induction a as [|x a IH]; cbn [Py.str_leb]; [reflexivity|].
  now rewrite Nat.ltb_irrefl.
Qed.

Lemma str_leb_total a : forall b, Py.str_leb a b = true \/ Py.str_leb b a = true.
Proof.
  induction a as [|x a IH]; intros [|y b]; cbn [Py.str_leb]; auto.
  destruct (Nat.ltb_spec (Py.code x) (Py.code y)); auto.
  destruct (Nat.ltb_spec (Py.code y) (Py.code x)); auto.
Qed.

Lemma str_leb_trans a : forall b c,
  Py.str_leb a b = true -> Py.str_leb b c = true -> Py.str_leb a c = true.
Proof.
  induction a as [|x a IH]; intros [|y b] [|z c]; cbn [Py.str_leb]; auto; try discriminate.
  destruct (Nat.ltb_spec (Py.code x) (Py.code y));
    destruct (Nat.ltb_spec (Py.code y) (Py.code x));
    destruct (Nat.ltb_spec (Py.code y) (Py.code z));
    destruct (Nat.ltb_spec (Py.code z) (Py.code y));
    destruct (Nat.ltb_spec (Py.code x) (Py.code z));
    destruct (Nat.ltb_spec (Py.code z) (Py.code x));
    try discriminate; try lia; auto.
  intros. eapply IH; eauto.
Qed.

Lemma str_leb_antisym a : forall b,
  Py.str_leb a b = true -> Py.str_leb b a = true -> a = b.
Proof.
  induction a as [|x a IH]; intros [|y b]; cbn [Py.str_leb]; auto; try discriminate.
  destruct (Nat.ltb_spec (Py.code x) (Py.code y));
    destruct (Nat.ltb_spec (Py.code y) (Py.code x));
    try discriminate; try lia.
  intros Hab Hba. f_equal; [apply code_inj; lia | now apply IH].
Qed.

Lemma str_ltb_leb a b : Py.str_ltb a b = true -> Py.str_leb a b = true.
Proof.
  unfold Py.str_ltb. intros H. apply negb_true_iff in H.
  destruct (str_leb_total a b); congruence.
Qed.

Lemma str_ltb_of_leb a b :
  Py.str_leb a b = true -> a <> b -> Py.str_ltb a b = true.
Proof.
  unfold Py.str_ltb. intros H Hne. apply negb_true_iff.
  destruct (Py.str_leb b a) eqn:E; [|reflexivity].
  exfalso. apply Hne. now apply str_leb_antisym.
Qed.

Lemma string_eqb_refl (a : string) : String.eqb a a = true.
Proof. apply String.eqb_eq. reflexivity. Qed.

(** ** Regular expressions *)

Lemma plus_inv p : forall s pos g k r,
  Re.plus p pos s g k = Some r ->
  exists a s', s = (a ++ s')%string /\ run_of p a
               /\ k (pos + String.length a) s' g = Some r.
Proof.
  induction s as [|c s IH]; intros pos g k r; cbn; [discriminate|].
  destruct (p c) eqn:Hc; [|discriminate].
  destruct (Re.plus p (S pos) s g k) eqn:Hp.
  - intros [= ->]. apply IH in Hp as (a & s' & -> & [Hne Ha] & Hk).
    exists (String c a), s'. repeat split; try discriminate.
    + cbn. now rewrite Hc, Ha.
    + cbn. now rewrite Nat.add_succ_r.
  - intros Hk. exists (String c EmptyString), s. repeat split; try discriminate.
    + cbn. now rewrite Hc.
    + cbn. now rewrite Nat.add_1_r.
Qed.

Lemma search_anchored r : forall s pos,
  0 < pos -> Re.search_from (Re.Cat Re.Bol r) pos s = None.
Proof.
  induction s as [|c s IH]; intros pos Hpos; cbn;
    destruct pos; try lia; cbn; [reflexivity|]. apply IH. lia.
Qed.

(** A pattern that starts with [^] is only tried at position 0. *)
Lemma search_bol r s :
  Re.re_search (Re.Cat Re.Bol r) s = Re.run r 0 s Dict.empty Re.accept.
Proof.
  unfold Re.re_search. destruct s as [|c s]; cbn.
  - now destruct (Re.run r 0 "" Dict.empty Re.accept).
  - destruct (Re.run r 0 (String c s) Dict.empty Re.accept); [reflexivity|].
    apply search_anchored. lia.
Qed.

(** What a match of the download pattern looks like. *)
Lemma download_match_inv line m :
  Re.re_search download_pattern line = Some m ->
  exists a b i f rest,
    line = (a ++ "-" ++ b ++ "_" ++ i ++ "." ++ f ++ "_" ++ rest)%string
    /\ run_of Py.isalnum a /\ run_of Py.isalnum b
    /\ run_of Py.isdigit i /\ run_of Py.isdigit f
    /\ m = [("socrata_id", (a ++ "-" ++ b)%string);
            ("timestamp", (i ++ "." ++ f)%string)].
Proof.
  unfold download_pattern. rewrite search_bol.
  cbn [Re.run]. intros H.
  apply plus_inv in H as (a & s1 & -> & Ha & H).
  destruct s1 as [|c s1]; [discriminate|].
  destruct (Ascii.eqb_spec c "-"); [subst c|discriminate].
  apply plus_inv in H as (b & s2 & -> & Hb & H).
  destruct s2 as [|c s2]; [discriminate|].
  destruct (Ascii.eqb_spec c "_"); [subst c|discriminate].
  apply plus_inv in H as (i & s3 & -> & Hi & H).
  destruct s3 as [|c s3]; [discriminate|].
  destruct (Ascii.eqb_spec c "."); [subst c|discriminate].
  apply plus_inv in H as (f & s4 & -> & Hf & H).
  destruct s4 as [|c s4]; [discriminate|].
  destruct (Ascii.eqb_spec c "_"); [subst c|discriminate].
  exists a, b, i, f, s4.
  repeat split; try apply Ha; try apply Hb; try apply Hi; try apply Hf.
  unfold Re.accept in H.
  replace (a ++ String "-" (b ++ String "_" (i ++ String "." (f ++ String "_" s4))))%string
    with ((a ++ "-" ++ b) ++ String "_" (i ++ String "." (f ++ String "_" s4)))%string in H
    by (rewrite !append_assoc; reflexivity).
  rewrite (@take_prefix _ (a ++ "-" ++ b)) in H
    by (rewrite !length_append; cbn [String.length]; lia).
  replace (i ++ String "." (f ++ String "_" s4))%string
    with ((i ++ "." ++ f) ++ String "_" s4)%string in H
    by (rewrite !append_assoc; reflexivity).
  rewrite (@take_prefix _ (i ++ "." ++ f)) in H
    by (rewrite !length_append; cbn [String.length]; lia).
  now injection H as <-.
Qed.

Lemma download_match_id line m :
  Re.re_search download_pattern line = Some m ->
  exists i ts, m = [("socrata_id", i); ("timestamp", ts)] /\ loose_identifier i.
Proof.
  intros H. apply download_match_inv in H
    as (a & b & i & f & rest & _ & Ha & Hb & _ & _ & ->).
  eexists _, _. split; [reflexivity|]. now exists a, b.
Qed.

Ltac alnum_step s :=
  let c := fresh "c" in
  let H := fresh "H" in
  destruct s as [|c s]; cbn -[Py.isalnum Py.newline Ascii.eqb];
  [discriminate|];
  destruct (Py.isalnum c) eqn:H; [|discriminate].

(** What [is_socrata_id] accepts: the nine-character shape, and the same
    followed by one newline. *)
Lemma is_socrata_id_true s :
  is_socrata_id s = true ->
  valid_identifier s
  \/ exists t, valid_identifier t /\ s = (t ++ Py.nl)%string.
Proof.
  unfold is_socrata_id, Re.re_match, socrata_id_pattern, Re.four.
  cbn -[Py.isalnum Py.newline Ascii.eqb].
  do 4 alnum_step s.
  destruct s as [|d s]; cbn -[Py.isalnum Py.newline Ascii.eqb]; [discriminate|].
  destruct (Ascii.eqb_spec d "-"); [subst d|discriminate].
  do 4 alnum_step s.
  assert (Hs : valid_identifier
            (String c (String c0 (String c1 (String c2 (String "-"
              (String c3 (String c4 (String c5 (String c6 "")))))))))).
  { exists (String c (String c0 (String c1 (String c2 "")))),
           (String c3 (String c4 (String c5 (String c6 "")))).
    cbn -[Py.isalnum]. rewrite H, H0, H1, H2, H3, H4, H5, H6. auto. }
  destruct s as [|e [|e' s]]; cbn -[Py.isalnum Py.newline Ascii.eqb].
  - intros _. left. exact Hs.
  - destruct (Ascii.eqb_spec e Py.newline); [subst e|discriminate].
    intros _. right. eexists. split; [exact Hs|]. reflexivity.
  - discriminate.
Qed.

Lemma is_socrata_id_shape s :
  valid_identifier s ->
  is_socrata_id s = true /\ is_socrata_id (s ++ Py.nl) = true.
Proof.
  intros (a & b & -> & Ha & Hb & Aa & Ab).
  destruct a as [|a1 [|a2 [|a3 [|a4 [|a5 a]]]]]; try discriminate.
  destruct b as [|b1 [|b2 [|b3 [|b4 [|b5 b]]]]]; try discriminate.
  cbn -[Py.isalnum] in Aa, Ab.
  repeat match goal with
         | H : _ && _ = true |- _ => apply andb_prop in H; destruct H
         end.
  unfold is_socrata_id, Re.re_match, socrata_id_pattern, Re.four.
  cbn -[Py.isalnum].
  repeat match goal with
         | H : Py.isalnum _ = true |- _ => rewrite H; clear H
         end.
  cbn. auto.
Qed.

Lemma is_socrata_id_nonempty s : is_socrata_id s = true -> s <> EmptyString.
Proof. intros H ->. discriminate. Qed.

(** ** Dictionaries *)

Lemma get_set_same V k (v : V) d : Dict.get k (Dict.set k v d) = Some v.
Proof.
  induction d as [|[k' v'] d IH]; cbn.
  - now rewrite string_eqb_refl.
  - destruct (String.eqb k k') eqn:E; cbn; rewrite ?string_eqb_refl, ?E; auto.
Qed.

Lemma get_set_other V k k' (v : V) d :
  k <> k' -> Dict.get k (Dict.set k' v d) = Dict.get k d.
Proof.
  intros Hne. induction d as [|[k2 v2] d IH]; cbn.
  - destruct (String.eqb_spec k k'); congruence.
  - destruct (String.eqb_spec k' k2); cbn.
    + subst k2. destruct (String.eqb_spec k k'); congruence.
    + destruct (String.eqb_spec k k2); auto.
Qed.

Lemma mem_keys V k (d : Dict.t V) : Dict.mem k d = true <-> In k (Dict.keys d).
Proof.
  unfold Dict.mem. induction d as [|[k' v'] d IH]; cbn.
  - split; [discriminate | tauto].
  - destruct (String.eqb_spec k k'); [subst; tauto|].
    rewrite IH. split; [tauto | intros [E|H]; [congruence | assumption]].
Qed.

Lemma mem_get V k (d : Dict.t V) :
  Dict.mem k d = true <-> exists v, Dict.get k d = Some v.
Proof.
  unfold Dict.mem. destruct (Dict.get k d); split; eauto; try discriminate.
  intros [v H]. discriminate.
Qed.

Lemma mem_set V k k' (v : V) d :
  Dict.mem k (Dict.set k' v d) = String.eqb k k' || Dict.mem k d.
Proof.
  unfold Dict.mem. destruct (String.eqb_spec k k').
  - subst. now rewrite get_set_same.
  - now rewrite get_set_other.
Qed.

Lemma keys_set V k (v : V) d :
  Dict.keys (Dict.set k v d)
  = if Dict.mem k d then Dict.keys d else Dict.keys d ++ [k].
Proof.
  unfold Dict.mem, Dict.keys.
  induction d as [|[k' v'] d IH]; cbn; [reflexivity|].
  destruct (String.eqb_spec k k'); cbn; [now subst|].
  rewrite IH. now destruct (Dict.get k d).
Qed.

Lemma NoDup_keys_set V k (v : V) d :
  NoDup (Dict.keys d) -> NoDup (Dict.keys (Dict.set k v d)).
Proof.
  intros H. rewrite keys_set. destruct (Dict.mem k d) eqn:E; [assumption|].
  apply NoDup_app; auto.
  - constructor; [tauto | constructor].
  - intros x Hx [<-|[]]. apply mem_keys in Hx. congruence.
Qed.

Lemma get_In V k (v : V) d : Dict.get k d = Some v -> In (k, v) d.
Proof.
  induction d as [|[k' v'] d IH]; cbn; [discriminate|].
  destruct (String.eqb_spec k k'); [intros [= ->]; subst; auto | auto].
Qed.

Lemma In_get V k (v : V) d :
  NoDup (Dict.keys d) -> In (k, v) d -> Dict.get k d = Some v.
Proof.
  induction d as [|[k' v'] d IH]; cbn; [tauto|].
  intros Hnd [E|H]; inversion Hnd; subst.
  - injection E as -> ->. now rewrite string_eqb_refl.
  - destruct (String.eqb_spec k k'); [|auto].
    subst. exfalso. apply H2. change (In (fst (k', v)) (map fst d)).
    now apply in_map.
Qed.

(** ** Sorting *)

Section Sorting.

Variable A : Type.
Variable leb : A -> A -> bool.
Hypothesis leb_total : forall x y, leb x y = true \/ leb y x = true.
Hypothesis leb_trans :
  forall x y z, leb x y = true -> leb y z = true -> leb x z = true.

Lemma insert_sorted_perm x l : Permutation (insert_sorted leb x l) (x :: l).
Proof.
  induction l as [|y l IH]; cbn; [reflexivity|].
  destruct (leb x y); [reflexivity|].
  rewrite IH. apply perm_swap.
Qed.

Lemma sorted_perm l : Permutation (sorted leb l) l.
Proof.
  induction l as [|x l IH]; cbn; [reflexivity|].
  rewrite insert_sorted_perm. now constructor.
Qed.

Lemma insert_sorted_sorted x l :
  StronglySorted (fun a b => leb a b = true) l ->
  StronglySorted (fun a b => leb a b = true) (insert_sorted leb x l).
Proof.
  induction 1 as [|y l Hl IH Hy]; cbn; [repeat constructor|].
  destruct (leb x y) eqn:E.
  - constructor; [now constructor|].
    constructor; [assumption|].
    eapply Forall_impl; [|exact Hy]. intros z Hz. now apply leb_trans with y.
  - constructor; [assumption|].
    eapply Permutation_Forall; [symmetry; apply insert_sorted_perm|].
    constructor; [|assumption].
    destruct (leb_total x y); congruence.
Qed.

Lemma sorted_sorted l : StronglySorted (fun a b => leb a b = true) (sorted leb l).
Proof.
  induction l as [|x l IH]; cbn; [constructor | now apply insert_sorted_sorted].
Qed.

End Sorting.

(** ** The script, function by function *)

Section Facts.

Variable World : Type.
Variable find_socrata_dataset_by_id :
  string -> World -> (option (Dict.t string) * string) * World.
Variable str_of_meta : Dict.t string -> string.
Variable requests_get : string -> World -> http * World.
Variable urlparse_path : string -> option string.
Variable path_name : string -> string.


Lemma bind_ok A B (m : M World A) (f : A -> M World B) (st : state World) b st' :
  bind m f st = (Ok b, st') ->
  exists a st1, m st = (Ok a, st1) /\ f a st1 = (Ok b, st').
Proof. unfold bind. destruct (m st) as [[a|e] st1]; [eauto | discriminate]. Qed.

Lemma lift_ok A (r : result A) (st : state World) a st' :
  lift r st = (Ok a, st') -> r = Ok a /\ st' = st.
Proof. unfold lift. now intros [= -> ->]. Qed.

Lemma ret_ok A (a : A) (st : state World) b st' :
  ret a st = (Ok b, st') -> b = a /\ st' = st.
Proof. unfold ret. now intros [= -> ->]. Qed.

Lemma rbind_ok A B (r : result A) (f : A -> result B) b :
  rbind r f = Ok b -> exists a, r = Ok a /\ f a = Ok b.
Proof. destruct r; cbn; [eauto | discriminate]. Qed.

(** Taking a successful computation apart, one bind at a time. *)
Ltac monad_inv H :=
  match type of H with
  | bind _ _ _ = (Ok _, _) =>
      let a := fresh "a" in
      let st1 := fresh "st" in
      let H1 := fresh "H" in
      apply bind_ok in H as (a & st1 & H1 & H); monad_inv H1; monad_inv H
  | lift _ _ = (Ok _, _) =>
      let E := fresh "E" in apply lift_ok in H as [H E]; subst
  | ret _ _ = (Ok _, _) =>
      let E := fresh "E" in apply ret_ok in H as [H E]; subst
  | log _ _ _ _ = (Ok _, _) => unfold log, emit in H; injection H as H; subst
  | emit _ _ = (Ok _, _) => unfold emit in H; injection H as H; subst
  | _ => idtac
  end.

Ltac ok_inj :=
  repeat match goal with
         | E : Ok _ = Ok _ |- _ => injection E as E; subst
         end.

(** *** The download dictionary *)

Lemma download_entry_ok line results (st : state World) results' st' :
  download_entry line results st = (Ok results', st') ->
  match Re.re_search download_pattern line with
  | None => results' = results
  | Some m =>
      exists i r,
        Dict.get "socrata_id" m = Some i /\ loose_identifier i
        /\ download_record line = Ok r /\ download_shape r
        /\ results' = Dict.set i (records_of i results ++ [r]) results
  end.
Proof.
  unfold download_entry, download_record, records_of.
  destruct (Re.re_search download_pattern line) as [m|] eqn:Hm.
  - destruct (download_match_id _ Hm) as (i & ts & -> & Hi).
    cbn [group Dict.get String.eqb Ascii.eqb Bool.eqb lift].
    intros H. monad_inv H.
    repeat match goal with
           | E : Ok _ = Ok _ |- _ => injection E as E; subst
           end.
    cbn [rbind].
    match goal with E : Time.float _ = Ok _ |- _ => rewrite E end.
    cbn [rbind].
    match goal with E : Time.utcfromtimestamp _ = Ok _ |- _ => rewrite E end.
    cbn [rbind].
    eexists _, _. split; [reflexivity|]. split; [assumption|].
    split; [reflexivity|]. split; [eexists _, _; reflexivity|].
    match type of H with
    | context [Dict.get ?j results] => destruct (Dict.get j results)
    end; monad_inv H; reflexivity.
  - intros H. monad_inv H. congruence.
Qed.

Lemma set_index_ok idx i r :
  index_ok idx -> loose_identifier i -> download_shape r ->
  index_ok (Dict.set i (records_of i idx ++ [r]) idx).
Proof.
  intros [Hnd Hall] Hi Hr. split; [now apply NoDup_keys_set|].
  intros j l. destruct (String.eqb_spec j i) as [->|Hne].
  - rewrite get_set_same. intros [= <-]. split; [|split; [assumption|]].
    + now destruct (records_of i idx).
    + apply Forall_app. split; [|now constructor].
      unfold records_of. destruct (Dict.get i idx) eqn:E; [|constructor].
      now apply (Hall i l).
  - rewrite get_set_other by assumption. apply Hall.
Qed.

Lemma records_of_set i j l (idx : Dict.t (list record)) :
  records_of i (Dict.set j l idx) = if String.eqb i j then l else records_of i idx.
Proof.
  unfold records_of. destruct (String.eqb_spec i j) as [->|Hne].
  - now rewrite get_set_same.
  - now rewrite get_set_other.
Qed.

Lemma build_loop_ok downloadsf : forall results (st : state World) idx st',
  build_loop downloadsf results st = (Ok idx, st') ->
  index_ok results ->
  index_ok idx
  /\ forall i, exists new,
       records_of i idx = records_of i results ++ new
       /\ Forall2 (fun e r => download_record (snd e) = Ok r)
            (entries_of i (accepted downloadsf)) new.
Proof.
  induction downloadsf as [|raw rest IH]; intros results st idx st' H Hok.
  - cbn in H. monad_inv H. split; [assumption|].
    intros i. exists []. rewrite app_nil_r. split; [reflexivity | constructor].
  - cbn [build_loop accepted] in H |- *.
    destruct (is_empty (Py.rstrip raw)).
    + monad_inv H. split; [assumption|].
      intros i. exists []. rewrite app_nil_r. split; [reflexivity | constructor].
    + monad_inv H. apply download_entry_ok in H0.
      destruct (Re.re_search download_pattern (Py.rstrip raw)) as [m|].
      * destruct H0 as (j & r & -> & Hj & Hr & Hshape & ->).
        apply IH in H as [Hidx Hrec]; [|now apply set_index_ok].
        split; [assumption|]. intros i. destruct (Hrec i) as (new & E & Hnew).
        rewrite records_of_set in E. unfold entries_of. cbn [filter fst].
        destruct (String.eqb_spec i j) as [->|Hne].
        -- exists (r :: new). rewrite E, <- app_assoc. split; [reflexivity|].
           constructor; assumption.
        -- exists new. split; assumption.
      * subst a. now apply IH in H.
Qed.

Lemma index_ok_empty : index_ok Dict.empty.
Proof. split; [constructor | discriminate]. Qed.

Lemma build_ok downloadsf (st : state World) idx st' :
  build_download_file_dict downloadsf st = (Ok idx, st') ->
  index_ok idx
  /\ forall i,
       Forall2 (fun e r => download_record (snd e) = Ok r)
         (entries_of i (accepted downloadsf)) (records_of i idx).
Proof.
  intros H. apply build_loop_ok in H as [Hok Hrec]; [|apply index_ok_empty].
  split; [assumption|]. intros i. destruct (Hrec i) as (new & -> & Hnew).
  exact Hnew.
Qed.
(** *** The two resolvers and the homepage reader *)

Lemma copy_if_present_spec k f (meta r : record) :
  copy_if_present k f meta r
  = Ok (match Dict.get k meta with Some v => Dict.set f v r | None => r end).
Proof.
  unfold copy_if_present, Dict.mem, item. now destruct (Dict.get k meta).
Qed.

Lemma get_socrata_data_spec socrata_id (st : state World) :
  exists st',
    get_socrata_data find_socrata_dataset_by_id str_of_meta socrata_id st
    = (Ok (catalog_metadata str_of_meta
             (fst (fst (find_socrata_dataset_by_id socrata_id (world st))))
             (snd (fst (find_socrata_dataset_by_id socrata_id (world st))))),
       st')
    /\ world st' = snd (find_socrata_dataset_by_id socrata_id (world st))
    /\ exists tr, trace st' = trace st ++ CatalogCall socrata_id :: tr
         /\ forall u, ~ In (ArchiveCall u) tr.
Proof.
  unfold get_socrata_data, bind, call_catalog.
  destruct (find_socrata_dataset_by_id socrata_id (world st))
    as [[meta out] w].
  cbn [fst snd].
  assert (Hlog : forall s : state World, exists s',
             (if negb (is_empty out)
              then log INFO
                     "socrata call to %s returned this string to stdout: %s "
                     [socrata_id; out]
              else ret tt) s = (Ok tt, s') /\ world s' = world s
             /\ exists tr, trace s' = trace s ++ tr
                  /\ forall u, ~ In (ArchiveCall u) tr).
  { intros s. destruct (negb (is_empty out)).
    - eexists. split; [reflexivity|]. split; [reflexivity|].
      eexists. split; [reflexivity|]. intros u [E|[]]. discriminate.
    - exists s. split; [reflexivity|]. split; [reflexivity|].
      exists []. rewrite app_nil_r. split; [reflexivity | intros u []]. }
  match goal with
  | |- context [?c {| world := w; trace := ?t |}] =>
      match type of c with
      | M _ unit => destruct (Hlog {| world := w; trace := t |})
                      as (s1 & -> & Hw & tr1 & Ht & Hno)
      end
  end.
  destruct s1 as [w1 t1]. cbn [world trace] in Hw, Ht |- *. subst w1 t1.
  destruct meta as [[|kv meta]|].
  - eexists. split; [reflexivity|]. split; [reflexivity|].
    cbn [trace]. eexists. rewrite <- !app_assoc. split; [reflexivity|].
    intros u Hu. apply in_app_or in Hu as [Hu|Hu]; [now apply (Hno u)|].
    cbn in Hu. repeat (destruct Hu as [Hu|Hu]; [discriminate|]). contradiction.
  - unfold catalog_metadata.
    destruct (Dict.mem "error" (kv :: meta)).
    + unfold log, emit, lift, ret. rewrite !copy_if_present_spec.
      eexists. split.
      * destruct (Dict.get "name" (kv :: meta)); reflexivity.
      * split; [reflexivity|]. cbn [trace]. eexists.
        rewrite <- !app_assoc. split; [reflexivity|].
        intros u Hu. apply in_app_or in Hu as [Hu|Hu]; [now apply (Hno u)|].
        cbn in Hu. repeat (destruct Hu as [Hu|Hu]; [discriminate|]). contradiction.
    + unfold log, emit, lift, ret.
      repeat (rewrite copy_if_present_spec; cbv beta iota).
      eexists. split.
      * destruct (Dict.get "name" (kv :: meta));
          destruct (Dict.get "homepage" (kv :: meta));
          destruct (Dict.get "description" (kv :: meta)); reflexivity.
      * split; [reflexivity|]. cbn [trace]. eexists.
        rewrite <- !app_assoc. split; [reflexivity|].
        intros u Hu. apply in_app_or in Hu as [Hu|Hu]; [now apply (Hno u)|].
        cbn in Hu. repeat (destruct Hu as [Hu|Hu]; [discriminate|]). contradiction.
  - eexists. split; [reflexivity|]. split; [reflexivity|].
    cbn [trace]. eexists. rewrite <- !app_assoc. split; [reflexivity|].
    intros u Hu. apply in_app_or in Hu as [Hu|Hu]; [now apply (Hno u)|].
    cbn in Hu. repeat (destruct Hu as [Hu|Hu]; [discriminate|]). contradiction.
Qed.

Lemma catalog_metadata_shape reply out :
  exists n h d m, catalog_metadata str_of_meta reply out = catalog_record n h d m.
Proof.
  unfold catalog_metadata. destruct reply as [[|kv meta]|]; eauto.
  destruct (Dict.mem "error" (kv :: meta)); eauto.
Qed.

Lemma archive_total url (st : state World) :
  exists s st', get_internet_archive_snapshots requests_get url st = (Ok s, st').
Proof.
  unfold get_internet_archive_snapshots, bind, call_archive.
  destruct (requests_get _ (world st)) as [[code text|] w].
  - destruct (code =? 200); eexists _, _; reflexivity.
  - eexists _, _; reflexivity.
Qed.

Lemma get_next_spec raw (st : state World) :
  exists st',
    get_next_homepage_url_line urlparse_path path_name raw st
    = (homepage_entry urlparse_path path_name raw, st').
Proof.
  unfold get_next_homepage_url_line, homepage_entry.
  destruct (is_empty (Py.rstrip raw)).
  - exists st. reflexivity.
  - destruct (Py.split_on "," (Py.rstrip raw)) as [|x l].
    + exists st. reflexivity.
    + destruct l as [|y l]; [exists st; reflexivity|].
      destruct l as [|z l]; [|exists st; reflexivity].
      destruct (urlparse_path y) as [path|]; [|exists st; reflexivity].
      destruct (is_socrata_id (path_name path)); eexists; reflexivity.
Qed.

(** *** The snapshot fields *)

Lemma set_set_same V k (v v' : V) d :
  Dict.set k v (Dict.set k v' d) = Dict.set k v d.
Proof.
  induction d as [|[k2 v2] d IH]; cbn.
  - now rewrite string_eqb_refl.
  - destruct (String.eqb k k2) eqn:E; cbn; rewrite ?string_eqb_refl, ?E;
      [reflexivity | now rewrite IH].
Qed.

Lemma set_comm_mem V k k' (v v' : V) d :
  k <> k' -> Dict.mem k d = true ->
  Dict.set k v (Dict.set k' v' d) = Dict.set k' v' (Dict.set k v d).
Proof.
  unfold Dict.mem. intros Hne. induction d as [|[k2 v2] d IH]; cbn.
  - discriminate.
  - destruct (String.eqb_spec k k2) as [->|H2].
    + intros _. destruct (String.eqb_spec k' k2); [congruence|].
      cbn. rewrite string_eqb_refl.
      destruct (String.eqb_spec k' k2); [congruence | reflexivity].
    + intros Hm. destruct (String.eqb_spec k' k2) as [->|H3]; cbn.
      * destruct (String.eqb_spec k k2); [congruence|].
        now rewrite string_eqb_refl.
      * destruct (String.eqb_spec k k2); [congruence|].
        destruct (String.eqb_spec k' k2); [congruence|].
        now rewrite IH.
Qed.

Lemma snapshot_loop_spec l : forall values,
  l <> [] -> Forall download_shape l ->
  snapshot_loop l values
  = Ok (Dict.set "dataset_snapshot_dl_ts" (field "download_ts" (last l []))
          (Dict.set "dataset_snapshot_filename"
             (field "download_filename" (last l [])) values)).
Proof.
  induction l as [|r l IH]; intros values Hne Hall; [congruence|].
  inversion Hall as [|? ? (fn & ts & ->) Hl]; subst.
  cbn [snapshot_loop item Dict.get String.eqb Ascii.eqb Bool.eqb rbind].
  destruct l as [|r' l].
  - reflexivity.
  - rewrite IH by (assumption || discriminate).
    change (last ([("download_filename", fn); ("download_ts", ts)] :: r' :: l) [])
      with (last (r' :: l) []).
    f_equal.
    rewrite (@set_comm_mem _ "dataset_snapshot_filename" "dataset_snapshot_dl_ts")
      by (discriminate || (rewrite mem_set; apply orb_true_iff; left; reflexivity)).
    now rewrite set_set_same, set_set_same.
Qed.

(** *** The results dictionary *)

Lemma all_records_set_some k (l : list record) v (d : Dict.t (list record)) :
  Dict.get k d = Some l ->
  Permutation (all_records (Dict.set k (l ++ [v]) d)) (v :: all_records d).
Proof.
  unfold all_records. induction d as [|[k2 l2] d IH]; cbn; [discriminate|].
  destruct (String.eqb_spec k k2) as [->|Hne].
  - intros [= ->]. cbn. rewrite <- app_assoc. cbn.
    symmetry. apply Permutation_middle.
  - intros H. cbn. rewrite (IH H). symmetry. apply Permutation_middle.
Qed.

Lemma all_records_set_none k v (d : Dict.t (list record)) :
  Dict.get k d = None ->
  all_records (Dict.set k [v] d) = all_records d ++ [v].
Proof.
  unfold all_records. induction d as [|[k2 l2] d IH]; cbn; [reflexivity|].
  destruct (String.eqb_spec k k2); [discriminate|].
  intros H. cbn. now rewrite (IH H), app_assoc.
Qed.

Lemma all_records_add_result name v r :
  Permutation (all_records (add_result name v r)) (v :: all_records r).
Proof.
  unfold add_result. destruct (Dict.get name r) eqn:E.
  - now apply all_records_set_some.
  - rewrite all_records_set_none by assumption.
    symmetry. apply Permutation_cons_append.
Qed.

Lemma In_all_records (r : Dict.t (list record)) ds :
  In ds (all_records r) <-> exists name l, In (name, l) r /\ In ds l.
Proof.
  unfold all_records. rewrite in_concat. split.
  - intros (l & Hl & Hds). apply in_map_iff in Hl as ([name l'] & <- & Hin).
    eauto.
  - intros (name & l & Hin & Hds). exists l. split; [|assumption].
    apply in_map_iff. now exists (name, l).
Qed.

Lemma count_id_app i l l' : count_id i (l ++ l') = count_id i l + count_id i l'.
Proof. unfold count_id. now rewrite filter_app, length_app. Qed.

Lemma count_id_perm i l l' : Permutation l l' -> count_id i l = count_id i l'.
Proof.
  unfold count_id. induction 1; cbn; auto.
  - destruct (has_id i x); cbn; auto.
  - destruct (has_id i x), (has_id i y); reflexivity.
  - congruence.
Qed.

Lemma results_ok_add_result idx name v r :
  results_ok idx r -> record_ok idx v -> Dict.get "soc_name" v = Some name ->
  results_ok idx (add_result name v r).
Proof.
  intros [Hnd Hall] Hv Hname. unfold add_result. split.
  - destruct (Dict.get name r); now apply NoDup_keys_set.
  - intros n l Hget ds Hds.
    destruct (String.eqb_spec n name) as [->|Hne].
    + destruct (Dict.get name r) as [old|] eqn:E;
        rewrite get_set_same in Hget; injection Hget as <-.
      * apply in_app_or in Hds as [Hds|[<-|[]]]; [|now split].
        now apply (Hall name old).
      * destruct Hds as [<-|[]]. now split.
    + destruct (Dict.get name r);
        rewrite get_set_other in Hget by assumption; now apply (Hall n l).
Qed.

Lemma results_ok_empty idx : results_ok idx Dict.empty.
Proof. split; [constructor | discriminate]. Qed.

Lemma complete_fields (ds : record) :
  Dict.mem "socrata_id" ds = true -> Dict.mem "homepage" ds = true ->
  Dict.mem "internet_archive_snapshots" ds = true ->
  Dict.mem "soc_name" ds = true -> Dict.mem "soc_description" ds = true ->
  Dict.mem "socrata_meta" ds = true ->
  Dict.mem "dataset_snapshot_filename" ds = true ->
  Dict.mem "dataset_snapshot_dl_ts" ds = true -> complete ds.
Proof.
  intros. intros k Hk. cbn in Hk.
  repeat (destruct Hk as [<-|Hk]; [assumption|]). destruct Hk.
Qed.

Lemma main_record_ok idx i url s n h d m fn ts :
  match Dict.get i idx with
  | Some l => Some fn = Dict.get "download_filename" (last l [])
              /\ Some ts = Dict.get "download_ts" (last l [])
  | None => fn = EmptyString /\ ts = EmptyString
  end ->
  record_ok idx (main_record i url s n h d m fn ts).
Proof.
  intros H. split; [apply complete_fields; reflexivity|].
  intros j Hj. change (Some i = Some j) in Hj. injection Hj as <-.
  change (match Dict.get i idx with
          | Some l => Some fn = Dict.get "download_filename" (last l [])
                      /\ Some ts = Dict.get "download_ts" (last l [])
          | None => Some fn = Some EmptyString /\ Some ts = Some EmptyString
          end).
  destruct (Dict.get i idx); destruct H; split; congruence.
Qed.

Lemma leftover_record_ok idx i url n h d m s fn ts :
  match Dict.get i idx with
  | Some l => Some fn = Dict.get "download_filename" (last l [])
              /\ Some ts = Dict.get "download_ts" (last l [])
  | None => fn = EmptyString /\ ts = EmptyString
  end ->
  record_ok idx (leftover_record i url n h d m s fn ts).
Proof.
  intros H. split; [apply complete_fields; reflexivity|].
  intros j Hj. change (Some i = Some j) in Hj. injection Hj as <-.
  change (match Dict.get i idx with
          | Some l => Some fn = Dict.get "download_filename" (last l [])
                      /\ Some ts = Dict.get "download_ts" (last l [])
          | None => Some fn = Some EmptyString /\ Some ts = Some EmptyString
          end).
  destruct (Dict.get i idx); destruct H; split; congruence.
Qed.

Lemma last_shape_fields (l : list record) :
  l <> [] -> Forall download_shape l ->
  Some (field "download_filename" (last l []))
  = Dict.get "download_filename" (last l [])
  /\ Some (field "download_ts" (last l []))
     = Dict.get "download_ts" (last l []).
Proof.
  intros Hne Hall.
  assert (Hin : In (last l []) l).
  { destruct l; [congruence|]. apply (@exists_last _ (r :: l)) in Hne
      as (l' & x & E). rewrite E, last_last. apply in_or_app. right. now left. }
  rewrite Forall_forall in Hall. destruct (Hall _ Hin) as (fn & ts & ->).
  split; reflexivity.
Qed.

(** *** One turn of the main loop *)

Lemma main_values i url snaps n h d m fn ts :
  Dict.set "dataset_snapshot_dl_ts" ts
    (Dict.set "dataset_snapshot_filename" fn
       (Dict.update
          (Dict.set "internet_archive_snapshots" snaps
             (Dict.set "homepage" url (Dict.set "socrata_id" i Dict.empty)))
          (catalog_record n h d m)))
  = main_record i url snaps n h d m fn ts.
Proof. reflexivity. Qed.

Lemma iteration_spec idx raw again e (st : state World) e' st' :
  index_ok idx ->
  iteration find_socrata_dataset_by_id str_of_meta requests_get
    urlparse_path path_name idx raw again e st = (Ok e', st') ->
  match homepage_entry urlparse_path path_name raw with
  | Ok None => e' = e
  | Ok (Some p) =>
      match socrata_id_of p with
      | Some (String c s) =>
          exists values name st1,
            record_ok idx values
            /\ Dict.get "socrata_id" values = Some (String c s)
            /\ Dict.get "soc_name" values = Some name
            /\ again
                 {| results_dict := add_result name values (results_dict e);
                    download_files_processed :=
                      if Dict.mem (String c s) idx
                      then Dict.set (String c s) true (download_files_processed e)
                      else download_files_processed e |} st1
               = (Ok e', st')
      | _ => exists st1, again e st1 = (Ok e', st')
      end
  | Raise _ => False
  end.
Proof.
  intros Hidx H. unfold iteration in H.
  apply bind_ok in H as (p & s1 & Hp & H).
  destruct (get_next_spec raw st) as [s2 E]. rewrite E in Hp.
  injection Hp as Hp <-. rewrite Hp. clear Hp E.
  apply bind_ok in H as (? & s3 & _ & H).
  apply bind_ok in H as (? & s4 & _ & H).
  destruct p as [[sid url]|]; [|now monad_inv H].
  cbn [socrata_id_of homepage_url_of] in H |- *.
  destruct sid as [[|c s]|];
    [ apply bind_ok in H as (? & s5 & _ & H); eauto
    | | apply bind_ok in H as (? & s5 & _ & H); eauto ].
  apply bind_ok in H as (snaps & s5 & _ & H).
  apply bind_ok in H as (meta & s6 & Hmeta & H).
  destruct (get_socrata_data_spec (String c s) s5) as (s7 & E & _).
  rewrite E in Hmeta. injection Hmeta as <- <-. clear E.
  destruct (catalog_metadata_shape
              (fst (fst (find_socrata_dataset_by_id (String c s) (world s5))))
              (snd (fst (find_socrata_dataset_by_id (String c s) (world s5)))))
    as (n & h & d & m & E).
  rewrite E in H. clear E.
  apply bind_ok in H as ([values processed] & s8 & Hv & H).
  destruct Hidx as [_ Hall].
  destruct (Dict.mem (String c s) idx) eqn:Hmem; cbn [negb] in Hv.
  - apply mem_get in Hmem as [l Hl]. unfold item in Hv. rewrite Hl in Hv.
    destruct (Hall _ _ Hl) as (Hne & _ & Hshape).
    monad_inv Hv. ok_inj.
    match goal with
    | E : snapshot_loop _ _ = Ok _ |- _ =>
        rewrite snapshot_loop_spec in E by assumption;
        rewrite main_values in E; injection E as <-
    end.
    injection Hv as Hv1 Hv2. subst values processed.
    cbn in H. monad_inv H. ok_inj.
    match type of H with
    | again {| results_dict := add_result ?name ?v _;
               download_files_processed := _ |} ?st1 = _ =>
        exists v, name, st1
    end.
    split; [|split; [reflexivity|split; [reflexivity|assumption]]].
    apply main_record_ok. unfold record, Dict.t in Hl |- *. rewrite Hl.
    now apply last_shape_fields.
  - monad_inv Hv. rewrite main_values in Hv.
    injection Hv as Hv1 Hv2. subst values processed.
    cbn in H. monad_inv H. ok_inj.
    match type of H with
    | again {| results_dict := add_result ?name ?v _;
               download_files_processed := _ |} ?st1 = _ =>
        exists v, name, st1
    end.
    split; [|split; [reflexivity|split; [reflexivity|assumption]]].
    apply main_record_ok. unfold Dict.mem in Hmem.
    unfold record, Dict.t in Hmem |- *.
    match goal with
    | |- match ?x with _ => _ end => destruct x
    end; [discriminate | now split].
Qed.

(** *** The main pass *)

Lemma count_id_cons i v l :
  count_id i (v :: l) = (if has_id i v then 1 else 0) + count_id i l.
Proof. unfold count_id. cbn. now destruct (has_id i v). Qed.

Lemma has_id_get i j (ds : record) :
  Dict.get "socrata_id" ds = Some j -> has_id i ds = String.eqb i j.
Proof. unfold has_id. now intros ->. Qed.

Lemma homepage_entry_eof :
  homepage_entry urlparse_path path_name EmptyString = Ok None.
Proof. reflexivity. Qed.

Lemma main_pass_spec idx inputf : forall e (st : state World) e' st',
  index_ok idx ->
  main_pass find_socrata_dataset_by_id str_of_meta requests_get
    urlparse_path path_name idx inputf e st = (Ok e', st') ->
  results_ok idx (results_dict e) ->
  results_ok idx (results_dict e')
  /\ (forall i,
        count_id i (all_records (results_dict e'))
        = count_id i (all_records (results_dict e))
          + occurrences i (stream_ids urlparse_path path_name inputf))
  /\ (forall i,
        Dict.mem i (download_files_processed e')
        = Dict.mem i (download_files_processed e)
          || (Dict.mem i idx
              && (0 <? occurrences i
                         (stream_ids urlparse_path path_name inputf)))).
Proof.
  induction inputf as [|raw rest IH]; intros e st e' st' Hidx H Hok;
    cbn [main_pass] in H; apply iteration_spec in H; try assumption.
  - rewrite homepage_entry_eof in H. subst e'. cbn.
    split; [assumption|]. split; intros i.
    + now rewrite Nat.add_0_r.
    + now rewrite andb_false_r, orb_false_r.
  - cbn [stream_ids].
    destruct (homepage_entry urlparse_path path_name raw) as [[p|]|err];
      [| |contradiction].
    + destruct (socrata_id_of p) as [[|c s]|].
      * destruct H as [st1 H]. now apply IH in H.
      * destruct H as (values & name & st1 & Hv & Hid & Hname & H).
        apply IH in H as (Hok' & Hcount & Hproc);
          [|assumption|now apply results_ok_add_result].
        cbn [results_dict download_files_processed] in Hok', Hcount, Hproc |- *.
        split; [assumption|]. split; intros i.
        -- rewrite Hcount, (count_id_perm i (all_records_add_result name values _)).
           rewrite count_id_cons, (@has_id_get i _ _ Hid). cbn [occurrences]. lia.
        -- rewrite Hproc. cbn [occurrences].
           destruct (String.eqb_spec i (String c s)) as [->|Hne].
           ++ destruct (Dict.mem (String c s) idx) eqn:Hm.
              ** rewrite mem_set, string_eqb_refl. cbn.
                 now rewrite orb_true_r.
              ** cbn. now rewrite !orb_false_r.
           ++ destruct (Dict.mem (String c s) idx);
                [rewrite mem_set; destruct (String.eqb_spec i (String c s));
                 [congruence|]|]; reflexivity.
      * destruct H as [st1 H]. now apply IH in H.
    + subst e'. cbn. split; [assumption|]. split; intros i.
      * now rewrite Nat.add_0_r.
      * now rewrite andb_false_r, orb_false_r.
Qed.

(** *** The leftover pass *)

Lemma leftover_values i n h d m snaps h' fn ts :
  Dict.set "dataset_snapshot_dl_ts" ts
    (Dict.set "dataset_snapshot_filename" fn
       (Dict.set "homepage" h'
          (Dict.set "internet_archive_snapshots" snaps
             (Dict.set "internet_archive_snapshots" ""
                (Dict.update
                   (Dict.set "homepage" ""
                      (Dict.set "socrata_id" i Dict.empty))
                   (catalog_record n h d m))))))
  = leftover_record i h' n h d m snaps fn ts.
Proof. reflexivity. Qed.

Lemma leftover_entry_spec idx processed i ret_ (st : state World) ret' st' :
  index_ok idx -> Dict.mem i idx = true ->
  leftover_entry find_socrata_dataset_by_id str_of_meta requests_get
    idx processed i ret_ st = (Ok ret', st') ->
  if Dict.mem i processed then ret' = ret_
  else exists values name,
         ret' = ret_ ++ [values] /\ record_ok idx values
         /\ Dict.get "socrata_id" values = Some i
         /\ Dict.get "soc_name" values = Some name.
Proof.
  intros [_ Hall] Hmem H. unfold leftover_entry in H.
  destruct (Dict.mem i processed); cbn [negb] in H; [now monad_inv H|].
  apply bind_ok in H as (? & s1 & _ & H).
  apply bind_ok in H as (meta & s2 & Hmeta & H).
  destruct (get_socrata_data_spec i s1) as (s3 & E & _).
  rewrite E in Hmeta. injection Hmeta as <- <-. clear E.
  destruct (catalog_metadata_shape
              (fst (fst (find_socrata_dataset_by_id i (world s1))))
              (snd (fst (find_socrata_dataset_by_id i (world s1)))))
    as (n & h & d & m & E).
  rewrite E in H. clear E.
  apply bind_ok in H as (values & s4 & Hv & H).
  cbn [Dict.mem Dict.get Dict.set Dict.update Dict.empty catalog_record
       String.eqb Ascii.eqb Bool.eqb item] in Hv.
  apply bind_ok in Hv as (h1 & s5 & Hh1 & Hv). monad_inv Hh1. ok_inj.
  apply bind_ok in Hv as (snaps & s6 & _ & Hv).
  cbn [Dict.mem Dict.get Dict.set Dict.update Dict.empty catalog_record
       String.eqb Ascii.eqb Bool.eqb item] in Hv.
  monad_inv Hv. ok_inj.
  apply mem_get in Hmem as [l Hl]. unfold item in H. rewrite Hl in H.
  destruct (Hall _ _ Hl) as (Hne & _ & Hshape).
  monad_inv H. ok_inj.
  match goal with
  | E : snapshot_loop _ _ = Ok _ |- _ =>
      rewrite snapshot_loop_spec in E by assumption; injection E as <-
  end.
  eexists _, n. split; [reflexivity|].
  split; [|split; reflexivity].
  match goal with
  | |- record_ok idx
         [("socrata_id", ?i); ("homepage", ?u); ("soc_name", ?n);
          ("soc_homepage", ?h); ("soc_description", ?d);
          ("socrata_meta", ?m); ("internet_archive_snapshots", ?s);
          ("dataset_snapshot_filename", ?fn);
          ("dataset_snapshot_dl_ts", ?ts)] =>
      apply (@leftover_record_ok idx i u n h d m s fn ts)
  end.
  unfold record, Dict.t in Hl |- *. rewrite Hl.
  now apply last_shape_fields.
Qed.

Lemma occurrences_filter i f l :
  occurrences i (filter f l) = if f i then occurrences i l else 0.
Proof.
  induction l as [|j l IH]; cbn; [now destruct (f i)|].
  destruct (f j) eqn:Ej; cbn; rewrite IH;
    destruct (String.eqb_spec i j) as [<-|Hne]; try rewrite Ej;
    try reflexivity; destruct (f i); reflexivity.
Qed.

Lemma occurrences_NoDup i l :
  NoDup l -> occurrences i l = if in_dec string_dec i l then 1 else 0.
Proof.
  induction 1 as [|j l Hj Hnd IH]; cbn [occurrences]; [reflexivity|].
  rewrite IH. destruct (String.eqb_spec i j) as [->|Hne].
  - destruct (in_dec string_dec j l); [contradiction|].
    destruct (in_dec string_dec j (j :: l)) as [|Hout]; [reflexivity|].
    exfalso. apply Hout. now left.
  - destruct (in_dec string_dec i l) as [Hin|Hout];
      destruct (in_dec string_dec i (j :: l)) as [Hin'|Hout']; try reflexivity.
    + exfalso. apply Hout'. now right.
    + destruct Hin' as [E|Hin']; [congruence | contradiction].
Qed.

Lemma leftover_loop_spec idx processed keys :
  forall ret_ (st : state World) ret' st',
  index_ok idx -> (forall k, In k keys -> Dict.mem k idx = true) ->
  leftover_loop find_socrata_dataset_by_id str_of_meta requests_get
    idx processed keys ret_ st = (Ok ret', st') ->
  exists new,
    ret' = ret_ ++ new /\ Forall (leftover_ok idx) new
    /\ forall i, count_id i new
                 = occurrences i
                     (filter (fun k => negb (Dict.mem k processed)) keys).
Proof.
  induction keys as [|k keys IH]; intros ret_ st ret' st' Hidx Hkeys H.
  - cbn in H. monad_inv H. exists []. rewrite app_nil_r.
    split; [reflexivity|]. split; [constructor | reflexivity].
  - cbn [leftover_loop] in H. apply bind_ok in H as (r1 & s1 & Hk & H).
    apply leftover_entry_spec in Hk;
      [|assumption | apply Hkeys; now left].
    apply IH in H as (new & -> & Hnew & Hcount);
      [|assumption | intros; apply Hkeys; now right].
    cbn [filter]. destruct (Dict.mem k processed); cbn [negb].
    + subst r1. now exists new.
    + destruct Hk as (values & name & -> & Hv & Hid & Hname).
      exists (values :: new). rewrite <- app_assoc.
      split; [reflexivity|]. split.
      * constructor; [|assumption]. split; [assumption | now exists name].
      * intros i. rewrite count_id_cons, (@has_id_get i _ _ Hid), Hcount.
        reflexivity.
Qed.

Lemma add_leftovers_spec idx l : forall r,
  results_ok idx r -> Forall (leftover_ok idx) l ->
  exists r',
    add_leftovers l r = Ok r' /\ results_ok idx r'
    /\ Permutation (all_records r') (l ++ all_records r).
Proof.
  induction l as [|v l IH]; intros r Hr Hl.
  - exists r. split; [reflexivity|]. split; [assumption | reflexivity].
  - inversion Hl as [|? ? [Hv [name Hname]] Hl']; subst.
    cbn [add_leftovers]. unfold item. rewrite Hname. cbn [rbind].
    destruct (IH (add_result name v r)) as (r' & E & Hok & Hperm);
      [now apply results_ok_add_result | assumption |].
    exists r'. split; [assumption|]. split; [assumption|].
    rewrite Hperm, all_records_add_result. cbn.
    symmetry. apply Permutation_middle.
Qed.

(** *** The whole reconciliation *)

Lemma reconcile_spec downloadsf inputf (st : state World) o st' :
  reconcile find_socrata_dataset_by_id str_of_meta requests_get
    urlparse_path path_name downloadsf inputf st = (Ok o, st') ->
  let occ i := occurrences i (stream_ids urlparse_path path_name inputf) in
  index_ok (index o)
  /\ (forall i,
        Forall2 (fun e r => download_record (snd e) = Ok r)
          (entries_of i (accepted downloadsf)) (records_of i (index o)))
  /\ results_ok (index o) (results_dict (after_main o))
  /\ results_ok (index o) (final_results o)
  /\ (forall i, count_id i (all_records (results_dict (after_main o))) = occ i)
  /\ (forall i, Dict.mem i (download_files_processed (after_main o))
                = Dict.mem i (index o) && (0 <? occ i))
  /\ (forall i, count_id i (leftovers o)
                = if Dict.mem i (index o) && negb (0 <? occ i) then 1 else 0)
  /\ Permutation (all_records (final_results o))
       (leftovers o ++ all_records (results_dict (after_main o))).
Proof.
  intros H occ. unfold reconcile in H.
  apply bind_ok in H as (? & s1 & _ & H).
  apply bind_ok in H as (? & s2 & _ & H).
  apply bind_ok in H as (idx & s3 & Hb & H).
  apply build_ok in Hb as [Hidx Hrec].
  apply bind_ok in H as (? & s4 & _ & H).
  apply bind_ok in H as (e & s5 & Hm & H).
  apply main_pass_spec in Hm as (Hok & Hcount & Hproc);
    [|assumption | apply results_ok_empty].
  cbn [results_dict download_files_processed] in Hcount, Hproc.
  apply bind_ok in H as (left & s6 & Hl & H).
  unfold process_leftover_download_files in Hl.
  apply leftover_loop_spec in Hl as (new & E & Hnew & Hlcount);
    [|assumption | intros k Hk; now apply mem_keys].
  cbn [app] in E. subst left.
  apply bind_ok in H as (results & s7 & Ha & H).
  apply lift_ok in Ha as [Ha _].
  destruct (add_leftovers_spec Hok Hnew) as (r' & Er & Hok' & Hperm).
  rewrite Er in Ha. injection Ha as <-.
  apply ret_ok in H as [-> _].
  cbn [index after_main leftovers final_results].
  split; [exact Hidx|]. split; [exact Hrec|]. split; [exact Hok|].
  split; [exact Hok'|]. split; [exact Hcount|].
  split; [intros i; now rewrite Hproc|]. split; [|exact Hperm].
  intros i. rewrite Hlcount, occurrences_filter, Hproc. cbn [orb Dict.mem Dict.get Dict.empty].
  rewrite (@occurrences_NoDup i (Dict.keys idx)) by apply Hidx.
  destruct (in_dec string_dec i (Dict.keys idx)) as [Hin|Hout].
  - apply mem_keys in Hin. rewrite Hin. cbn [andb].
    now destruct (0 <? _).
  - destruct (Dict.mem i idx) eqn:Hm;
      [apply mem_keys in Hm; contradiction|].
    reflexivity.
Qed.


End Facts.

(** ** The report *)

Lemma complete_mem (ds : record) k :
  complete ds -> In k record_fields -> Dict.get k ds = Some (field k ds).
Proof.
  intros H Hk. apply H in Hk. unfold Dict.mem, field in *.
  now destruct (Dict.get k ds).
Qed.

Lemma with_keys_ok l :
  Forall complete l -> with_keys l = Ok (map with_id l).
Proof.
  induction 1 as [|ds l Hds Hl IH]; cbn [with_keys map]; [reflexivity|].
  unfold item. rewrite (@complete_mem ds "socrata_id") by (assumption || cbn; tauto).
  cbn [rbind]. now rewrite IH.
Qed.

Lemma data_row_ok name ds : complete ds -> data_row name ds = Ok (row_of (name, ds)).
Proof.
  intros H. unfold data_row, item.
  repeat (rewrite (@complete_mem ds) by (assumption || cbn; tauto); cbn [rbind]).
  reflexivity.
Qed.

Lemma data_rows_ok name l :
  Forall complete l ->
  data_rows name l = Ok (map row_of (map (pair name) l)).
Proof.
  induction 1 as [|ds l Hds Hl IH]; cbn [data_rows map]; [reflexivity|].
  rewrite data_row_ok by assumption. cbn [rbind]. now rewrite IH.
Qed.

Lemma by_id_perm l : Permutation (by_id l) l.
Proof.
  unfold by_id. rewrite sorted_perm, map_map. cbn. now rewrite map_id.
Qed.

Lemma sorted_by_socrata_id_ok l :
  Forall complete l -> sorted_by_socrata_id l = Ok (by_id l).
Proof.
  intros H. unfold sorted_by_socrata_id. now rewrite with_keys_ok.
Qed.

Lemma group_rows_ok results names :
  all_complete results ->
  (forall name, In name names -> Dict.mem name results = true) ->
  group_rows results names
  = Ok (map row_of (flat_map (group_of results) names)).
Proof.
  intros Hall. induction names as [|name names IH]; intros Hin;
    cbn [group_rows flat_map map]; [reflexivity|].
  destruct (proj1 (mem_get name results) (Hin name (or_introl eq_refl)))
    as [l Hl].
  unfold item. rewrite Hl. cbn [rbind].
  pose proof (Hall _ _ Hl) as Hc.
  rewrite sorted_by_socrata_id_ok by assumption. cbn [rbind].
  rewrite data_rows_ok
    by (eapply Permutation_Forall; [symmetry; apply by_id_perm | assumption]).
  cbn [rbind]. rewrite IH by (intros; apply Hin; now right). cbn [rbind].
  unfold group_of at 2, records_of. rewrite Hl. now rewrite map_app.
Qed.

Lemma report_ok results :
  all_complete results ->
  report results
  = Ok (map (fun hl => [hl]) header_lines
        ++ header_row :: map row_of (ordered results)).
Proof.
  intros H. unfold report, ordered. rewrite group_rows_ok; [reflexivity|assumption|].
  intros name Hin. apply mem_keys.
  eapply Permutation_in; [apply sorted_perm | exact Hin].
Qed.

Lemma key_leb_total a b : key_leb a b = true \/ key_leb b a = true.
Proof. apply str_leb_total. Qed.

Lemma key_leb_trans a b c :
  key_leb a b = true -> key_leb b c = true -> key_leb a c = true.
Proof. apply str_leb_trans. Qed.

Lemma flat_map_perm_pointwise A B (f g : A -> list B) l :
  (forall x, In x l -> Permutation (f x) (g x)) ->
  Permutation (flat_map f l) (flat_map g l).
Proof.
  induction l as [|x l IH]; intros H; cbn; [reflexivity|].
  apply Permutation_app; [apply H; now left | apply IH; intros; apply H; now right].
Qed.

Lemma records_of_In (results : Dict.t (list record)) name l :
  NoDup (Dict.keys results) -> In (name, l) results ->
  records_of name results = l.
Proof. intros Hnd Hin. unfold records_of. now rewrite (@In_get _ _ _ _ Hnd Hin). Qed.

(** The report holds every record once. *)
Lemma ordered_perm results :
  NoDup (Dict.keys results) -> Permutation (ordered results) (entries results).
Proof.
  intros Hnd. unfold ordered, entries.
  rewrite (Permutation_flat_map _ (sorted_perm Py.str_leb (Dict.keys results))).
  unfold Dict.keys. rewrite flat_map_concat_map, map_map, <- flat_map_concat_map.
  apply flat_map_perm_pointwise. intros [name l] Hin. cbn [fst snd].
  unfold group_of. rewrite (@records_of_In _ _ _ Hnd Hin).
  apply Permutation_map, by_id_perm.
Qed.

Lemma strict_of_NoDup l :
  StronglySorted (fun a b => Py.str_leb a b = true) l -> NoDup l ->
  StronglySorted (fun a b => Py.str_ltb a b = true) l.
Proof.
  induction 1 as [|x l Hl IH Hx]; intros Hnd; [constructor|].
  inversion Hnd; subst. constructor; [now apply IH|].
  rewrite Forall_forall in *. intros y Hy.
  apply str_ltb_of_leb; [now apply Hx|]. intros ->. contradiction.
Qed.

Lemma by_id_sorted l :
  StronglySorted
    (fun a b => Py.str_leb (field "socrata_id" a) (field "socrata_id" b) = true)
    (by_id l).
Proof.
  unfold by_id.
  assert (Hs := sorted_sorted key_leb key_leb_total key_leb_trans (map with_id l)).
  assert (Hk : Forall (fun p => fst p = field "socrata_id" (snd p))
                 (sorted key_leb (map with_id l))).
  { eapply Permutation_Forall; [symmetry; apply sorted_perm|].
    apply Forall_forall. intros p Hp. apply in_map_iff in Hp as (ds & <- & _).
    reflexivity. }
  induction Hs as [|p l' Hl' IH Hp]; cbn [map]; [constructor|].
  inversion Hk as [|? ? Hp1 Hk']; subst.
  constructor; [now apply IH|].
  rewrite Forall_forall in *. intros ds Hds.
  apply in_map_iff in Hds as (q & <- & Hq).
  rewrite <- Hp1, <- (Hk' q Hq). now apply Hp.
Qed.

Lemma group_of_sorted results name : StronglySorted row_le (group_of results name).
Proof.
  unfold group_of.
  induction (by_id_sorted (records_of name results)) as [|ds l Hl IH Hds];
    cbn [map]; [constructor|].
  constructor; [assumption|].
  rewrite Forall_forall in *. intros p Hp.
  apply in_map_iff in Hp as (ds' & <- & Hin).
  right. cbn [fst snd]. split; [reflexivity | now apply Hds].
Qed.

Lemma group_of_name results name p : In p (group_of results name) -> fst p = name.
Proof.
  unfold group_of. intros H. now apply in_map_iff in H as (ds & <- & _).
Qed.

Lemma StronglySorted_app A (R : A -> A -> Prop) l l' :
  StronglySorted R l -> StronglySorted R l' ->
  (forall x y, In x l -> In y l' -> R x y) ->
  StronglySorted R (l ++ l').
Proof.
  induction 1 as [|x l Hl IH Hx]; intros Hl' Hcross; cbn; [assumption|].
  constructor.
  - apply IH; [assumption|]. intros a b Ha Hb. apply Hcross; [now right | assumption].
  - apply Forall_app. split; [assumption|].
    apply Forall_forall. intros y Hy. apply Hcross; [now left | assumption].
Qed.

(** The report is in the order of the names, then of the socrata ids. *)
Lemma ordered_sorted results :
  NoDup (Dict.keys results) -> StronglySorted row_le (ordered results).
Proof.
  intros Hnd. unfold ordered.
  assert (Hs : StronglySorted (fun a b => Py.str_ltb a b = true)
                 (sorted Py.str_leb (Dict.keys results))).
  { apply strict_of_NoDup.
    - apply sorted_sorted; [apply str_leb_total | apply str_leb_trans].
    - eapply Permutation_NoDup; [symmetry; apply sorted_perm | assumption]. }
  induction Hs as [|name names Hn IH Hname]; cbn [flat_map]; [constructor|].
  apply StronglySorted_app; [apply group_of_sorted | assumption |].
  intros p q Hp Hq. left.
  apply group_of_name in Hp. apply in_flat_map in Hq as (n' & Hn' & Hq).
  apply group_of_name in Hq. rewrite Hp, Hq.
  rewrite Forall_forall in Hname. now apply Hname.
Qed.

(* ------------------------------------------------------------------ *)
(** * The claims of the specification *)

Lemma results_ok_all_records idx r ds :
  results_ok idx r -> In ds (all_records r) ->
  record_ok idx ds
  /\ exists name l, Dict.get name r = Some l /\ In ds l
                    /\ Dict.get "soc_name" ds = Some name.
Proof.
  intros [Hnd Hall] Hin. apply In_all_records in Hin as (name & l & Hl & Hds).
  apply (@In_get _ _ _ _ Hnd) in Hl. destruct (Hall _ _ Hl _ Hds) as [Hok Hname].
  split; [assumption|]. now exists name, l.
Qed.

Lemma In_entries (r : Dict.t (list record)) name ds :
  In (name, ds) (entries r) <-> exists l, In (name, l) r /\ In ds l.
Proof.
  unfold entries. rewrite in_flat_map. split.
  - intros ([n l] & Hin & H). cbn [fst snd] in H.
    apply in_map_iff in H as (ds' & [= <- <-] & Hds). eauto.
  - intros (l & Hin & Hds). exists (name, l). split; [assumption|].
    cbn [fst snd]. now apply in_map.
Qed.

Lemma results_ok_complete idx r : results_ok idx r -> all_complete r.
Proof.
  intros [_ Hall] name l Hl. apply Forall_forall. intros ds Hds.
  now destruct (Hall _ _ Hl _ Hds) as [[Hc _] _].
Qed.

(** C4.  The report is the preamble lines, the header row of eight
    columns, and one row per record of the results; the rows are in
    ascending order of name and, under one name, in ascending order of
    socrata id. *)
Theorem C4_report_rows_in_order (results : Dict.t (list record)) :
  NoDup (Dict.keys results) -> all_complete results ->
  exists rows,
    report results
    = Ok (map (fun hl => [hl]) header_lines
          ++ header_row :: map row_of rows)
    /\ Permutation rows (entries results)
    /\ StronglySorted row_le rows
    /\ length header_row = 8.
Proof.
  intros Hnd Hc. exists (ordered results).
  split; [now apply report_ok|].
  split; [now apply ordered_perm|].
  split; [now apply ordered_sorted | reflexivity].
Qed.

Lemma count_id_exists i l :
  0 < count_id i l ->
  exists ds, In ds l /\ Dict.get "socrata_id" ds = Some i.
Proof.
  unfold count_id. intros H.
  destruct (filter (has_id i) l) as [|ds l'] eqn:E; [cbn in H; lia|].
  assert (Hin : In ds (filter (has_id i) l)) by (rewrite E; now left).
  apply filter_In in Hin as [Hin Hid]. exists ds. split; [assumption|].
  unfold has_id in Hid. destruct (Dict.get "socrata_id" ds) as [j|];
    [|discriminate].
  apply String.eqb_eq in Hid. now subst j.
Qed.

Section Claims.

Variable World : Type.
Variable find_socrata_dataset_by_id :
  string -> World -> (option (Dict.t string) * string) * World.
Variable str_of_meta : Dict.t string -> string.
Variable requests_get : string -> World -> http * World.
Variable urlparse_path : string -> option string.
Variable path_name : string -> string.

(** C1, as amended.  In a run that reaches the report, an identifier of
    the download dictionary that [k] homepage entries carry gets [k]
    records from the main pass, which marks it consumed when [k >= 1],
    and one record from the leftover pass exactly when [k = 0]: it is
    covered by one of the two passes, never by both and never by neither,
    and by exactly one record when it occurs at most once in the homepage
    stream. *)
Theorem C1_download_id_covered_by_one_pass
    downloadsf inputf (st : state World) o st' :
  reconcile find_socrata_dataset_by_id str_of_meta requests_get
    urlparse_path path_name downloadsf inputf st = (Ok o, st') ->
  forall i, Dict.mem i (index o) = true ->
    let k := occurrences i (stream_ids urlparse_path path_name inputf) in
    count_id i (all_records (results_dict (after_main o))) = k
    /\ Dict.mem i (download_files_processed (after_main o)) = (0 <? k)
    /\ count_id i (leftovers o) = (if 0 <? k then 0 else 1)
    /\ count_id i (all_records (final_results o)) = Nat.max 1 k.
Proof.
  intros H i Hi k.
  pose proof H as Hspec. apply reconcile_spec in Hspec. cbv zeta in Hspec.
  destruct Hspec
    as (_ & _ & _ & _ & Hmain & Hproc & Hleft & Hperm).
  fold k in Hmain, Hproc, Hleft.
  assert (Hk : k = occurrences i (stream_ids urlparse_path path_name inputf))
    by reflexivity.
  rewrite (count_id_perm i Hperm), count_id_app, Hleft, Hproc, Hmain, Hi.
  rewrite <- Hk. cbn [andb].
  destruct (Nat.ltb_spec 0 k); cbn [negb]; repeat split; lia.
Qed.


(** C5.  [get_socrata_data] always returns, and what it returns is the
    catalog metadata of the specification: the sentinel name and the
    captured standard output when the lookup returned nothing; the name
    if present and the string form of the payload when the payload has an
    [error] key; name, homepage and description, each if present, and the
    string form of the payload otherwise. *)
Theorem C5_get_socrata_data_total socrata_id (st : state World) :
  exists st',
    get_socrata_data find_socrata_dataset_by_id str_of_meta socrata_id st
    = (Ok (catalog_metadata str_of_meta
             (fst (fst (find_socrata_dataset_by_id socrata_id (world st))))
             (snd (fst (find_socrata_dataset_by_id socrata_id (world st))))),
       st').
Proof.
  destruct (get_socrata_data_spec find_socrata_dataset_by_id str_of_meta
              socrata_id st) as (st' & H & _).
  now exists st'.
Qed.

(** C8, as amended.  Every key of the download dictionary is one or more
    alphanumerics, a hyphen, and one or more alphanumerics, and nothing
    else: the builder uses its own pattern and not the identifier
    validator, so the two runs need not be four characters long. *)
Theorem C8_download_keys_loose downloadsf (st : state World) idx st' :
  build_download_file_dict downloadsf st = (Ok idx, st') ->
  forall i, Dict.mem i idx = true -> loose_identifier i.
Proof.
  intros H i Hi. apply build_ok in H as [[_ Hall] _].
  apply mem_get in Hi as [l Hl]. now destruct (Hall _ _ Hl) as (_ & Hloose & _).
Qed.

(** C9.  The sample line is accepted under the key [yt7u-eiyg] with the
    timestamp [2025-01-12 19:39:15 UTC]. *)
Theorem C9_sample_line_parsed (st : state World) :
  build_download_file_dict [(Sample.births_line ++ Py.nl)%string] st
  = (Ok [("yt7u-eiyg",
          [[("download_filename", Sample.births_line);
            ("download_ts", "2025-01-12 19:39:15 UTC")]])],
     st).
Proof. vm_compute. reflexivity. Qed.

(** C10.  In a run that reaches the report, every list of the download
    dictionary is non-empty, every record appended by either pass has the
    eight fields and is stored under its own name, and the report is
    written without a failed read, the first column of each row being the
    name of its record. *)
Theorem C10_records_complete
    downloadsf inputf (st : state World) o st' :
  reconcile find_socrata_dataset_by_id str_of_meta requests_get
    urlparse_path path_name downloadsf inputf st = (Ok o, st') ->
  (forall i l, Dict.get i (index o) = Some l -> l <> [])
  /\ (forall ds,
        In ds (all_records (results_dict (after_main o)) ++ leftovers o) ->
        complete ds
        /\ exists name l,
             Dict.get name (final_results o) = Some l /\ In ds l
             /\ Dict.get "soc_name" ds = Some name)
  /\ exists rows,
       script find_socrata_dataset_by_id str_of_meta requests_get
         urlparse_path path_name downloadsf inputf st
       = (Ok (map (fun hl => [hl]) header_lines
              ++ header_row :: map row_of rows), st')
       /\ Permutation rows (entries (final_results o))
       /\ Forall (fun e => complete (snd e)
                           /\ Dict.get "soc_name" (snd e) = Some (fst e)) rows.
Proof.
  intros H.
  pose proof H as Hspec. apply reconcile_spec in Hspec. cbv zeta in Hspec.
  destruct Hspec
    as ([_ Hidx] & _ & _ & Hfinal & _ & _ & _ & Hperm).
  split; [intros i l Hl; now destruct (Hidx _ _ Hl)|]. split.
  - intros ds Hds.
    assert (Hin : In ds (all_records (final_results o))).
    { eapply Permutation_in; [symmetry; exact Hperm|].
      apply in_or_app. apply in_app_or in Hds. tauto. }
    destruct (@results_ok_all_records _ _ _ Hfinal Hin) as [[Hc _] Hn]. now split.
  - exists (ordered (final_results o)). split; [|split].
    + unfold script, bind. rewrite H. unfold lift.
      now rewrite (report_ok (@results_ok_complete _ _ Hfinal)).
    + apply ordered_perm, Hfinal.
    + eapply Permutation_Forall;
        [symmetry; apply ordered_perm, Hfinal|].
      apply Forall_forall. intros [name ds] Hin.
      apply In_entries in Hin as (l & Hl & Hds).
      destruct Hfinal as [Hnd Hall]. apply (@In_get _ _ _ _ Hnd) in Hl.
      destruct (Hall _ _ Hl _ Hds) as [[Hc _] Hname]. now split.
Qed.

End Claims.

(* ------------------------------------------------------------------ *)
(** ** The claims on the sample inputs *)

Example utc_1736710755 :
  rbind (rbind (Time.float "1736710755.963349") Time.utcfromtimestamp)
        (fun t => Ok (Time.strftime t))
  = Ok "2025-01-12 19:39:15 UTC".
Proof. vm_compute. reflexivity. Qed.

(** The fraction is rounded to microseconds before it is dropped, so a
    timestamp within half a microsecond of the next second shows it. *)
Example utc_rounds_up :
  rbind (rbind (Time.float "2.9999996") Time.utcfromtimestamp)
        (fun t => Ok (Time.strftime t))
  = Ok "1970-01-01 00:00:03 UTC".
Proof. vm_compute. reflexivity. Qed.

(** A download line that matches the pattern is not screened further: a
    timestamp past the year 9999 makes [utcfromtimestamp] raise, and the
    build ends there. *)
Example build_aborts_on_far_timestamp :
  fst (build_download_file_dict
         (Py.lines_of_text ("abcd-1234_999999999999.5_x.csv" ++ Py.nl))
         Demo.st0)
  = Raise ValueError.
Proof. vm_compute. reflexivity. Qed.

(** The three ways [utcfromtimestamp] refuses a timestamp past the year
    9999, by its size, and the last second it accepts. *)
Example utc_past_9999 :
  rbind (rbind (Time.float "253402300799.5") Time.utcfromtimestamp)
        (fun t => Ok (Time.strftime t))
  = Ok "9999-12-31 23:59:59 UTC"
  /\ rbind (Time.float "253402300800.0") Time.utcfromtimestamp
     = Raise ValueError
  /\ rbind (Time.float "67768036191676792.0") Time.utcfromtimestamp
     = Raise ValueError
  /\ rbind (Time.float "67768036191676800.0") Time.utcfromtimestamp
     = Raise OSError
  /\ rbind (Time.float "9223372036854775808.0") Time.utcfromtimestamp
     = Raise OSError
  /\ rbind (Time.float "9223372036854777856.0") Time.utcfromtimestamp
     = Raise OverflowError.
Proof. repeat split; vm_compute; reflexivity. Qed.

(** A well-formed homepage line gives an entry with its identifier. *)
Example reader_entry_of_sample_line :
  fst (get_next_homepage_url_line Demo.urlparse_path Demo.path_name
         ("https://data.cdc.gov/sitemap.xml,https://data.cdc.gov/d/abcd-1234"
          ++ Py.nl) Demo.st0)
  = Ok (Some {| socrata_id_of := Some "abcd-1234";
                homepage_url_of := "https://data.cdc.gov/d/abcd-1234" |}).
Proof. vm_compute. reflexivity. Qed.

Example is_socrata_id_examples :
  is_socrata_id "abcd-1234" = true
  /\ is_socrata_id "abcd1234" = false
  /\ is_socrata_id "ab-cd" = false.
Proof. repeat split; reflexivity. Qed.

(** A download line that does not match is logged and skipped. *)
Lemma download_entry_unmatched World line results (st : state World) :
  Re.re_search download_pattern line = None ->
  download_entry line results st
  = (Ok results,
     {| world := world st;
        trace := trace st
                 ++ [Log ERROR
                       "this downloaded file name %s cannot be mapped to a socrata_id?!? skipping it"
                       [line]] |}).
Proof. intros H. unfold download_entry. now rewrite H. Qed.

Lemma C1_witness :
  reconcile Demo.catalog Demo.str_of_meta Demo.archive Demo.urlparse_path
    Demo.path_name Sample.downloads Sample.sitemap Demo.st0
  = (Ok SampleRun.the_outcome, SampleRun.the_state)
  /\ Dict.mem "abcd-1234" (index SampleRun.the_outcome) = true
  /\ let k := occurrences "abcd-1234"
                (stream_ids Demo.urlparse_path Demo.path_name Sample.sitemap) in
     count_id "abcd-1234"
       (all_records (results_dict (after_main SampleRun.the_outcome))) = k
     /\ Dict.mem "abcd-1234"
          (download_files_processed (after_main SampleRun.the_outcome))
        = (0 <? k)
     /\ count_id "abcd-1234" (leftovers SampleRun.the_outcome)
        = (if 0 <? k then 0 else 1)
     /\ count_id "abcd-1234"
          (all_records (final_results SampleRun.the_outcome)) = Nat.max 1 k.
Proof.
  assert (H : reconcile Demo.catalog Demo.str_of_meta Demo.archive
                Demo.urlparse_path Demo.path_name Sample.downloads
                Sample.sitemap Demo.st0
              = (Ok SampleRun.the_outcome, SampleRun.the_state))
    by (vm_compute; reflexivity).
  assert (Hm : Dict.mem "abcd-1234" (index SampleRun.the_outcome) = true)
    by (vm_compute; reflexivity).
  split; [exact H|]. split; [exact Hm|].
  exact (@C1_download_id_covered_by_one_pass unit
           Demo.catalog Demo.str_of_meta Demo.archive Demo.urlparse_path
           Demo.path_name Sample.downloads Sample.sitemap Demo.st0
           SampleRun.the_outcome SampleRun.the_state H "abcd-1234" Hm).
Defined.

(** C1 as stated fails when a homepage is listed twice: the identifier
    then gets two records. *)
Lemma C1_counterexample :
  ~ (forall o st',
       reconcile Demo.catalog Demo.str_of_meta Demo.archive
         Demo.urlparse_path Demo.path_name Sample.downloads
         Sample.sitemap_twice Demo.st0 = (Ok o, st') ->
       forall i, Dict.mem i (index o) = true ->
         count_id i (all_records (final_results o)) = 1).
Proof.
  intros H.
  assert (E : reconcile Demo.catalog Demo.str_of_meta Demo.archive
                Demo.urlparse_path Demo.path_name Sample.downloads
                Sample.sitemap_twice Demo.st0
              = (Ok SampleRun.twice_outcome, SampleRun.twice_state))
    by (vm_compute; reflexivity).
  assert (Hm : Dict.mem "abcd-1234" (index SampleRun.twice_outcome) = true)
    by (vm_compute; reflexivity).
  assert (C : count_id "abcd-1234"
                (all_records (final_results SampleRun.twice_outcome)) = 2)
    by (vm_compute; reflexivity).
  specialize (H _ _ E "abcd-1234" Hm). rewrite C in H. discriminate H.
Qed.



(** On the sample, the two downloads of [abcd-1234] are kept in file
    order and its record shows the second. *)
Example last_download_of_sample :
  map (field "download_filename")
    (records_of "abcd-1234" (index SampleRun.the_outcome))
  = ["abcd-1234_1736710000.25_first.csv";
     "abcd-1234_1736713600.75_second.csv"]
  /\ map (field "dataset_snapshot_filename")
       (filter (has_id "abcd-1234")
          (all_records (final_results SampleRun.the_outcome)))
     = ["abcd-1234_1736713600.75_second.csv"]
  /\ map (field "dataset_snapshot_dl_ts")
       (filter (has_id "abcd-1234")
          (all_records (final_results SampleRun.the_outcome)))
     = ["2025-01-12 20:26:40 UTC"].
Proof. repeat split; vm_compute; reflexivity. Qed.

(** C3 fails on a download with no homepage and no catalog entry: the
    archive is asked about the empty address all the same, and its
    answer goes into the record. *)
Theorem C3_leftover_asks_archive_without_homepage :
  exists o st',
    reconcile Demo.catalog Demo.str_of_meta Demo.archive Demo.urlparse_path
      Demo.path_name [(Sample.births_line ++ Py.nl)%string] [] Demo.st0
    = (Ok o, st')
    /\ map (field "soc_homepage") (leftovers o) = [""]
    /\ map (field "homepage") (leftovers o) = [""]
    /\ map (field "internet_archive_snapshots") (leftovers o)
       = ["snapshots of http://web.archive.org/web/timemap/link/"]
    /\ existsb
         (fun e =>
            match e with
            | ArchiveCall u =>
                String.eqb u "http://web.archive.org/web/timemap/link/"
            | _ => false
            end) (trace st') = true.
Proof.
  eexists _, _. split; [vm_compute; reflexivity|].
  repeat split; vm_compute; reflexivity.
Qed.

Lemma C4_witness :
  NoDup (Dict.keys Sample.unordered)
  /\ all_complete Sample.unordered
  /\ exists rows,
       report Sample.unordered
       = Ok (map (fun hl => [hl]) header_lines
             ++ header_row :: map row_of rows)
       /\ Permutation rows (entries Sample.unordered)
       /\ StronglySorted row_le rows
       /\ length header_row = 8.
Proof.
  assert (Hnd : NoDup (Dict.keys Sample.unordered)).
  { repeat constructor; cbn; intros H;
      repeat (destruct H as [H|H]; [discriminate|]); exact H. }
  assert (Hc : all_complete Sample.unordered).
  { intros name l H. apply get_In in H. cbn in H.
    destruct H as [H|[H|[]]]; injection H as <- <-;
      repeat constructor; apply complete_fields; reflexivity. }
  split; [exact Hnd|]. split; [exact Hc|].
  exact (C4_report_rows_in_order Hnd Hc).
Defined.

Example report_unordered :
  report Sample.unordered
  = Ok (map (fun hl => [hl]) header_lines
        ++ header_row
           :: map row_of
                [ ("alpha", Sample.a_record "alpha" "5555-mmmm");
                  ("zeta", Sample.a_record "zeta" "1111-aaaa");
                  ("zeta", Sample.a_record "zeta" "9999-zzzz") ]).
Proof. vm_compute. reflexivity. Qed.

(** C6 fails for a homepage line that does not split into two parts: the
    unpacking raises [ValueError], nothing catches it, and the run ends
    without a report. *)
Theorem C6_homepage_line_not_a_pair_aborts :
  fst (script Demo.catalog Demo.str_of_meta Demo.archive Demo.urlparse_path
         Demo.path_name Sample.downloads Sample.sitemap_comma Demo.st0)
  = Raise ValueError
  /\ fst (script Demo.catalog Demo.str_of_meta Demo.archive
            Demo.urlparse_path Demo.path_name Sample.downloads
            (Py.lines_of_text ("https://data.cdc.gov/d/abcd-1234" ++ Py.nl))
            Demo.st0)
     = Raise ValueError.
Proof. split; vm_compute; reflexivity. Qed.

(** C7 fails on an identifier followed by a newline: [$] matches before a
    final newline, so the validator accepts ten characters. *)
Theorem C7_is_socrata_id_accepts_trailing_newline :
  is_socrata_id ("abcd-1234" ++ Py.nl) = true
  /\ String.length ("abcd-1234" ++ Py.nl) = 10
  /\ ~ valid_identifier ("abcd-1234" ++ Py.nl).
Proof.
  split; [reflexivity|]. split; [reflexivity|].
  intros (a & b & E & Ha & Hb & _).
  apply (f_equal String.length) in E.
  rewrite !length_append, Ha, Hb in E. discriminate.
Qed.

Lemma C8_witness :
  build_download_file_dict Sample.downloads Demo.st0
  = (Ok SampleRun.the_index, SampleRun.index_state)
  /\ Dict.mem "abcd-1234" SampleRun.the_index = true
  /\ loose_identifier "abcd-1234".
Proof.
  assert (H : build_download_file_dict Sample.downloads Demo.st0
              = (Ok SampleRun.the_index, SampleRun.index_state))
    by (vm_compute; reflexivity).
  assert (Hm : Dict.mem "abcd-1234" SampleRun.the_index = true)
    by (vm_compute; reflexivity).
  split; [exact H|]. split; [exact Hm|].
  exact (@C8_download_keys_loose unit Sample.downloads Demo.st0
           SampleRun.the_index SampleRun.index_state H "abcd-1234" Hm).
Defined.

(** C8 as stated fails on a download name whose key has five and one
    characters around the hyphen: the builder accepts it, the validator
    does not. *)
Lemma C8_counterexample :
  ~ (forall idx st',
       build_download_file_dict Sample.downloads_loose Demo.st0
       = (Ok idx, st') ->
       forall i, Dict.mem i idx = true -> is_socrata_id i = true).
Proof.
  intros H.
  assert (E : build_download_file_dict Sample.downloads_loose Demo.st0
              = (Ok SampleRun.loose_index, SampleRun.loose_state))
    by (vm_compute; reflexivity).
  assert (Hm : Dict.mem "abcde-f" SampleRun.loose_index = true)
    by (vm_compute; reflexivity).
  assert (C : is_socrata_id "abcde-f" = false) by (vm_compute; reflexivity).
  specialize (H _ _ E "abcde-f" Hm). rewrite C in H. discriminate H.
Qed.

Lemma C10_witness :
  reconcile Demo.catalog Demo.str_of_meta Demo.archive Demo.urlparse_path
    Demo.path_name Sample.downloads Sample.sitemap Demo.st0
  = (Ok SampleRun.the_outcome, SampleRun.the_state)
  /\ exists rows,
       script Demo.catalog Demo.str_of_meta Demo.archive Demo.urlparse_path
         Demo.path_name Sample.downloads Sample.sitemap Demo.st0
       = (Ok (map (fun hl => [hl]) header_lines
              ++ header_row :: map row_of rows), SampleRun.the_state)
       /\ Permutation rows (entries (final_results SampleRun.the_outcome))
       /\ Forall (fun e => complete (snd e)
                           /\ Dict.get "soc_name" (snd e) = Some (fst e))
            rows.
Proof.
  assert (H : reconcile Demo.catalog Demo.str_of_meta Demo.archive
                Demo.urlparse_path Demo.path_name Sample.downloads
                Sample.sitemap Demo.st0
              = (Ok SampleRun.the_outcome, SampleRun.the_state))
    by (vm_compute; reflexivity).
  split; [exact H|].
  exact (proj2 (proj2 (@C10_records_complete unit
                         Demo.catalog Demo.str_of_meta Demo.archive
                         Demo.urlparse_path Demo.path_name
                         Sample.downloads Sample.sitemap Demo.st0
                         SampleRun.the_outcome SampleRun.the_state H))).
Defined.

(* ------------------------------------------------------------------ *)
(** * Further properties of the script *)

(** ** The identifier validator *)

(** X1.  [is_socrata_id] accepts the four-four shape and the same followed by
    one newline, and nothing else. *)
Theorem X1_is_socrata_id_iff s :
  is_socrata_id s = true
  <-> valid_identifier s
      \/ exists t, valid_identifier t /\ s = (t ++ Py.nl)%string.
Proof.
  split; [apply is_socrata_id_true|].
  intros [H|(t & H & ->)]; now apply is_socrata_id_shape in H.
Qed.

(** ** The homepage reader *)

Lemma split_on_length sep s :
  length (Py.split_on sep s) = S (count_char sep s).
Proof.
  induction s as [|c s IH]; cbn [Py.split_on count_char]; [reflexivity|].
  destruct (Ascii.eqb c sep); cbn [length]; [now rewrite IH|].
  destruct (Py.split_on sep s); cbn in *; lia.
Qed.

Section Reader.

Variable World : Type.
Variable urlparse_path : string -> option string.
Variable path_name : string -> string.

(** X2.  A line that is not blank makes the reader raise exactly when it
    does not hold one comma, or when [urlparse] rejects what follows the
    comma.  In every other case the reader returns an entry: the text
    after the comma as the homepage, and the last segment of its path as
    the identifier when [is_socrata_id] accepts it, no identifier
    otherwise. *)
Theorem X2_reader_raises_or_returns_entry raw (st : state World) :
  is_empty (Py.rstrip raw) = false ->
  (fst (get_next_homepage_url_line urlparse_path path_name raw st)
   = Raise ValueError
   <-> (count_char "," (Py.rstrip raw) <> 1
        \/ urlparse_path (nth 1 (Py.split_on "," (Py.rstrip raw)) "")
           = None))
  /\ forall path,
       count_char "," (Py.rstrip raw) = 1 ->
       urlparse_path (nth 1 (Py.split_on "," (Py.rstrip raw)) "")
       = Some path ->
       fst (get_next_homepage_url_line urlparse_path path_name raw st)
       = Ok (Some {| socrata_id_of :=
                       if is_socrata_id (path_name path)
                       then Some (path_name path) else None;
                     homepage_url_of :=
                       nth 1 (Py.split_on "," (Py.rstrip raw)) "" |}).
Proof.
  intros Hne. destruct (get_next_spec urlparse_path path_name raw st) as [st' E].
  rewrite E. cbn [fst]. unfold homepage_entry. rewrite Hne.
  pose proof (split_on_length "," (Py.rstrip raw)) as Hlen.
  destruct (Py.split_on "," (Py.rstrip raw)) as [|x [|y [|z l]]];
    cbn [length nth] in Hlen |- *.
  - discriminate.
  - split; [split; [intros _; left; lia | reflexivity]|].
    intros path Hc. lia.
  - destruct (urlparse_path y) as [path|].
    + split.
      * split.
        -- destruct (is_socrata_id (path_name path)); discriminate.
        -- intros [H|H]; [lia | discriminate].
      * intros path' _ [= <-].
        destruct (is_socrata_id (path_name path)); reflexivity.
    + split; [split; [intros _; now right | reflexivity]|].
      intros path _ H. discriminate H.
  - split; [split; [intros _; left; lia | reflexivity]|].
    intros path Hc. lia.
Qed.

End Reader.

(** ** The download dictionary *)

Section Builder.

Variable World : Type.

Lemma build_loop_stops_at_blank_line l1 blank l2 results (st : state World) :
  is_empty (Py.rstrip blank) = true ->
  build_loop (l1 ++ blank :: l2) results st = build_loop l1 results st.
Proof.
  intros Hb. revert results st.
  induction l1 as [|raw l1 IH]; intros results st; cbn [app build_loop].
  - now rewrite Hb.
  - destruct (is_empty (Py.rstrip raw)); [reflexivity|].
    unfold bind. destruct (download_entry (Py.rstrip raw) results st)
      as [[r|e] s]; [apply IH | reflexivity].
Qed.

(** X3.  The builder reads the download list up to its first blank line: a
    line that is empty once stripped ends the build, and the names after
    it never reach the index. *)
Theorem X3_build_stops_at_blank_line l1 blank l2 (st : state World) :
  is_empty (Py.rstrip blank) = true ->
  build_download_file_dict (l1 ++ blank :: l2) st
  = build_download_file_dict l1 st.
Proof. apply build_loop_stops_at_blank_line. Qed.

Lemma existsb_eqb_mem V i (d : Dict.t V) :
  existsb (String.eqb i) (Dict.keys d) = Dict.mem i d.
Proof.
  unfold Dict.mem, Dict.keys. induction d as [|[k v] d IH]; cbn; [reflexivity|].
  destruct (String.eqb i k); [reflexivity | exact IH].
Qed.

Lemma keys_set_add V i (v : V) (d : Dict.t V) :
  Dict.keys (Dict.set i v d)
  = if existsb (String.eqb i) (Dict.keys d) then Dict.keys d
    else Dict.keys d ++ [i].
Proof. now rewrite keys_set, existsb_eqb_mem. Qed.

Lemma build_loop_keys downloadsf : forall results (st : state World) idx st',
  build_loop downloadsf results st = (Ok idx, st') ->
  Dict.keys idx = add_keys (Dict.keys results) (map fst (accepted downloadsf)).
Proof.
  induction downloadsf as [|raw rest IH]; intros results st idx st' H;
    cbn [build_loop accepted] in H |- *.
  - now injection H as <- _.
  - destruct (is_empty (Py.rstrip raw)); [now injection H as <- _|].
    apply bind_ok in H as (r & s & Hr & H).
    apply download_entry_ok in Hr. apply IH in H.
    destruct (Re.re_search download_pattern (Py.rstrip raw)) as [m|].
    + destruct Hr as (i & rec & -> & _ & _ & _ & ->).
      cbn [map fst add_keys]. now rewrite keys_set_add in H.
    + now subst r.
Qed.

(** X4.  The keys of the download dictionary are the keys of the accepted
    lines, each at the place of its first line. *)
Theorem X4_index_keys_in_file_order downloadsf (st : state World) idx st' :
  build_download_file_dict downloadsf st = (Ok idx, st') ->
  Dict.keys idx = first_seen (map fst (accepted downloadsf)).
Proof. intros H. now apply build_loop_keys in H. Qed.

End Builder.

(** ** The order of the report *)

Lemma insert_sorted_filter_key k (x : string * record) l :
  filter (fun p => String.eqb (fst p) k) (insert_sorted key_leb x l)
  = if String.eqb (fst x) k
    then x :: filter (fun p => String.eqb (fst p) k) l
    else filter (fun p => String.eqb (fst p) k) l.
Proof.
  induction l as [|y l IH]; cbn [insert_sorted filter]; [reflexivity|].
  destruct (key_leb x y) eqn:E; cbn [filter]; [reflexivity|].
  rewrite IH. destruct (String.eqb_spec (fst x) k) as [Hx|Hx]; [|reflexivity].
  destruct (String.eqb_spec (fst y) k) as [Hy|Hy]; [|reflexivity].
  unfold key_leb in E. rewrite Hx, Hy, str_leb_refl in E. discriminate.
Qed.

Lemma sorted_filter_key k (l : list (string * record)) :
  filter (fun p => String.eqb (fst p) k) (sorted key_leb l)
  = filter (fun p => String.eqb (fst p) k) l.
Proof.
  induction l as [|x l IH]; cbn [sorted filter]; [reflexivity|].
  rewrite insert_sorted_filter_key, IH. reflexivity.
Qed.

Lemma with_keys_inv l kl : with_keys l = Ok kl -> kl = map with_id l.
Proof.
  revert kl. induction l as [|ds l IH]; intros kl; cbn [with_keys map].
  - now intros [= <-].
  - unfold item, with_id, field. destruct (Dict.get "socrata_id" ds) as [v|];
      cbn [rbind]; [|discriminate].
    destruct (with_keys l) as [kl'|]; cbn [rbind]; [|discriminate].
    intros [= <-]. now rewrite (IH kl' eq_refl).
Qed.

(** X5.  Sorting by socrata id is stable: the records of one id stay in the
    order they were appended in. *)
Theorem X5_sorted_by_socrata_id_stable l l' k :
  sorted_by_socrata_id l = Ok l' ->
  filter (id_is k) l' = filter (id_is k) l.
Proof.
  unfold sorted_by_socrata_id. destruct (with_keys l) as [kl|] eqn:E;
    cbn [rbind]; [|discriminate].
  intros [= <-]. apply with_keys_inv in E. subst kl.
  assert (Hmap : forall kl : list (string * record),
             Forall (fun p => fst p = field "socrata_id" (snd p)) kl ->
             filter (id_is k) (map snd kl)
             = map snd (filter (fun p => String.eqb (fst p) k) kl)).
  { induction 1 as [|p kl Hp Hkl IH]; cbn [map filter]; [reflexivity|].
    unfold id_is at 1. rewrite <- Hp.
    destruct (String.eqb (fst p) k); cbn [map]; now rewrite IH. }
  rewrite Hmap.
  - rewrite sorted_filter_key, <- Hmap.
    + now rewrite map_map, map_id.
    + apply Forall_forall. intros p Hp.
      now apply in_map_iff in Hp as (ds & <- & _).
  - eapply Permutation_Forall; [symmetry; apply sorted_perm|].
    apply Forall_forall. intros p Hp.
    now apply in_map_iff in Hp as (ds & <- & _).
Qed.

(** ** Calls to the two services *)

Lemma count_events_app p tr tr' :
  count_events p (tr ++ tr') = count_events p tr + count_events p tr'.
Proof. unfold count_events. now rewrite filter_app, length_app. Qed.

Lemma quiet_app tr tr' : quiet tr -> quiet tr' -> quiet (tr ++ tr').
Proof. intros H H'. apply Forall_app. now split. Qed.

Lemma quiet_no_calls tr :
  quiet tr ->
  count_events is_catalog_call tr = 0
  /\ count_events is_archive_call tr = 0
  /\ count_events is_sleep tr = 0
  /\ count_events (is_pause 10) tr = 0.
Proof.
  unfold count_events. induction 1 as [|e tr He Htr IH]; cbn [filter];
    [repeat split|].
  destruct e; try contradiction; exact IH.
Qed.

Lemma quiet_log lv f a : quiet [Log lv f a].
Proof. repeat constructor. Qed.

Lemma quiet_print f a : quiet [Print f a].
Proof. repeat constructor. Qed.

Section Calls.

Variable World : Type.
Variable find_socrata_dataset_by_id :
  string -> World -> (option (Dict.t string) * string) * World.
Variable str_of_meta : Dict.t string -> string.
Variable requests_get : string -> World -> http * World.
Variable urlparse_path : string -> option string.
Variable path_name : string -> string.

Lemma emit_steps e (st : state World) x st' :
  emit e st = (Ok x, st') -> trace st' = trace st ++ [e].
Proof. unfold emit. now intros [= _ <-]. Qed.

Lemma log_steps lv f a (st : state World) x st' :
  log lv f a st = (Ok x, st') -> trace st' = trace st ++ [Log lv f a].
Proof. apply emit_steps. Qed.

(** The archive resolver never raises.  It asks the archive once, for the
    memento address of the homepage, and returns the body of a 200
    response; any other status, and a failed request, give the empty
    string. *)
Lemma archive_answer homepage_url (st : state World) :
  exists st' tr,
    get_internet_archive_snapshots requests_get homepage_url st
    = (Ok match fst (requests_get (memento_url homepage_url) (world st)) with
          | Response status_code text =>
              if status_code =? 200 then text else EmptyString
          | RequestFailed => EmptyString
          end, st')
    /\ world st' = snd (requests_get (memento_url homepage_url) (world st))
    /\ trace st' = trace st ++ ArchiveCall (memento_url homepage_url) :: tr
    /\ quiet tr.
Proof.
  unfold get_internet_archive_snapshots, bind, call_archive.
  fold (memento_url homepage_url).
  destruct (requests_get (memento_url homepage_url) (world st))
    as [[code text|] w]; cbn [fst snd].
  - destruct (code =? 200).
    + eexists _, []. split; [reflexivity|]. split; [reflexivity|].
      split; [reflexivity | constructor].
    + eexists _, [_]. split; [reflexivity|]. split; [reflexivity|].
      cbn [trace]. rewrite <- app_assoc. split; [reflexivity|].
      apply quiet_log.
  - eexists _, [_]. split; [reflexivity|]. split; [reflexivity|].
    cbn [trace]. rewrite <- app_assoc. split; [reflexivity|].
    apply quiet_print.
Qed.

Lemma archive_steps homepage_url (st : state World) s st' :
  get_internet_archive_snapshots requests_get homepage_url st = (Ok s, st') ->
  exists tr,
    trace st' = trace st ++ ArchiveCall (memento_url homepage_url) :: tr
    /\ quiet tr.
Proof.
  intros H. destruct (archive_answer homepage_url st)
    as (st1 & tr & E & _ & Ht & Hq).
  rewrite E in H. injection H as _ <-. now exists tr.
Qed.

(** The metadata resolver asks the catalog once and does nothing else to
    the outside but write to the log. *)
Lemma catalog_steps socrata_id (st : state World) r st' :
  get_socrata_data find_socrata_dataset_by_id str_of_meta socrata_id st
  = (Ok r, st') ->
  exists tr, trace st' = trace st ++ CatalogCall socrata_id :: tr /\ quiet tr.
Proof.
  unfold get_socrata_data. intros H.
  apply bind_ok in H as ([meta out] & s1 & Hc & H).
  unfold call_catalog in Hc.
  destruct (find_socrata_dataset_by_id socrata_id (world st)) as [p w].
  injection Hc as _ <-.
  apply bind_ok in H as (? & s2 & Hlog & H).
  assert (Hq1 : exists t1, trace s2 = (trace st ++ [CatalogCall socrata_id]) ++ t1
                           /\ quiet t1).
  { destruct (negb (is_empty out)).
    - apply log_steps in Hlog. cbn [trace] in Hlog. eexists. split; [exact Hlog|].
      apply quiet_log.
    - apply ret_ok in Hlog as [_ ->]. exists []. cbn [trace].
      rewrite app_nil_r. split; [reflexivity | constructor]. }
  destruct Hq1 as (t1 & Ht1 & Hq1).
  apply bind_ok in H as (r1 & s3 & Hr1 & H).
  assert (Hq2 : exists t2, trace s3 = trace s2 ++ t2 /\ quiet t2).
  { destruct meta as [[|kv meta]|].
    - apply bind_ok in Hr1 as (? & s & Hl & Hr1). apply log_steps in Hl.
      apply ret_ok in Hr1 as [_ ->]. eexists. split; [exact Hl | apply quiet_log].
    - destruct (Dict.mem "error" (kv :: meta)).
      + apply bind_ok in Hr1 as (? & s & Hl & Hr1). apply log_steps in Hl.
        apply bind_ok in Hr1 as (? & s' & Hc & Hr1).
        apply lift_ok in Hc as [_ ->]. apply ret_ok in Hr1 as [_ ->].
        eexists. split; [exact Hl | apply quiet_log].
      + apply bind_ok in Hr1 as (? & s & Hc1 & Hr1).
        apply lift_ok in Hc1 as [_ ->].
        apply bind_ok in Hr1 as (? & s & Hc2 & Hr1).
        apply lift_ok in Hc2 as [_ ->].
        apply bind_ok in Hr1 as (? & s & Hc3 & Hr1).
        apply lift_ok in Hc3 as [_ ->]. apply ret_ok in Hr1 as [_ ->].
        exists []. rewrite app_nil_r. split; [reflexivity | constructor].
    - apply bind_ok in Hr1 as (? & s & Hl & Hr1). apply log_steps in Hl.
      apply ret_ok in Hr1 as [_ ->]. eexists. split; [exact Hl | apply quiet_log]. }
  destruct Hq2 as (t2 & Ht2 & Hq2).
  apply bind_ok in H as (? & s4 & Hi & H). apply lift_ok in Hi as [_ ->].
  apply bind_ok in H as (? & s5 & Hl & H). apply log_steps in Hl.
  apply ret_ok in H as [_ ->].
  eexists. split.
  - rewrite Hl, Ht2, Ht1. rewrite <- !app_assoc. cbn [app]. reflexivity.
  - repeat apply quiet_app; try assumption. apply quiet_log.
Qed.

Lemma reader_steps raw (st : state World) p st' :
  get_next_homepage_url_line urlparse_path path_name raw st = (Ok p, st') ->
  exists tr, trace st' = trace st ++ tr /\ quiet tr.
Proof.
  unfold get_next_homepage_url_line. intros H.
  assert (Hnil : forall s s' : state World, s' = s ->
            exists tr, trace s' = trace s ++ tr /\ quiet tr).
  { intros s s' ->. exists []. rewrite app_nil_r. split; [reflexivity | constructor]. }
  destruct (is_empty (Py.rstrip raw)); [apply ret_ok in H as [_ E]; auto|].
  destruct (Py.split_on "," (Py.rstrip raw)) as [|x [|y [|z l]]];
    try discriminate.
  destruct (urlparse_path y) as [path|]; [|discriminate].
  destruct (is_socrata_id (path_name path)); cbn [negb] in H.
  - apply ret_ok in H as [_ E]. auto.
  - apply bind_ok in H as (? & s & Hl & H). apply log_steps in Hl.
    apply ret_ok in H as [_ ->]. eexists. split; [exact Hl | apply quiet_log].
Qed.

Lemma calls_quiet tr : quiet tr -> calls_are 0 0 0 tr.
Proof. apply quiet_no_calls. Qed.

Lemma calls_app c a s c' a' s' tr tr' :
  calls_are c a s tr -> calls_are c' a' s' tr' ->
  calls_are (c + c') (a + a') (s + s') (tr ++ tr').
Proof.
  unfold calls_are. intros (H1 & H2 & H3 & H4) (H1' & H2' & H3' & H4').
  rewrite !count_events_app. repeat split; congruence.
Qed.

(** One turn of the main loop on an entry that carries an identifier
    costs one archive call, one catalog call and one pause. *)
Lemma iteration_calls idx raw again e (st : state World) e' st' :
  iteration find_socrata_dataset_by_id str_of_meta requests_get
    urlparse_path path_name idx raw again e st = (Ok e', st') ->
  match homepage_entry urlparse_path path_name raw with
  | Ok None => exists tr, trace st' = trace st ++ tr /\ quiet tr
  | Ok (Some p) =>
      match socrata_id_of p with
      | Some (String c s) =>
          exists e1 st1 tr,
            trace st1 = trace st ++ tr /\ calls_are 1 1 1 tr
            /\ again e1 st1 = (Ok e', st')
      | _ =>
          exists st1 tr,
            trace st1 = trace st ++ tr /\ quiet tr
            /\ again e st1 = (Ok e', st')
      end
  | Raise _ => False
  end.
Proof.
  intros H. unfold iteration in H.
  apply bind_ok in H as (p & s1 & Hp & H).
  destruct (reader_steps _ _ Hp) as (t1 & Ht1 & Hq1).
  destruct (get_next_spec urlparse_path path_name raw st) as [s2 E].
  rewrite E in Hp. injection Hp as Hp <-. rewrite Hp. clear Hp E.
  apply bind_ok in H as (? & s3 & Hpr & H). apply emit_steps in Hpr.
  apply bind_ok in H as (? & s4 & Hdb & H). apply log_steps in Hdb.
  assert (Hq4 : exists t4, trace s4 = trace st ++ t4 /\ quiet t4).
  { eexists. split.
    - rewrite Hdb, Hpr, Ht1, <- !app_assoc. reflexivity.
    - repeat apply quiet_app; try assumption;
        [apply quiet_print | apply quiet_log]. }
  clear Hpr Hdb Ht1 Hq1. destruct Hq4 as (t4 & Ht4 & Hq4).
  assert (Hskip : forall st0 : state World,
            bind (log INFO
                    "could not find a socrata id in %s; assuming this is not a dataset homepage and skipping to the next entry"
                    match p with
                    | Some p0 =>
                        homepage_url_of p0
                        :: match socrata_id_of p0 with
                           | Some i => [i]
                           | None => []
                           end
                    | None => []
                    end) (fun _ => again e) s4 = (Ok e', st0) ->
            exists st1 tr, trace st1 = trace st ++ tr /\ quiet tr
                           /\ again e st1 = (Ok e', st0)).
  { intros st0 Hs. apply bind_ok in Hs as (? & s5 & Hl & Hs).
    apply log_steps in Hl. exists s5. eexists. split; [|split; [|exact Hs]].
    - rewrite Hl, Ht4, <- app_assoc. reflexivity.
    - apply quiet_app; [assumption | apply quiet_log]. }
  destruct p as [[sid url]|].
  - cbn [socrata_id_of homepage_url_of] in H |- *.
    destruct sid as [[|c s]|]; [now apply Hskip | | now apply Hskip].
    clear Hskip.
    apply bind_ok in H as (snaps & s5 & Ha & H).
    apply archive_steps in Ha as (ta & Hta & Hqa).
    apply bind_ok in H as (meta & s6 & Hc & H).
    apply catalog_steps in Hc as (tc & Htc & Hqc).
    apply bind_ok in H as ([values processed] & s7 & Hv & H).
    assert (Hqv : exists tv, trace s7 = trace s6 ++ tv /\ quiet tv).
    { destruct (negb (Dict.mem (String c s) idx)).
      - apply bind_ok in Hv as (? & sa & Hl & Hv). apply log_steps in Hl.
        apply ret_ok in Hv as [_ ->]. eexists. split; [exact Hl | apply quiet_log].
      - apply bind_ok in Hv as (? & sb & Hi & Hv). apply lift_ok in Hi as [_ ->].
        apply bind_ok in Hv as (? & sa & Hl & Hv). apply log_steps in Hl.
        apply bind_ok in Hv as (? & sc & Hs & Hv). apply lift_ok in Hs as [_ ->].
        apply ret_ok in Hv as [_ ->]. eexists. split; [exact Hl | apply quiet_log]. }
    destruct Hqv as (tv & Htv & Hqv).
    apply bind_ok in H as (name & s8 & Hn & H). apply lift_ok in Hn as [_ ->].
    apply bind_ok in H as (? & s9 & Hs & H). apply emit_steps in Hs.
    eexists _, s9, _. split; [|split; [|exact H]].
    + rewrite Hs, Htv, Htc, Hta, Ht4.
      change (ArchiveCall (memento_url url) :: ta)
        with ([ArchiveCall (memento_url url)] ++ ta).
      change (CatalogCall (String c s) :: tc)
        with ([CatalogCall (String c s)] ++ tc).
      rewrite <- !app_assoc. reflexivity.
    + destruct (quiet_no_calls Hq4) as (A1 & A2 & A3 & A4).
      destruct (quiet_no_calls Hqa) as (B1 & B2 & B3 & B4).
      destruct (quiet_no_calls Hqc) as (C1 & C2 & C3 & C4).
      destruct (quiet_no_calls Hqv) as (D1 & D2 & D3 & D4).
      unfold calls_are. rewrite !count_events_app.
      rewrite A1, A2, A3, A4, B1, B2, B3, B4, C1, C2, C3, C4, D1, D2, D3, D4.
      repeat split; reflexivity.
  - clear Hskip. apply bind_ok in H as (? & s5 & Hl & H).
    apply log_steps in Hl. apply ret_ok in H as [_ ->].
    eexists. split.
    + rewrite Hl, Ht4, <- app_assoc. reflexivity.
    + apply quiet_app; [assumption | apply quiet_log].
Qed.

Lemma quiet_nil : quiet [].
Proof. constructor. Qed.

Lemma download_entry_steps line results (st : state World) results' st' :
  download_entry line results st = (Ok results', st') ->
  exists tr, trace st' = trace st ++ tr /\ quiet tr.
Proof.
  unfold download_entry. intros H.
  destruct (Re.re_search download_pattern line) as [m|].
  - apply bind_ok in H as (i & s1 & H1 & H). apply lift_ok in H1 as [_ ->].
    apply bind_ok in H as (ts & s2 & H2 & H). apply lift_ok in H2 as [_ ->].
    apply bind_ok in H as (x & s3 & H3 & H). apply lift_ok in H3 as [_ ->].
    apply bind_ok in H as (t & s4 & H4 & H). apply lift_ok in H4 as [_ ->].
    destruct (Dict.get i results).
    + apply bind_ok in H as (? & s5 & Hl & H). apply log_steps in Hl.
      apply ret_ok in H as [_ ->]. eexists. split; [exact Hl | apply quiet_log].
    + apply ret_ok in H as [_ ->]. exists []. rewrite app_nil_r.
      split; [reflexivity | apply quiet_nil].
  - apply bind_ok in H as (? & s5 & Hl & H). apply log_steps in Hl.
    apply ret_ok in H as [_ ->]. eexists. split; [exact Hl | apply quiet_log].
Qed.

Lemma build_loop_steps downloadsf :
  forall results (st : state World) idx st',
  build_loop downloadsf results st = (Ok idx, st') ->
  exists tr, trace st' = trace st ++ tr /\ quiet tr.
Proof.
  induction downloadsf as [|raw rest IH]; intros results st idx st' H;
    cbn [build_loop] in H.
  - apply ret_ok in H as [_ ->]. exists []. rewrite app_nil_r.
    split; [reflexivity | apply quiet_nil].
  - cbv zeta in H. destruct (is_empty (Py.rstrip raw)).
    + apply ret_ok in H as [_ ->]. exists []. rewrite app_nil_r.
      split; [reflexivity | apply quiet_nil].
    + apply bind_ok in H as (r1 & s1 & He & H).
      apply download_entry_steps in He as (t1 & Ht1 & Hq1).
      apply IH in H as (t2 & Ht2 & Hq2).
      exists (t1 ++ t2). split; [|now apply quiet_app].
      now rewrite Ht2, Ht1, app_assoc.
Qed.

Lemma download_entry_offline line results (st : state World) :
  world (snd (download_entry line results st)) = world st
  /\ exists tr,
       trace (snd (download_entry line results st)) = trace st ++ tr
       /\ quiet tr.
Proof.
  assert (Hnil : world st = world st
                 /\ exists tr, trace st = trace st ++ tr /\ quiet tr).
  { split; [reflexivity|]. exists []. rewrite app_nil_r.
    split; [reflexivity | apply quiet_nil]. }
  unfold download_entry, bind, lift, ret, log, emit.
  destruct (Re.re_search download_pattern line) as [m|]; cbn [snd].
  - destruct (group "socrata_id" m) as [i|]; [|exact Hnil].
    destruct (group "timestamp" m) as [ts|]; [|exact Hnil].
    destruct (Time.float ts) as [x|]; [|exact Hnil].
    destruct (Time.utcfromtimestamp x) as [t|]; [|exact Hnil].
    destruct (Dict.get i results); cbn [snd world trace]; [|exact Hnil].
    split; [reflexivity|]. eexists. split; [reflexivity | apply quiet_log].
  - cbn [world trace]. split; [reflexivity|].
    eexists. split; [reflexivity | apply quiet_log].
Qed.

Lemma build_loop_offline downloadsf : forall results (st : state World),
  world (snd (build_loop downloadsf results st)) = world st
  /\ exists tr,
       trace (snd (build_loop downloadsf results st)) = trace st ++ tr
       /\ quiet tr.
Proof.
  induction downloadsf as [|raw rest IH]; intros results st;
    cbn [build_loop]; cbv zeta.
  - split; [reflexivity|]. exists []. rewrite app_nil_r.
    split; [reflexivity | apply quiet_nil].
  - destruct (is_empty (Py.rstrip raw)).
    + split; [reflexivity|]. exists []. rewrite app_nil_r.
      split; [reflexivity | apply quiet_nil].
    + destruct (download_entry_offline (Py.rstrip raw) results st)
        as (Hw & t1 & Ht1 & Hq1).
      unfold bind.
      destruct (download_entry (Py.rstrip raw) results st) as [[r|e] s1];
        cbn [snd] in Hw, Ht1 |- *.
      * destruct (IH r s1) as (Hw2 & t2 & Ht2 & Hq2).
        split; [congruence|]. exists (t1 ++ t2).
        split; [|now apply quiet_app].
        now rewrite Ht2, Ht1, app_assoc.
      * split; [assumption|]. now exists t1.
Qed.

Lemma main_pass_calls idx inputf : forall e (st : state World) e' st',
  main_pass find_socrata_dataset_by_id str_of_meta requests_get
    urlparse_path path_name idx inputf e st = (Ok e', st') ->
  let n := length (stream_ids urlparse_path path_name inputf) in
  exists tr, trace st' = trace st ++ tr /\ calls_are n n n tr.
Proof.
  induction inputf as [|raw rest IH]; intros e st e' st' H;
    cbn [main_pass] in H; apply iteration_calls in H.
  - rewrite homepage_entry_eof in H. destruct H as (tr & Ht & Hq).
    exists tr. split; [assumption | now apply calls_quiet].
  - cbn [stream_ids].
    destruct (homepage_entry urlparse_path path_name raw) as [[p|]|err];
      [| |contradiction].
    + destruct (socrata_id_of p) as [[|c s]|].
      * destruct H as (st1 & t1 & Ht1 & Hq1 & H).
        apply IH in H as (t2 & Ht2 & Hc2). exists (t1 ++ t2).
        split; [now rewrite Ht2, Ht1, app_assoc|].
        apply (calls_app (calls_quiet Hq1) Hc2).
      * destruct H as (e1 & st1 & t1 & Ht1 & Hc1 & H).
        apply IH in H as (t2 & Ht2 & Hc2). exists (t1 ++ t2).
        split; [now rewrite Ht2, Ht1, app_assoc|].
        apply (calls_app Hc1 Hc2).
      * destruct H as (st1 & t1 & Ht1 & Hq1 & H).
        apply IH in H as (t2 & Ht2 & Hc2). exists (t1 ++ t2).
        split; [now rewrite Ht2, Ht1, app_assoc|].
        apply (calls_app (calls_quiet Hq1) Hc2).
    + destruct H as (tr & Ht & Hq).
      exists tr. split; [assumption | now apply calls_quiet].
Qed.

Lemma main_pass_length idx inputf : forall e (st : state World) e' st',
  index_ok idx ->
  main_pass find_socrata_dataset_by_id str_of_meta requests_get
    urlparse_path path_name idx inputf e st = (Ok e', st') ->
  length (all_records (results_dict e'))
  = length (all_records (results_dict e))
    + length (stream_ids urlparse_path path_name inputf).
Proof.
  induction inputf as [|raw rest IH]; intros e st e' st' Hidx H;
    cbn [main_pass] in H; apply iteration_spec in H; try assumption.
  - rewrite homepage_entry_eof in H. subst e'. cbn. now rewrite Nat.add_0_r.
  - cbn [stream_ids].
    destruct (homepage_entry urlparse_path path_name raw) as [[p|]|err];
      [| |contradiction].
    + destruct (socrata_id_of p) as [[|c s]|].
      * destruct H as [st1 H]. now apply IH in H.
      * destruct H as (values & name & st1 & _ & _ & _ & H).
        apply IH in H; [|assumption]. rewrite H.
        cbn [results_dict].
        rewrite (Permutation_length (all_records_add_result name values _)).
        cbn [length]. lia.
      * destruct H as [st1 H]. now apply IH in H.
    + subst e'. cbn. now rewrite Nat.add_0_r.
Qed.

(** *** The leftover pass *)

Lemma leftover_entry_shape idx processed i ret_ (st : state World) ret' st' :
  index_ok idx -> Dict.mem i idx = true -> Dict.mem i processed = false ->
  leftover_entry find_socrata_dataset_by_id str_of_meta requests_get
    idx processed i ret_ st = (Ok ret', st') ->
  exists n h d m snaps fn ts tr,
    ret' = ret_ ++ [leftover_record i h n h d m snaps fn ts]
    /\ trace st' = trace st ++ tr /\ calls_are 1 1 0 tr.
Proof.
  intros [_ Hall] Hmem Hproc H. unfold leftover_entry in H.
  rewrite Hproc in H. cbn [negb] in H.
  apply bind_ok in H as (? & s1 & Hlog & H). apply log_steps in Hlog.
  apply bind_ok in H as (meta & s2 & Hmeta & H).
  destruct (catalog_steps _ _ Hmeta) as (tc & Htc & Hqc).
  destruct (get_socrata_data_spec find_socrata_dataset_by_id str_of_meta i s1)
    as (s3 & E & _).
  rewrite E in Hmeta. injection Hmeta as <- <-. clear E.
  destruct (catalog_metadata_shape str_of_meta
              (fst (fst (find_socrata_dataset_by_id i (world s1))))
              (snd (fst (find_socrata_dataset_by_id i (world s1)))))
    as (n & h & d & m & E).
  rewrite E in H. clear E.
  apply bind_ok in H as (values & s4 & Hv & H).
  cbn [Dict.mem Dict.get Dict.set Dict.update Dict.empty catalog_record
       String.eqb Ascii.eqb Bool.eqb item] in Hv.
  apply bind_ok in Hv as (h1 & s5 & Hh1 & Hv).
  apply lift_ok in Hh1 as [Hh1 ->]. injection Hh1 as <-.
  apply bind_ok in Hv as (snaps & s6 & Ha & Hv).
  apply archive_steps in Ha as (ta & Hta & Hqa).
  cbn [Dict.mem Dict.get Dict.set Dict.update Dict.empty catalog_record
       String.eqb Ascii.eqb Bool.eqb item] in Hv.
  apply bind_ok in Hv as (h2 & s7 & Hh2 & Hv).
  apply lift_ok in Hh2 as [Hh2 ->]. injection Hh2 as <-.
  apply ret_ok in Hv as [-> ->].
  apply mem_get in Hmem as [l Hl]. unfold item in H. rewrite Hl in H.
  destruct (Hall _ _ Hl) as (Hne & _ & Hshape).
  apply bind_ok in H as (l' & s8 & Hl' & H).
  apply lift_ok in Hl' as [Hl' ->]. injection Hl' as <-.
  apply bind_ok in H as (v & s9 & Hv & H).
  apply lift_ok in Hv as [Hv ->].
  rewrite snapshot_loop_spec in Hv by assumption. injection Hv as <-.
  apply ret_ok in H as [-> ->].
  exists n, h, d, m, snaps, (field "download_filename" (last l [])),
    (field "download_ts" (last l [])). eexists.
  split; [reflexivity|]. split.
  - rewrite Hta, Htc, Hlog.
    change (ArchiveCall (memento_url h) :: ta)
      with ([ArchiveCall (memento_url h)] ++ ta).
    change (CatalogCall i :: tc) with ([CatalogCall i] ++ tc).
    rewrite <- !app_assoc. reflexivity.
  - destruct (quiet_no_calls Hqa) as (B1 & B2 & B3 & B4).
    destruct (quiet_no_calls Hqc) as (C1 & C2 & C3 & C4).
    unfold calls_are. rewrite !count_events_app.
    rewrite B1, B2, B3, B4, C1, C2, C3, C4. repeat split; reflexivity.
Qed.

Lemma leftover_loop_shape idx processed keys :
  forall ret_ (st : state World) ret' st',
  index_ok idx -> (forall k, In k keys -> Dict.mem k idx = true) ->
  leftover_loop find_socrata_dataset_by_id str_of_meta requests_get
    idx processed keys ret_ st = (Ok ret', st') ->
  let missed := filter (fun k => negb (Dict.mem k processed)) keys in
  exists new tr,
    ret' = ret_ ++ new
    /\ map (field "socrata_id") new = missed
    /\ Forall (fun v => field "homepage" v = field "soc_homepage" v) new
    /\ trace st' = trace st ++ tr
    /\ calls_are (length missed) (length missed) 0 tr.
Proof.
  induction keys as [|k keys IH]; intros ret_ st ret' st' Hidx Hkeys H.
  - cbn in H. apply ret_ok in H as [-> ->]. exists [], [].
    rewrite !app_nil_r. cbn. repeat split; constructor.
  - cbn [leftover_loop] in H. apply bind_ok in H as (r1 & s1 & Hk & H).
    apply IH in H as (new & t2 & -> & Hids & Hhome & Ht2 & Hc2);
      [|assumption | intros; apply Hkeys; now right].
    cbn [filter]. destruct (Dict.mem k processed) eqn:Hproc; cbn [negb].
    + unfold leftover_entry in Hk. rewrite Hproc in Hk. cbn [negb] in Hk.
      apply ret_ok in Hk as [-> ->]. now exists new, t2.
    + apply leftover_entry_shape in Hk
        as (n & h & d & m & snaps & fn & ts & t1 & -> & Ht1 & Hc1);
        [|assumption | apply Hkeys; now left | assumption].
      exists (leftover_record k h n h d m snaps fn ts :: new), (t1 ++ t2).
      rewrite <- app_assoc. split; [reflexivity|].
      split; [cbn [map]; now rewrite Hids|].
      split; [constructor; [reflexivity | assumption]|].
      split; [now rewrite Ht2, Ht1, app_assoc|].
      apply (calls_app Hc1 Hc2).
Qed.

(** *** The run, pass by pass *)

Lemma reconcile_parts downloadsf inputf (st : state World) o st' :
  reconcile find_socrata_dataset_by_id str_of_meta requests_get
    urlparse_path path_name downloadsf inputf st = (Ok o, st') ->
  exists s0 s1 s2 s3 : state World,
    trace s0 = (trace st ++ [Log INFO "documenting datasets downloaded in %s"
                               [downloads_fname]])
               ++ [Log INFO "dataset homepages are in %s" [sitemap_data_fname]]
    /\ build_download_file_dict downloadsf s0 = (Ok (index o), s1)
    /\ trace s2 = trace s1
         ++ [Log INFO "getting dataset homepages out of the sitemaps file: %s"
               [sitemap_data_fname]]
    /\ main_pass find_socrata_dataset_by_id str_of_meta requests_get
         urlparse_path path_name (index o) inputf
         {| results_dict := Dict.empty;
            download_files_processed := Dict.empty |} s2
       = (Ok (after_main o), s3)
    /\ process_leftover_download_files find_socrata_dataset_by_id
         str_of_meta requests_get (index o)
         (download_files_processed (after_main o)) s3
       = (Ok (leftovers o), st')
    /\ add_leftovers (leftovers o) (results_dict (after_main o))
       = Ok (final_results o).
Proof.
  unfold reconcile. intros H.
  apply bind_ok in H as (? & a & Ha & H). apply log_steps in Ha.
  apply bind_ok in H as (? & s0 & H0 & H). apply log_steps in H0.
  apply bind_ok in H as (idx & s1 & Hb & H).
  apply bind_ok in H as (? & s2 & H2 & H). apply log_steps in H2.
  apply bind_ok in H as (e & s3 & Hm & H).
  apply bind_ok in H as (left & s4 & Hl & H).
  apply bind_ok in H as (results & s5 & Hr & H).
  apply lift_ok in Hr as [Hr ->]. apply ret_ok in H as [-> ->].
  exists s0, s1, s2, s3. cbn [index after_main leftovers final_results].
  rewrite H0, Ha. repeat split; assumption.
Qed.

End Calls.

Section Run.

Variable World : Type.
Variable find_socrata_dataset_by_id :
  string -> World -> (option (Dict.t string) * string) * World.
Variable str_of_meta : Dict.t string -> string.
Variable requests_get : string -> World -> http * World.
Variable urlparse_path : string -> option string.
Variable path_name : string -> string.

Lemma iteration_ext idx raw again1 again2 e (st : state World) :
  (forall e1 s1, again1 e1 s1 = again2 e1 s1) ->
  iteration find_socrata_dataset_by_id str_of_meta requests_get
    urlparse_path path_name idx raw again1 e st
  = iteration find_socrata_dataset_by_id str_of_meta requests_get
      urlparse_path path_name idx raw again2 e st.
Proof.
  intros Hext. unfold iteration, bind.
  repeat match goal with
         | |- context [match ?x with _ => _ end] => destruct x
         end;
    try reflexivity; apply Hext.
Qed.

Lemma iteration_blank idx blank again e (st : state World) :
  is_empty (Py.rstrip blank) = true ->
  iteration find_socrata_dataset_by_id str_of_meta requests_get
    urlparse_path path_name idx blank again e st
  = iteration find_socrata_dataset_by_id str_of_meta requests_get
      urlparse_path path_name idx "" (@ret World engine) e st.
Proof.
  intros H. unfold iteration, get_next_homepage_url_line.
  rewrite H. reflexivity.
Qed.

(** X6.  The main loop reads the homepage stream up to its first blank line:
    a line that is empty once stripped ends the pass like the end of the
    file does, and nothing after it is read. *)
Theorem X6_main_pass_stops_at_blank_line idx l1 blank l2 :
  forall e (st : state World),
  is_empty (Py.rstrip blank) = true ->
  main_pass find_socrata_dataset_by_id str_of_meta requests_get
    urlparse_path path_name idx (l1 ++ blank :: l2) e st
  = main_pass find_socrata_dataset_by_id str_of_meta requests_get
      urlparse_path path_name idx l1 e st.
Proof.
  induction l1 as [|raw l1 IH]; intros e st H; cbn [app main_pass].
  - now apply iteration_blank.
  - apply iteration_ext. intros e1 s1. now apply IH.
Qed.

Lemma stream_ids_valid inputf i :
  In i (stream_ids urlparse_path path_name inputf) -> is_socrata_id i = true.
Proof.
  induction inputf as [|raw rest IH]; cbn [stream_ids]; [intros []|].
  unfold homepage_entry.
  destruct (is_empty (Py.rstrip raw)); [intros []|].
  destruct (Py.split_on "," (Py.rstrip raw)) as [|x [|y [|z l]]];
    try (intros []).
  destruct (urlparse_path y) as [path|]; [|intros []].
  destruct (is_socrata_id (path_name path)) eqn:E; cbn [socrata_id_of].
  - destruct (path_name path) as [|c s]; [assumption|].
    intros [<-|H]; [assumption | now apply IH].
  - assumption.
Qed.

Lemma occurrences_In i l : 0 < occurrences i l -> In i l.
Proof.
  induction l as [|j l IH]; cbn [occurrences]; [lia|].
  destruct (String.eqb_spec i j) as [->|_]; [now left|].
  intros H. right. apply IH. lia.
Qed.

Lemma count_id_In i ds l :
  In ds l -> Dict.get "socrata_id" ds = Some i -> 0 < count_id i l.
Proof.
  intros Hin Hid. unfold count_id.
  assert (H : In ds (filter (has_id i) l)).
  { apply filter_In. split; [assumption|].
    rewrite (has_id_get i ds Hid). apply String.eqb_refl. }
  destruct (filter (has_id i) l); [destruct H | cbn; lia].
Qed.

(** X7.  Every record the main pass files carries an identifier of four
    alphanumerics, a dash and four alphanumerics (possibly followed by a
    line feed): the loose identifiers the download index accepts never
    reach the results through the homepage stream. *)
Theorem X7_main_pass_ids_are_socrata_ids downloadsf inputf
    (st : state World) o st' ds :
  reconcile find_socrata_dataset_by_id str_of_meta requests_get
    urlparse_path path_name downloadsf inputf st = (Ok o, st') ->
  In ds (all_records (results_dict (after_main o))) ->
  is_socrata_id (field "socrata_id" ds) = true.
Proof.
  intros H Hin. apply reconcile_spec in H. cbv zeta in H.
  destruct H as (_ & _ & Hok & _ & Hcount & _).
  destruct (@results_ok_all_records _ _ _ Hok Hin) as [[Hc _] _].
  assert (Hid : Dict.get "socrata_id" ds = Some (field "socrata_id" ds)).
  { apply complete_mem; [assumption | now left]. }
  apply (@stream_ids_valid inputf). apply occurrences_In.
  rewrite <- Hcount. now apply (@count_id_In _ ds).
Qed.

(** X8.  The records of the leftover pass are, in the order of the download
    index, those of the identifiers that no homepage of the stream
    carried; each has the catalog's homepage as its homepage. *)
Theorem X8_leftovers_in_index_order downloadsf inputf
    (st : state World) o st' :
  reconcile find_socrata_dataset_by_id str_of_meta requests_get
    urlparse_path path_name downloadsf inputf st = (Ok o, st') ->
  map (field "socrata_id") (leftovers o)
  = filter (fun k =>
              occurrences k (stream_ids urlparse_path path_name inputf) =? 0)
      (Dict.keys (index o))
  /\ Forall (fun v => field "homepage" v = field "soc_homepage" v)
       (leftovers o).
Proof.
  intros H. pose proof H as Hspec. apply reconcile_spec in Hspec.
  cbv zeta in Hspec. destruct Hspec as (Hidx & _ & _ & _ & _ & Hproc & _).
  apply reconcile_parts in H as (s0 & s1 & s2 & s3 & _ & _ & _ & _ & Hl & _).
  unfold process_leftover_download_files in Hl.
  apply leftover_loop_shape in Hl; [|assumption | intros k; apply mem_keys].
  cbv zeta in Hl. destruct Hl as (new & tr & E & Hids & Hhome & _).
  cbn [app] in E. subst new. split; [|assumption].
  rewrite Hids. apply filter_ext_in. intros k Hk.
  apply mem_keys in Hk. rewrite Hproc, Hk. cbn [andb].
  now destruct (occurrences k (stream_ids urlparse_path path_name inputf)).
Qed.

(** X9.  Building the index contacts no service: whatever the state it
    starts from, and whether it returns or raises, it leaves the outside
    world as it was and adds log lines only.  A run that reaches the
    report has asked the catalog once and the archive once for every
    record of the report, and has paused once for every record of the
    main pass, each time for ten seconds; it has contacted no service and
    has not paused for anything else. *)
Theorem X9_run_calls_once_per_record downloadsf inputf
    (st : state World) o st' :
  reconcile find_socrata_dataset_by_id str_of_meta requests_get
    urlparse_path path_name downloadsf inputf st = (Ok o, st') ->
  (forall s : state World,
     world (snd (build_download_file_dict downloadsf s)) = world s
     /\ exists tb,
          trace (snd (build_download_file_dict downloadsf s)) = trace s ++ tb
          /\ quiet tb)
  /\ exists tr,
       trace st' = trace st ++ tr
       /\ count_events is_catalog_call tr
          = length (all_records (final_results o))
       /\ count_events is_archive_call tr
          = length (all_records (final_results o))
       /\ count_events (is_pause 10) tr
          = length (all_records (results_dict (after_main o)))
       /\ count_events is_sleep tr
          = length (all_records (results_dict (after_main o))).
Proof.
  intros H. split; [intros s; apply build_loop_offline|].
  pose proof H as Hspec. apply reconcile_spec in Hspec.
  cbv zeta in Hspec. destruct Hspec as (Hidx & _ & _ & _ & _ & _ & _ & Hperm).
  apply reconcile_parts in H
    as (s0 & s1 & s2 & s3 & H0 & Hb & H2 & Hm & Hl & _).
  apply build_loop_steps in Hb as (tb & Htb & Hqb).
  pose proof Hm as Hlen. apply main_pass_length in Hlen; [|assumption].
  apply main_pass_calls in Hm. cbv zeta in Hm.
  destruct Hm as (tm & Htm & Hcm).
  unfold process_leftover_download_files in Hl.
  apply leftover_loop_shape in Hl; [|assumption | intros k; apply mem_keys].
  cbv zeta in Hl. destruct Hl as (new & tl & E & Hids & _ & Htl & Hcl).
  cbn [app] in E. subst new.
  rewrite <- Hids, length_map in Hcl.
  rewrite (Permutation_length Hperm), length_app, Hlen.
  cbn [results_dict all_records map concat length Dict.empty Nat.add].
  eexists. split.
  - rewrite Htl, Htm, H2, Htb, H0, <- !app_assoc. reflexivity.
  - destruct (quiet_no_calls Hqb) as (B1 & B2 & B3 & B4).
    destruct Hcm as (M1 & M2 & M3 & M4). destruct Hcl as (L1 & L2 & L3 & L4).
    rewrite !count_events_app, B1, B2, B3, B4, M1, M2, M3, M4,
      L1, L2, L3, L4.
    cbn. repeat split; lia.
Qed.

End Run.

(** ** The download time *)

Lemma civil_from_days_bounds days :
  (0 <= days <= 2932896)%Z ->
  let '(y, m, d) := Time.civil_from_days days in
  (1970 <= y <= 9999 /\ 1 <= m <= 12 /\ 1 <= d <= 31)%Z.
Proof.
  intros H. unfold Time.civil_from_days. cbv zeta.
  match goal with
  | |- context [(?a <? 10)%Z] => destruct (Z.ltb_spec a 10)
  end;
    match goal with
    | |- context [(?a <=? 2)%Z] => destruct (Z.leb_spec a 2)
    end;
    Z.div_mod_to_equations; lia.
Qed.

Lemma round_half_even_nonneg n d :
  (0 <= n)%Z -> (0 < d)%Z -> (0 <= Time.round_half_even n d)%Z.
Proof.
  intros Hn Hd. unfold Time.round_half_even. cbv zeta.
  assert (0 <= n / d)%Z by (apply Z.div_pos; assumption).
  destruct (2 * (n mod d) <? d)%Z; [assumption|].
  destruct (d <? 2 * (n mod d))%Z; [lia|].
  destruct (Z.even (n / d)); lia.
Qed.

Lemma scale_nonneg n d e :
  (0 <= n)%Z -> (0 < d)%Z ->
  (0 <= fst (Time.scale n d e) /\ 0 < snd (Time.scale n d e))%Z.
Proof.
  intros Hn Hd. unfold Time.scale.
  destruct (Z.leb_spec 0 e); cbn [fst snd].
  - split; [assumption|]. apply Z.mul_pos_pos; [assumption|].
    now apply Z.pow_pos_nonneg.
  - split; [|assumption]. apply Z.mul_nonneg_nonneg; [assumption|].
    apply Z.pow_nonneg. lia.
Qed.

Lemma to_double_nonneg n d m e :
  (0 < d)%Z -> Time.to_double n d = Time.Finite m e -> (0 <= m)%Z.
Proof.
  intros Hd. unfold Time.to_double.
  destruct (Z.leb_spec n 0); [intros [= <- _]; lia|].
  cbv zeta.
  match goal with
  | |- context [Time.scale n d ?e] =>
      destruct (@scale_nonneg n d e) as [Ha Hb]; [lia | assumption |];
      destruct (Time.scale n d e) as [a b]
  end.
  cbn [fst snd] in Ha, Hb.
  match goal with
  | |- (if ?c then _ else _) = _ -> _ => destruct c; [discriminate|]
  end.
  intros [= <- _]. now apply round_half_even_nonneg.
Qed.

Lemma float_nonneg ts m e :
  Time.float ts = Ok (Time.Finite m e) -> (0 <= m)%Z.
Proof.
  unfold Time.float.
  destruct (Py.split_on "." ts) as [|i [|f [|? ?]]]; try discriminate.
  match goal with
  | |- (if ?c then _ else _) = _ -> _ => destruct c; [|discriminate]
  end.
  intros [= H]. apply to_double_nonneg in H; [assumption|].
  apply Z.pow_pos_nonneg; lia.
Qed.

Lemma utcfromtimestamp_in_range ts x t :
  Time.float ts = Ok x -> Time.utcfromtimestamp x = Ok t -> calendar_time t.
Proof.
  intros Hf Hu. destruct x as [m e|]; [|discriminate].
  apply float_nonneg in Hf. unfold Time.utcfromtimestamp in Hu.
  cbv zeta in Hu.
  set (intpart := (if (0 <=? e)%Z then (m * 2 ^ e)%Z else (m / 2 ^ (- e))%Z))
    in Hu.
  set (fnum := (if (0 <=? e)%Z then 0%Z else (m mod 2 ^ (- e))%Z)) in Hu.
  set (fden := (if (0 <=? e)%Z then 1%Z else (2 ^ (- e))%Z)) in Hu.
  assert (Hint : (0 <= intpart)%Z).
  { subst intpart. destruct (Z.leb_spec 0 e).
    - apply Z.mul_nonneg_nonneg; [assumption | apply Z.pow_nonneg; lia].
    - apply Z.div_pos; [assumption | apply Z.pow_pos_nonneg; lia]. }
  assert (Hden : (0 < fden)%Z).
  { subst fden. destruct (Z.leb_spec 0 e); [lia|].
    apply Z.pow_pos_nonneg; lia. }
  destruct (Time.to_double (fnum * 1000000) fden) as [m' e'|] eqn:Ed;
    [|discriminate].
  apply to_double_nonneg in Ed; [|assumption].
  destruct (@scale_nonneg m' 1 (- e')%Z) as [Ha Hb]; [assumption | lia |].
  destruct (Time.scale m' 1 (- e')) as [a b]. cbn [fst snd] in Ha, Hb.
  pose proof (round_half_even_nonneg Ha Hb) as Hus.
  set (us := Time.round_half_even a b) in Hu, Hus.
  set (secs := (if (1000000 <=? us)%Z then (intpart + 1)%Z else intpart))
    in Hu.
  assert (Hsecs : (0 <= secs)%Z).
  { subst secs. destruct (1000000 <=? us)%Z; lia. }
  destruct (2 ^ 63 <? secs)%Z; [discriminate|].
  destruct (Time.gmtime_max_seconds <? secs)%Z; [discriminate|].
  destruct (Z.ltb_spec Time.max_seconds secs) as [|Hmax]; [discriminate|].
  unfold Time.max_seconds in Hmax.
  assert (Hdays : (0 <= secs / 86400 <= 2932896)%Z).
  { Z.div_mod_to_equations. lia. }
  apply civil_from_days_bounds in Hdays.
  destruct (Time.civil_from_days (secs / 86400)) as [[y mo] d].
  injection Hu as <-. unfold calendar_time.
  cbn [Time.year Time.month Time.day Time.hour Time.minute Time.second].
  destruct Hdays as (Hy & Hm & Hd).
  split; [assumption|]. split; [assumption|]. split; [assumption|].
  Z.div_mod_to_equations. lia.
Qed.

Lemma utcfromtimestamp_raises x e :
  Time.utcfromtimestamp x = Raise e ->
  e = ValueError \/ e = OSError \/ e = OverflowError.
Proof.
  unfold Time.utcfromtimestamp.
  destruct x as [m ex|]; [|intros [= <-]; now right; right].
  cbv zeta.
  match goal with
  | |- match ?d with _ => _ end = _ -> _ =>
      destruct d as [m' e'|]; [|intros [= <-]; now right; right]
  end.
  destruct (Time.scale m' 1 (- e')) as [a b].
  match goal with
  | |- (if ?c then _ else _) = _ -> _ =>
      destruct c; [intros [= <-]; now right; right|]
  end.
  match goal with
  | |- (if ?c then _ else _) = _ -> _ =>
      destruct c; [intros [= <-]; now right; left|]
  end.
  match goal with
  | |- (if ?c then _ else _) = _ -> _ =>
      destruct c; [intros [= <-]; now left|]
  end.
  destruct (Time.civil_from_days _) as [[y mo] d]. discriminate.
Qed.

Lemma isdigit_not_dot c : Py.isdigit c = true -> Ascii.eqb c "." = false.
Proof.
  intros H. destruct (Ascii.eqb_spec c "."); [subst c; discriminate H|].
  reflexivity.
Qed.

Lemma split_on_digits s :
  Py.all_chars Py.isdigit s = true -> Py.split_on "." s = [s].
Proof.
  induction s as [|c s IH]; cbn [Py.all_chars Py.split_on]; [reflexivity|].
  intros H. apply andb_prop in H as [Hc Hs].
  now rewrite (isdigit_not_dot _ Hc), (IH Hs).
Qed.

Lemma split_on_decimal i f :
  Py.all_chars Py.isdigit i = true -> Py.all_chars Py.isdigit f = true ->
  Py.split_on "." (i ++ "." ++ f) = [i; f].
Proof.
  intros Hi Hf. change ("." ++ f)%string with (String "." f).
  induction i as [|c i IH]; cbn [append Py.split_on].
  - cbn. now rewrite (split_on_digits _ Hf).
  - cbn [Py.all_chars] in Hi. apply andb_prop in Hi as [Hc Hi].
    now rewrite (isdigit_not_dot _ Hc), (IH Hi).
Qed.

Lemma float_of_decimal i f :
  run_of Py.isdigit i -> run_of Py.isdigit f ->
  exists x, Time.float (i ++ "." ++ f) = Ok x.
Proof.
  intros [Hi Hdi] [Hf Hdf]. unfold Time.float.
  rewrite (split_on_decimal _ _ Hdi Hdf), Hdi, Hdf.
  destruct i; [contradiction|]. destruct f; [contradiction|].
  cbn [Time.nonempty andb]. eauto.
Qed.

Lemma download_record_time line r :
  download_record line = Ok r ->
  exists t,
    calendar_time t
    /\ r = [("download_filename", line); ("download_ts", Time.strftime t)].
Proof.
  unfold download_record.
  destruct (Re.re_search download_pattern line) as [m|]; [|discriminate].
  intros Hr.
  apply rbind_ok in Hr as (ts & _ & Hr).
  apply rbind_ok in Hr as (x & Hx & Hr).
  apply rbind_ok in Hr as (t & Ht & [= <-]).
  exists t. split; [|reflexivity].
  exact (utcfromtimestamp_in_range _ Hx Ht).
Qed.

Lemma Forall2_In_r A B (R : A -> B -> Prop) l l' y :
  Forall2 R l l' -> In y l' -> exists x, In x l /\ R x y.
Proof.
  induction 1 as [|x y' l l' Hxy Hl IH]; [intros []|].
  intros [<-|Hin].
  - exists x. split; [now left | assumption].
  - destruct (IH Hin) as (x' & Hx' & HR). exists x'. split; [now right | assumption].
Qed.

Section Entries.

Variable World : Type.


Lemma download_entry_raises line results (st : state World) e st' :
  download_entry line results st = (Raise e, st') ->
  exists m ts x,
    Re.re_search download_pattern line = Some m
    /\ Dict.get "timestamp" m = Some ts
    /\ Time.float ts = Ok x
    /\ Time.utcfromtimestamp x = Raise e
    /\ (e = ValueError \/ e = OSError \/ e = OverflowError).
Proof.
  unfold download_entry. intros H.
  destruct (Re.re_search download_pattern line) as [m|] eqn:Hm;
    [|discriminate H].
  destruct (download_match_inv _ Hm)
    as (a & b & i & f & rest & _ & _ & _ & Hi & Hf & E).
  destruct (float_of_decimal Hi Hf) as [x Hx].
  exists m, (i ++ "." ++ f)%string, x. rewrite E.
  split; [reflexivity|]. split; [reflexivity|]. split; [assumption|].
  rewrite E in H. unfold bind, lift, group in H.
  cbn [Dict.get String.eqb Ascii.eqb Bool.eqb] in H. rewrite Hx in H.
  destruct (Time.utcfromtimestamp x) as [t|e'] eqn:Hu.
  - exfalso. destruct (Dict.get (a ++ "-" ++ b) results); discriminate H.
  - injection H as <- _. split; [reflexivity|].
    now apply utcfromtimestamp_raises in Hu.
Qed.

Lemma build_loop_raises downloadsf :
  forall results (st : state World) e st',
  build_loop downloadsf results st = (Raise e, st') ->
  exists raw m ts x,
    In raw downloadsf
    /\ Re.re_search download_pattern (Py.rstrip raw) = Some m
    /\ Dict.get "timestamp" m = Some ts
    /\ Time.float ts = Ok x
    /\ Time.utcfromtimestamp x = Raise e
    /\ (e = ValueError \/ e = OSError \/ e = OverflowError).
Proof.
  induction downloadsf as [|raw rest IH]; intros results st e st' H;
    cbn [build_loop] in H; [discriminate H|].
  cbv zeta in H. destruct (is_empty (Py.rstrip raw)); [discriminate H|].
  unfold bind in H.
  destruct (download_entry (Py.rstrip raw) results st) as [[r|e1] s1] eqn:He.
  - apply IH in H as (raw' & m & ts & x & Hin & H).
    exists raw', m, ts, x. split; [now right | assumption].
  - injection H as <- <-.
    apply download_entry_raises in He as (m & ts & x & He).
    exists raw, m, ts, x. split; [now left | assumption].
Qed.

End Entries.

(** ** How a run can abort *)

Section Aborts.

Variable World : Type.
Variable find_socrata_dataset_by_id :
  string -> World -> (option (Dict.t string) * string) * World.
Variable str_of_meta : Dict.t string -> string.
Variable requests_get : string -> World -> http * World.
Variable urlparse_path : string -> option string.
Variable path_name : string -> string.

Lemma bind_raise A B (m : M World A) (f : A -> M World B)
    (st : state World) x st' :
  bind m f st = (Raise x, st') ->
  m st = (Raise x, st')
  \/ exists a s1, m st = (Ok a, s1) /\ f a s1 = (Raise x, st').
Proof.
  unfold bind. destruct (m st) as [[a|e] s1]; intros H.
  - right. eauto.
  - left. now injection H as -> ->.
Qed.

Lemma bind_step A B (m : M World A) (f : A -> M World B)
    (st : state World) a s1 :
  m st = (Ok a, s1) -> bind m f st = f a s1.
Proof. unfold bind. now intros ->. Qed.

Lemma emit_never_raises ev (st : state World) x st' :
  emit ev st = (Raise x, st') -> False.
Proof. discriminate. Qed.

Lemma log_never_raises lv f a (st : state World) x st' :
  log lv f a st = (Raise x, st') -> False.
Proof. discriminate. Qed.

Lemma ret_never_raises A (a : A) (st : state World) x st' :
  ret a st = (Raise x, st') -> False.
Proof. discriminate. Qed.

Lemma archive_never_raises url (st : state World) x st' :
  get_internet_archive_snapshots requests_get url st = (Raise x, st') -> False.
Proof.
  destruct (archive_total requests_get url st) as (s & s1 & E).
  rewrite E. discriminate.
Qed.

Lemma catalog_never_raises i (st : state World) x st' :
  get_socrata_data find_socrata_dataset_by_id str_of_meta i st
  = (Raise x, st') -> False.
Proof.
  destruct (get_socrata_data_spec find_socrata_dataset_by_id str_of_meta i st)
    as (s1 & E & _).
  rewrite E. discriminate.
Qed.

Lemma catalog_shape i (st : state World) meta st' :
  get_socrata_data find_socrata_dataset_by_id str_of_meta i st
  = (Ok meta, st') ->
  exists n h d m, meta = catalog_record n h d m.
Proof.
  destruct (get_socrata_data_spec find_socrata_dataset_by_id str_of_meta i st)
    as (s1 & E & _).
  rewrite E. intros [= <- _]. apply catalog_metadata_shape.
Qed.

Lemma iteration_raises idx raw again e (st : state World) x st' :
  index_ok idx ->
  iteration find_socrata_dataset_by_id str_of_meta requests_get
    urlparse_path path_name idx raw again e st = (Raise x, st') ->
  homepage_entry urlparse_path path_name raw = Raise x
  \/ exists e1 s1, again e1 s1 = (Raise x, st').
Proof.
  intros [_ Hall] H. unfold iteration in H.
  destruct (get_next_spec urlparse_path path_name raw st) as [s0 E].
  apply bind_raise in H as [H|(p & s1 & Hp & H)].
  { left. rewrite E in H. now injection H as -> _. }
  right.
  apply bind_raise in H as [H|(? & s2 & _ & H)];
    [now apply emit_never_raises in H|].
  apply bind_raise in H as [H|(? & s3 & _ & H)];
    [now apply log_never_raises in H|].
  destruct p as [[sid url]|].
  2: { apply bind_raise in H as [H|(? & s4 & _ & H)];
         [now apply log_never_raises in H | now apply ret_never_raises in H]. }
  cbn [socrata_id_of homepage_url_of] in H.
  assert (Hskip : forall args,
            bind (log INFO
                    "could not find a socrata id in %s; assuming this is not a dataset homepage and skipping to the next entry"
                    args) (fun _ => again e) s3 = (Raise x, st') ->
            exists e1 s1, again e1 s1 = (Raise x, st')).
  { intros args Hs. apply bind_raise in Hs as [Hs|(? & s4 & _ & Hs)];
      [now apply log_never_raises in Hs | eauto]. }
  destruct sid as [[|c s]|]; [now apply Hskip in H | | now apply Hskip in H].
  clear Hskip.
  apply bind_raise in H as [H|(snaps & s4 & _ & H)];
    [now apply archive_never_raises in H|].
  apply bind_raise in H as [H|(meta & s5 & Hmeta & H)];
    [now apply catalog_never_raises in H|].
  apply catalog_shape in Hmeta as (n & h & d & m & ->).
  apply bind_raise in H as [H|([values processed] & s6 & Hv & H)].
  - exfalso. destruct (Dict.mem (String c s) idx) eqn:Hmem; cbn [negb] in H.
    + apply mem_get in Hmem as [l Hl].
      destruct (Hall _ _ Hl) as (Hne & _ & Hshape).
      apply bind_raise in H as [H|(l' & s7 & Hl' & H)].
      { unfold lift, item in H. rewrite Hl in H. discriminate H. }
      apply lift_ok in Hl' as [Hl' _]. unfold item in Hl'.
      rewrite Hl in Hl'. injection Hl' as <-.
      apply bind_raise in H as [H|(? & s8 & _ & H)];
        [now apply log_never_raises in H|].
      apply bind_raise in H as [H|(? & s9 & _ & H)];
        [|now apply ret_never_raises in H].
      unfold lift in H. rewrite snapshot_loop_spec in H by assumption.
      discriminate H.
    + apply bind_raise in H as [H|(? & s7 & _ & H)];
        [now apply log_never_raises in H | now apply ret_never_raises in H].
  - assert (Hname : exists name, item "soc_name" values = Ok name).
    { destruct (Dict.mem (String c s) idx) eqn:Hmem; cbn [negb] in Hv.
      - apply mem_get in Hmem as [l Hl].
        destruct (Hall _ _ Hl) as (Hne & _ & Hshape).
        apply bind_ok in Hv as (l' & s7 & Hl' & Hv).
        apply lift_ok in Hl' as [Hl' _]. unfold item in Hl'.
        rewrite Hl in Hl'. injection Hl' as <-.
        apply bind_ok in Hv as (? & s8 & _ & Hv).
        apply bind_ok in Hv as (v & s9 & Hs & Hv).
        apply lift_ok in Hs as [Hs _].
        rewrite snapshot_loop_spec in Hs by assumption.
        injection Hs as <-. apply ret_ok in Hv as [Hv _].
        injection Hv as -> _. exists n. reflexivity.
      - apply bind_ok in Hv as (? & s7 & _ & Hv).
        apply ret_ok in Hv as [Hv _]. injection Hv as -> _.
        exists n. reflexivity. }
    destruct Hname as [name Hname].
    apply bind_raise in H as [H|(? & s7 & _ & H)].
    { unfold lift in H. rewrite Hname in H. discriminate H. }
    apply bind_raise in H as [H|(? & s8 & _ & H)];
      [now apply emit_never_raises in H | eauto].
Qed.

Lemma main_pass_raises idx inputf : forall e (st : state World) x st',
  index_ok idx ->
  main_pass find_socrata_dataset_by_id str_of_meta requests_get
    urlparse_path path_name idx inputf e st = (Raise x, st') ->
  exists raw,
    In raw inputf
    /\ homepage_entry urlparse_path path_name raw = Raise x.
Proof.
  induction inputf as [|raw rest IH]; intros e st x st' Hidx H;
    cbn [main_pass] in H; apply iteration_raises in H; try assumption.
  - exfalso. destruct H as [H|(e1 & s1 & H)]; [discriminate H|].
    now apply ret_never_raises in H.
  - destruct H as [H|(e1 & s1 & H)].
    + exists raw. split; [now left | assumption].
    + apply IH in H as (raw' & Hin & H); [|assumption].
      exists raw'. split; [now right | assumption].
Qed.

Lemma homepage_entry_raises raw x :
  homepage_entry urlparse_path path_name raw = Raise x -> x = ValueError.
Proof.
  unfold homepage_entry. destruct (is_empty (Py.rstrip raw)); [discriminate|].
  destruct (Py.split_on "," (Py.rstrip raw)) as [|a [|b [|c l]]];
    try (now intros [= <-]).
  destruct (urlparse_path b); [|now intros [= <-]].
  destruct (is_socrata_id (path_name s)); discriminate.
Qed.

Lemma leftover_entry_total idx processed i ret_ (st : state World) :
  index_ok idx -> Dict.mem i idx = true ->
  exists ret' st',
    leftover_entry find_socrata_dataset_by_id str_of_meta requests_get
      idx processed i ret_ st = (Ok ret', st').
Proof.
  intros [_ Hall] Hmem. unfold leftover_entry.
  destruct (Dict.mem i processed); cbn [negb]; [eexists _, _; reflexivity|].
  erewrite bind_step by reflexivity.
  match goal with
  | |- context [bind (get_socrata_data _ _ _) _ ?s] =>
      destruct (get_socrata_data_spec find_socrata_dataset_by_id
                  str_of_meta i s) as (s1 & E & _);
      destruct (catalog_metadata_shape str_of_meta
                  (fst (fst (find_socrata_dataset_by_id i (world s))))
                  (snd (fst (find_socrata_dataset_by_id i (world s)))))
        as (n & h & d & m & Em)
  end.
  rewrite Em in E. rewrite (@bind_step _ _ _ _ _ _ _ E).
  cbn [Dict.mem Dict.get Dict.set Dict.update Dict.empty catalog_record
       String.eqb Ascii.eqb Bool.eqb item].
  destruct (archive_total requests_get h s1) as (snaps & s2 & Ea).
  apply mem_get in Hmem as [l Hl].
  destruct (Hall _ _ Hl) as (Hne & _ & Hshape).
  match goal with
  | |- exists ret' st', bind ?blk _ _ = _ =>
      assert (Hb : exists v, blk s1 = (Ok v, s2))
  end.
  { erewrite bind_step by reflexivity. rewrite (@bind_step _ _ _ _ _ _ _ Ea).
    cbn [Dict.mem Dict.get Dict.set Dict.update Dict.empty catalog_record
         String.eqb Ascii.eqb Bool.eqb item].
    erewrite bind_step by reflexivity. eexists. reflexivity. }
  destruct Hb as [v Hb]. rewrite (@bind_step _ _ _ _ _ _ _ Hb).
  unfold item. rewrite Hl. erewrite bind_step by reflexivity.
  rewrite snapshot_loop_spec by assumption.
  erewrite bind_step by reflexivity. eexists _, _. reflexivity.
Qed.

Lemma leftover_loop_total idx processed keys :
  forall ret_ (st : state World),
  index_ok idx -> (forall k, In k keys -> Dict.mem k idx = true) ->
  exists ret' st',
    leftover_loop find_socrata_dataset_by_id str_of_meta requests_get
      idx processed keys ret_ st = (Ok ret', st').
Proof.
  induction keys as [|k keys IH]; intros ret_ st Hidx Hkeys;
    cbn [leftover_loop]; [eexists _, _; reflexivity|].
  destruct (@leftover_entry_total idx processed k ret_ st Hidx)
    as (r1 & s1 & E); [apply Hkeys; now left|].
  rewrite (@bind_step _ _ _ _ _ _ _ E). apply IH; [assumption|].
  intros k' Hk'. apply Hkeys. now right.
Qed.


End Aborts.

(* ------------------------------------------------------------------ *)
(** ** The further properties on the sample inputs *)

Lemma X2_witness :
  is_empty (Py.rstrip Edge.comma_line) = false
  /\ (fst (get_next_homepage_url_line Demo.urlparse_path Demo.path_name
             Edge.comma_line Demo.st0) = Raise ValueError
      <-> (count_char "," (Py.rstrip Edge.comma_line) <> 1
           \/ Demo.urlparse_path
                (nth 1 (Py.split_on "," (Py.rstrip Edge.comma_line))
                   EmptyString) = None))
  /\ forall path,
       count_char "," (Py.rstrip Edge.comma_line) = 1 ->
       Demo.urlparse_path
         (nth 1 (Py.split_on "," (Py.rstrip Edge.comma_line)) EmptyString)
       = Some path ->
       fst (get_next_homepage_url_line Demo.urlparse_path Demo.path_name
              Edge.comma_line Demo.st0)
       = Ok (Some {| socrata_id_of :=
                       if is_socrata_id (Demo.path_name path)
                       then Some (Demo.path_name path) else None;
                     homepage_url_of :=
                       nth 1 (Py.split_on "," (Py.rstrip Edge.comma_line))
                         EmptyString |}).
Proof.
  assert (H : is_empty (Py.rstrip Edge.comma_line) = false)
    by (vm_compute; reflexivity).
  split; [exact H|].
  exact (@X2_reader_raises_or_returns_entry unit Demo.urlparse_path
           Demo.path_name Edge.comma_line Demo.st0 H).
Defined.

Lemma X3_witness :
  is_empty (Py.rstrip Py.nl) = true
  /\ build_download_file_dict
       (Sample.downloads ++ Py.nl :: Sample.downloads_loose) Demo.st0
     = build_download_file_dict Sample.downloads Demo.st0.
Proof.
  assert (H : is_empty (Py.rstrip Py.nl) = true) by (vm_compute; reflexivity).
  split; [exact H|].
  exact (@X3_build_stops_at_blank_line unit Sample.downloads Py.nl
           Sample.downloads_loose Demo.st0 H).
Defined.

Lemma X4_witness :
  build_download_file_dict Sample.downloads Demo.st0
  = (Ok SampleRun.the_index, SampleRun.index_state)
  /\ Dict.keys SampleRun.the_index
     = first_seen (map fst (accepted Sample.downloads)).
Proof.
  assert (H : build_download_file_dict Sample.downloads Demo.st0
              = (Ok SampleRun.the_index, SampleRun.index_state))
    by (vm_compute; reflexivity).
  split; [exact H|].
  exact (@X4_index_keys_in_file_order unit Sample.downloads Demo.st0
           SampleRun.the_index SampleRun.index_state H).
Defined.

Lemma X5_witness :
  sorted_by_socrata_id Edge.tied = Ok Edge.tied_sorted
  /\ filter (id_is "9999-zzzz") Edge.tied_sorted
     = filter (id_is "9999-zzzz") Edge.tied.
Proof.
  assert (H : sorted_by_socrata_id Edge.tied = Ok Edge.tied_sorted)
    by (vm_compute; reflexivity).
  split; [exact H|].
  exact (@X5_sorted_by_socrata_id_stable Edge.tied Edge.tied_sorted
           "9999-zzzz" H).
Defined.

Lemma X6_witness :
  is_empty (Py.rstrip Py.nl) = true
  /\ main_pass Demo.catalog Demo.str_of_meta Demo.archive Demo.urlparse_path
       Demo.path_name SampleRun.the_index
       (Sample.sitemap ++ Py.nl :: Sample.sitemap_twice) Edge.start Demo.st0
     = main_pass Demo.catalog Demo.str_of_meta Demo.archive
         Demo.urlparse_path Demo.path_name SampleRun.the_index
         Sample.sitemap Edge.start Demo.st0.
Proof.
  assert (H : is_empty (Py.rstrip Py.nl) = true) by (vm_compute; reflexivity).
  split; [exact H|].
  exact (@X6_main_pass_stops_at_blank_line unit Demo.catalog Demo.str_of_meta
           Demo.archive Demo.urlparse_path Demo.path_name SampleRun.the_index
           Sample.sitemap Py.nl Sample.sitemap_twice Edge.start Demo.st0 H).
Defined.

Lemma X7_witness :
  reconcile Demo.catalog Demo.str_of_meta Demo.archive Demo.urlparse_path
    Demo.path_name Sample.downloads Sample.sitemap Demo.st0
  = (Ok SampleRun.the_outcome, SampleRun.the_state)
  /\ In Edge.main_record_of_run
       (all_records (results_dict (after_main SampleRun.the_outcome)))
  /\ is_socrata_id (field "socrata_id" Edge.main_record_of_run) = true.
Proof.
  assert (H : reconcile Demo.catalog Demo.str_of_meta Demo.archive
                Demo.urlparse_path Demo.path_name Sample.downloads
                Sample.sitemap Demo.st0
              = (Ok SampleRun.the_outcome, SampleRun.the_state))
    by (vm_compute; reflexivity).
  assert (Hin : In Edge.main_record_of_run
                  (all_records
                     (results_dict (after_main SampleRun.the_outcome))))
    by (vm_compute; left; reflexivity).
  split; [exact H|]. split; [exact Hin|].
  exact (@X7_main_pass_ids_are_socrata_ids unit Demo.catalog Demo.str_of_meta
           Demo.archive Demo.urlparse_path Demo.path_name Sample.downloads
           Sample.sitemap Demo.st0 SampleRun.the_outcome SampleRun.the_state
           Edge.main_record_of_run H Hin).
Defined.

Lemma X8_witness :
  reconcile Demo.catalog Demo.str_of_meta Demo.archive Demo.urlparse_path
    Demo.path_name Sample.downloads Sample.sitemap Demo.st0
  = (Ok SampleRun.the_outcome, SampleRun.the_state)
  /\ map (field "socrata_id") (leftovers SampleRun.the_outcome)
     = filter (fun k =>
                 occurrences k
                   (stream_ids Demo.urlparse_path Demo.path_name
                      Sample.sitemap) =? 0)
         (Dict.keys (index SampleRun.the_outcome))
  /\ Forall (fun v => field "homepage" v = field "soc_homepage" v)
       (leftovers SampleRun.the_outcome).
Proof.
  assert (H : reconcile Demo.catalog Demo.str_of_meta Demo.archive
                Demo.urlparse_path Demo.path_name Sample.downloads
                Sample.sitemap Demo.st0
              = (Ok SampleRun.the_outcome, SampleRun.the_state))
    by (vm_compute; reflexivity).
  split; [exact H|].
  exact (@X8_leftovers_in_index_order unit Demo.catalog Demo.str_of_meta
           Demo.archive Demo.urlparse_path Demo.path_name Sample.downloads
           Sample.sitemap Demo.st0 SampleRun.the_outcome SampleRun.the_state
           H).
Defined.

Lemma X9_witness :
  reconcile Demo.catalog Demo.str_of_meta Demo.archive Demo.urlparse_path
    Demo.path_name Sample.downloads Sample.sitemap_twice Demo.st0
  = (Ok SampleRun.twice_outcome, SampleRun.twice_state)
  /\ (forall s : state unit,
        world (snd (build_download_file_dict Sample.downloads s)) = world s
        /\ exists tb,
             trace (snd (build_download_file_dict Sample.downloads s))
             = trace s ++ tb
             /\ quiet tb)
  /\ exists tr,
       trace SampleRun.twice_state = trace Demo.st0 ++ tr
       /\ count_events is_catalog_call tr
          = length (all_records (final_results SampleRun.twice_outcome))
       /\ count_events is_archive_call tr
          = length (all_records (final_results SampleRun.twice_outcome))
       /\ count_events (is_pause 10) tr
          = length
              (all_records (results_dict (after_main SampleRun.twice_outcome)))
       /\ count_events is_sleep tr
          = length
              (all_records (results_dict (after_main SampleRun.twice_outcome))).
Proof.
  assert (H : reconcile Demo.catalog Demo.str_of_meta Demo.archive
                Demo.urlparse_path Demo.path_name Sample.downloads
                Sample.sitemap_twice Demo.st0
              = (Ok SampleRun.twice_outcome, SampleRun.twice_state))
    by (vm_compute; reflexivity).
  split; [exact H|].
  exact (@X9_run_calls_once_per_record unit Demo.catalog Demo.str_of_meta
           Demo.archive Demo.urlparse_path Demo.path_name Sample.downloads
           Sample.sitemap_twice Demo.st0 SampleRun.twice_outcome
           SampleRun.twice_state H).
Defined.


